(** * The devmapper DeviceSet: thin-pool device manager

    A shallow embedding of [daemon/graphdriver/devmapper/deviceset.go]
    (docker 1.5.0).  Methods on [*DeviceSet] become actions of a small
    state monad over a [World]: the DeviceSet itself, the files of the
    metadata directory, and the history of calls made to the outside
    (libdevmapper, syscalls, the file system, the logger).  The outside
    answers through an environment [Env] that is a function of that
    history, so every theorem holds for every behaviour of the kernel
    and of the disk.

    Execution is sequential: the mutexes of the source are not modelled,
    and the places where the global lock is dropped around a sleep are
    plain no-ops. *)

From Stdlib Require Import ZArith Lia Bool.
From stdpp Require Import base option list gmap strings.

Local Open Scope Z_scope.

(** ** Machine integers *)

(** Go's [int] (64 bits on the platforms docker runs on) and [uint64],
    as [Z] with the wrap-around written out. *)
Definition wrap_int (z : Z) : Z := (z + 2 ^ 63) mod 2 ^ 64 - 2 ^ 63.
Definition wrap_uint64 (z : Z) : Z := z mod 2 ^ 64.

Definition wrap_uint32 (z : Z) : Z := z mod 2 ^ 32.

Definition max_int : Z := 2 ^ 63 - 1.
Definition max_uint64 : Z := 2 ^ 64 - 1.

(** ** Errors *)

(** [fmt.Errorf] keeps its format and its arguments; errors that come
    from outside are opaque codes, except the few the code compares
    against. *)
Inductive error : Type :=
| ErrShortWrite                      (* io.ErrShortWrite *)
| ErrBusy                            (* devicemapper.ErrBusy *)
| ErrNotExist                        (* an error for which os.IsNotExist holds *)
| ErrExist                           (* an error for which os.IsExist holds *)
| Errno (n : Z)                      (* syscall.Errno *)
| ErrNotSupported                    (* graphdriver.ErrNotSupported *)
| ErrDm (code : Z)                   (* any other libdevmapper / library error *)
| ErrNew (msg : string)              (* errors.New *)
| Errorf (format : string) (args : list fmt_arg)
with fmt_arg : Type :=
| ArgS (s : string)
| ArgD (z : Z)
| ArgE (e : error).

Definition EINVAL : error := Errno 22.

Definition os_IsNotExist (e : error) : bool :=
  match e with ErrNotExist => true | _ => false end.

Definition os_IsExist (e : error) : bool :=
  match e with ErrExist => true | _ => false end.

Definition is_ErrBusy (e : error) : bool :=
  match e with ErrBusy => true | _ => false end.

Definition is_EINVAL (e : error) : bool :=
  match e with Errno n => n =? 22 | _ => false end.

(** A Go result [(T, error)]. *)
Inductive result (T : Type) : Type :=
| Ok (v : T)
| Err (e : error).
Arguments Ok {T} v.
Arguments Err {T} e.

(** ** Constants *)

Definition MaxDeviceId : Z := 0xffffff.
Definition DeviceIdMapSz : Z := (MaxDeviceId + 1) / 8.

(* Simplification leaves the two sizes folded: unfolded, they end up as
   unary numbers of millions of digits. *)
Arguments MaxDeviceId : simpl never.
Arguments DeviceIdMapSz : simpl never.

Definition DefaultDataLoopbackSize : Z := 100 * 1024 * 1024 * 1024.
Definition DefaultMetaDataLoopbackSize : Z := 2 * 1024 * 1024 * 1024.
Definition DefaultBaseFsSize : Z := 10 * 1024 * 1024 * 1024.
Definition DefaultThinpBlockSize : Z := 128.

Definition deviceSetMetaFile : string := "deviceset-metadata".
Definition transactionMetaFile : string := "transaction-metadata".

(** [os.O_RDWR] and [os.O_CREATE] on Linux. *)
Definition O_RDWR : Z := 2.
Definition O_CREATE : Z := 64.

Definition newline : string := String (Ascii.ascii_of_nat 10) EmptyString.

Definition MNT_DETACH : Z := 2.
Definition MS_MGC_VAL : Z := 0xC0ED0000.

(** ** Data model *)

Record Transaction : Type := mkTransaction {
  OpenTransactionId : Z;     (* uint64 *)
  DeviceIdHash : string;
  tx_DeviceId : Z            (* int *)
}.

(** [DevInfo] without its back pointer to the DeviceSet and its mutex;
    the device prefix the pointer is used for is read from the
    DeviceSet where [Name] is called. *)
Record DevInfo : Type := mkDevInfo {
  Hash : string;
  DeviceId : Z;              (* int *)
  Size : Z;                  (* uint64 *)
  info_TransactionId : Z;    (* uint64 *)
  Initialized : bool;
  mountCount : Z;            (* int *)
  mountPath : string
}.

Record DeviceSet : Type := mkDeviceSet {
  Devices : gmap string DevInfo;
  root : string;
  devicePrefix : string;
  TransactionId : Z;         (* uint64 *)
  NextDeviceId : Z;          (* int *)
  deviceIdMap : list Z;      (* []byte *)
  dataLoopbackSize : Z;
  metaDataLoopbackSize : Z;
  baseFsSize : Z;
  filesystem : string;
  mountOptions : string;
  mkfsArgs : list string;
  dataDevice : string;
  dataLoopFile : string;
  metadataDevice : string;
  metadataLoopFile : string;
  doBlkDiscard : bool;
  thinpBlockSize : Z;
  thinPoolDevice : string;
  transaction : Transaction
}.

(** ** The outside world *)

(** What [devicemapper.GetInfo] reports about a device. *)
Record DmInfo : Type := mkDmInfo {
  Exists : Z;
  OpenCount : Z
}.

(** The two levels of [pkg/devicemapper] the code hands to
    [LogInitVerbose]. *)
Inductive LogLevel : Type := LogLevelWarn | LogLevelDebug.

(** What the code reads of an [os.FileInfo]. *)
Record FileInfo : Type := mkFileInfo {
  fi_Name : string;
  fi_IsDir : bool
}.

(** Every call that leaves the package, with its arguments. *)
Inductive Event : Type :=
| EvCreateDevice (pool : string) (deviceId : Z)
| EvCreateSnapDevice (pool : string) (deviceId : Z) (baseName : string) (baseDeviceId : Z)
| EvDeleteDevice (pool : string) (deviceId : Z)
| EvSetTransactionId (pool : string) (oldId newId : Z)
| EvActivateDevice (pool name : string) (deviceId size : Z)
| EvRemoveDevice (name : string)
| EvBlockDeviceDiscard (devname : string)
| EvGetInfo (name : string)
| EvGetStatus (name : string)
| EvProbeFsType (devname : string)
| EvMount (source target fstype : string) (flags : Z) (data : string)
| EvUnmount (target : string) (flags : Z)
| EvExec (name : string) (args : list string)
| EvSleep (ms : Z)
| EvReadFile (path : string)
| EvTempFile (dir prefix : string)
| EvWrite (name : string) (data : list Byte.byte)
| EvSync (name : string)
| EvClose (name : string)
| EvRename (oldpath newpath : string)
| EvRemoveAll (path : string)
| EvLog (msg : string)
| EvSetDevDir (dir : string)
| EvGetenv (key : string)
| EvLogInitVerbose (level : LogLevel)
| EvLogInit
| EvGetDriverVersion
| EvUdevSetSyncSupport (syncWithUdev : bool)
| EvUdevSyncSupported
| EvMkdirAll (path : string) (perm : Z)
| EvStat (path : string)
| EvOpenFile (path : string) (flag perm : Z)
| EvTruncate (name : string) (size : Z)
| EvAttachLoopDevice (sparseName : string)
| EvCreatePool (pool dataFile metadataFile : string) (poolBlockSize : Z)
| EvReadDir (dirname : string)
| EvReadlink (name : string)
| EvCloseOnExec (fd : Z)
| EvWalk (walkRoot : string).

(** The environment answers each call from the history that ends with
    that call.  The pure library functions the code relies on
    ([path.Join], [encoding/json], [fmt.Sscanf], the helpers of
    [pkg/devicemapper] and of the package's other files) are fields of
    the same record. *)
Class Env : Type := mkEnv {
  env_err : list Event -> option error;
  env_info : list Event -> option DmInfo;
  env_str : list Event -> string;
  env_num : list Event -> Z;
  path_Join : string -> string -> string;
  DeviceIdExists : error -> bool;
  joinMountOptions : string -> string -> string;
  FormatMountLabel : string -> string -> string;
  Sscanf_pool : string -> (Z * Z * Z * Z * Z) * option error;
  json_Marshal_Transaction : Transaction -> result (list Byte.byte);
  json_Marshal_DevInfo : DevInfo -> result (list Byte.byte);
  json_Unmarshal_Transaction : list Byte.byte -> Transaction -> Transaction;
  json_Unmarshal_DevInfo : list Byte.byte -> result (Z * Z * Z * bool);
  ParseKeyValueOpt : string -> result (string * string);
  strings_ToLower : string -> string;
  strings_TrimPrefix : string -> string -> string;
  RAMInBytes : string -> result Z;
  strconv_ParseBool : string -> result bool;
  env_bool : list Event -> bool;
  env_stat : list Event -> Z * Z;
  env_names : list Event -> list string;
  env_walk : list Event -> list (string * FileInfo * option error);
  Sprintf_prefix : Z -> Z -> Z -> string;
  strconv_Atoi : string -> result Z;
  strings_HasSuffix : string -> string -> bool;
  json_Marshal_DeviceSet : Z -> result (list Byte.byte);
  json_Unmarshal_DeviceSet : list Byte.byte -> Z -> Z * option error;
  json_Unmarshal_MetaData : list Byte.byte -> result (list (string * (Z * Z * Z * bool)))
}.

Record World : Type := mkWorld {
  devices : DeviceSet;
  files : gmap string (list Byte.byte);
  trace : list Event
}.

(** ** The monad *)

(** A call either returns, with a value and the world it leaves, or does
    not: a run-time panic (slice index out of range), or a loop that is
    still running when the fuel of its model is spent. *)
Inductive stop : Type := Panic | FuelOut.

Inductive outcome (A : Type) : Type :=
| Returns (a : A) (w : World)
| Stops (s : stop).
Arguments Returns {A} a w.
Arguments Stops {A} s.

Definition M (A : Type) : Type := World -> outcome A.

Definition ret {A} (a : A) : M A := fun w => Returns a w.

Definition bind {A B} (m : M A) (k : A -> M B) : M B :=
  fun w => match m w with
           | Returns a w' => k a w'
           | Stops s => Stops s
           end.

Definition panic {A} : M A := fun _ => Stops Panic.
Definition fuel_out {A} : M A := fun _ => Stops FuelOut.

Declare Scope go_scope.
Delimit Scope go_scope with go.
Notation "x <- m ;; k" := (bind m (fun x => k))
  (at level 100, m at next level, right associativity) : go_scope.
Notation "m ;;; k" := (bind m (fun _ => k))
  (at level 100, right associativity) : go_scope.
Local Open Scope go_scope.

Definition get_devices : M DeviceSet := fun w => Returns (devices w) w.

Definition upd_devices (f : DeviceSet -> DeviceSet) (w : World) : World :=
  mkWorld (f (devices w)) (files w) (trace w).

Definition modify_devices (f : DeviceSet -> DeviceSet) : M unit :=
  fun w => Returns tt (upd_devices f w).

Definition get_files : M (gmap string (list Byte.byte)) :=
  fun w => Returns (files w) w.

Definition modify_files
    (f : gmap string (list Byte.byte) -> gmap string (list Byte.byte)) : M unit :=
  fun w => Returns tt (mkWorld (devices w) (f (files w)) (trace w)).

(** Record the call and hand back the history the environment answers
    from. *)
Definition emit (ev : Event) : M (list Event) :=
  fun w => let t := trace w ++ [ev] in
           Returns t (mkWorld (devices w) (files w) t).

(** ** Field updates *)

Definition set_Devices (v : gmap string DevInfo) (d : DeviceSet) : DeviceSet :=
  mkDeviceSet v (root d) (devicePrefix d) (TransactionId d) (NextDeviceId d)
    (deviceIdMap d) (dataLoopbackSize d) (metaDataLoopbackSize d) (baseFsSize d)
    (filesystem d) (mountOptions d) (mkfsArgs d) (dataDevice d) (dataLoopFile d)
    (metadataDevice d) (metadataLoopFile d) (doBlkDiscard d) (thinpBlockSize d)
    (thinPoolDevice d) (transaction d).

Definition set_TransactionId (v : Z) (d : DeviceSet) : DeviceSet :=
  mkDeviceSet (Devices d) (root d) (devicePrefix d) v (NextDeviceId d)
    (deviceIdMap d) (dataLoopbackSize d) (metaDataLoopbackSize d) (baseFsSize d)
    (filesystem d) (mountOptions d) (mkfsArgs d) (dataDevice d) (dataLoopFile d)
    (metadataDevice d) (metadataLoopFile d) (doBlkDiscard d) (thinpBlockSize d)
    (thinPoolDevice d) (transaction d).

Definition set_NextDeviceId (v : Z) (d : DeviceSet) : DeviceSet :=
  mkDeviceSet (Devices d) (root d) (devicePrefix d) (TransactionId d) v
    (deviceIdMap d) (dataLoopbackSize d) (metaDataLoopbackSize d) (baseFsSize d)
    (filesystem d) (mountOptions d) (mkfsArgs d) (dataDevice d) (dataLoopFile d)
    (metadataDevice d) (metadataLoopFile d) (doBlkDiscard d) (thinpBlockSize d)
    (thinPoolDevice d) (transaction d).

Definition set_deviceIdMap (v : list Z) (d : DeviceSet) : DeviceSet :=
  mkDeviceSet (Devices d) (root d) (devicePrefix d) (TransactionId d) (NextDeviceId d)
    v (dataLoopbackSize d) (metaDataLoopbackSize d) (baseFsSize d)
    (filesystem d) (mountOptions d) (mkfsArgs d) (dataDevice d) (dataLoopFile d)
    (metadataDevice d) (metadataLoopFile d) (doBlkDiscard d) (thinpBlockSize d)
    (thinPoolDevice d) (transaction d).

Definition set_transaction (v : Transaction) (d : DeviceSet) : DeviceSet :=
  mkDeviceSet (Devices d) (root d) (devicePrefix d) (TransactionId d) (NextDeviceId d)
    (deviceIdMap d) (dataLoopbackSize d) (metaDataLoopbackSize d) (baseFsSize d)
    (filesystem d) (mountOptions d) (mkfsArgs d) (dataDevice d) (dataLoopFile d)
    (metadataDevice d) (metadataLoopFile d) (doBlkDiscard d) (thinpBlockSize d)
    (thinPoolDevice d) v.

Definition set_devicePrefix (v : string) (d : DeviceSet) : DeviceSet :=
  mkDeviceSet (Devices d) (root d) v (TransactionId d) (NextDeviceId d)
    (deviceIdMap d) (dataLoopbackSize d) (metaDataLoopbackSize d)
    (baseFsSize d) (filesystem d) (mountOptions d) (mkfsArgs d) (dataDevice d)
    (dataLoopFile d) (metadataDevice d) (metadataLoopFile d) (doBlkDiscard d)
    (thinpBlockSize d) (thinPoolDevice d) (transaction d).

Definition set_dataLoopbackSize (v : Z) (d : DeviceSet) : DeviceSet :=
  mkDeviceSet (Devices d) (root d) (devicePrefix d) (TransactionId d)
    (NextDeviceId d) (deviceIdMap d) v (metaDataLoopbackSize d) (baseFsSize d)
    (filesystem d) (mountOptions d) (mkfsArgs d) (dataDevice d)
    (dataLoopFile d) (metadataDevice d) (metadataLoopFile d) (doBlkDiscard d)
    (thinpBlockSize d) (thinPoolDevice d) (transaction d).

Definition set_metaDataLoopbackSize (v : Z) (d : DeviceSet) : DeviceSet :=
  mkDeviceSet (Devices d) (root d) (devicePrefix d) (TransactionId d)
    (NextDeviceId d) (deviceIdMap d) (dataLoopbackSize d) v (baseFsSize d)
    (filesystem d) (mountOptions d) (mkfsArgs d) (dataDevice d)
    (dataLoopFile d) (metadataDevice d) (metadataLoopFile d) (doBlkDiscard d)
    (thinpBlockSize d) (thinPoolDevice d) (transaction d).

Definition set_baseFsSize (v : Z) (d : DeviceSet) : DeviceSet :=
  mkDeviceSet (Devices d) (root d) (devicePrefix d) (TransactionId d)
    (NextDeviceId d) (deviceIdMap d) (dataLoopbackSize d)
    (metaDataLoopbackSize d) v (filesystem d) (mountOptions d) (mkfsArgs d)
    (dataDevice d) (dataLoopFile d) (metadataDevice d) (metadataLoopFile d)
    (doBlkDiscard d) (thinpBlockSize d) (thinPoolDevice d) (transaction d).

Definition set_filesystem (v : string) (d : DeviceSet) : DeviceSet :=
  mkDeviceSet (Devices d) (root d) (devicePrefix d) (TransactionId d)
    (NextDeviceId d) (deviceIdMap d) (dataLoopbackSize d)
    (metaDataLoopbackSize d) (baseFsSize d) v (mountOptions d) (mkfsArgs d)
    (dataDevice d) (dataLoopFile d) (metadataDevice d) (metadataLoopFile d)
    (doBlkDiscard d) (thinpBlockSize d) (thinPoolDevice d) (transaction d).

Definition set_mountOptions (v : string) (d : DeviceSet) : DeviceSet :=
  mkDeviceSet (Devices d) (root d) (devicePrefix d) (TransactionId d)
    (NextDeviceId d) (deviceIdMap d) (dataLoopbackSize d)
    (metaDataLoopbackSize d) (baseFsSize d) (filesystem d) v (mkfsArgs d)
    (dataDevice d) (dataLoopFile d) (metadataDevice d) (metadataLoopFile d)
    (doBlkDiscard d) (thinpBlockSize d) (thinPoolDevice d) (transaction d).

Definition set_mkfsArgs (v : list string) (d : DeviceSet) : DeviceSet :=
  mkDeviceSet (Devices d) (root d) (devicePrefix d) (TransactionId d)
    (NextDeviceId d) (deviceIdMap d) (dataLoopbackSize d)
    (metaDataLoopbackSize d) (baseFsSize d) (filesystem d) (mountOptions d) v
    (dataDevice d) (dataLoopFile d) (metadataDevice d) (metadataLoopFile d)
    (doBlkDiscard d) (thinpBlockSize d) (thinPoolDevice d) (transaction d).

Definition set_dataDevice (v : string) (d : DeviceSet) : DeviceSet :=
  mkDeviceSet (Devices d) (root d) (devicePrefix d) (TransactionId d)
    (NextDeviceId d) (deviceIdMap d) (dataLoopbackSize d)
    (metaDataLoopbackSize d) (baseFsSize d) (filesystem d) (mountOptions d)
    (mkfsArgs d) v (dataLoopFile d) (metadataDevice d) (metadataLoopFile d)
    (doBlkDiscard d) (thinpBlockSize d) (thinPoolDevice d) (transaction d).

Definition set_dataLoopFile (v : string) (d : DeviceSet) : DeviceSet :=
  mkDeviceSet (Devices d) (root d) (devicePrefix d) (TransactionId d)
    (NextDeviceId d) (deviceIdMap d) (dataLoopbackSize d)
    (metaDataLoopbackSize d) (baseFsSize d) (filesystem d) (mountOptions d)
    (mkfsArgs d) (dataDevice d) v (metadataDevice d) (metadataLoopFile d)
    (doBlkDiscard d) (thinpBlockSize d) (thinPoolDevice d) (transaction d).

Definition set_metadataDevice (v : string) (d : DeviceSet) : DeviceSet :=
  mkDeviceSet (Devices d) (root d) (devicePrefix d) (TransactionId d)
    (NextDeviceId d) (deviceIdMap d) (dataLoopbackSize d)
    (metaDataLoopbackSize d) (baseFsSize d) (filesystem d) (mountOptions d)
    (mkfsArgs d) (dataDevice d) (dataLoopFile d) v (metadataLoopFile d)
    (doBlkDiscard d) (thinpBlockSize d) (thinPoolDevice d) (transaction d).

Definition set_metadataLoopFile (v : string) (d : DeviceSet) : DeviceSet :=
  mkDeviceSet (Devices d) (root d) (devicePrefix d) (TransactionId d)
    (NextDeviceId d) (deviceIdMap d) (dataLoopbackSize d)
    (metaDataLoopbackSize d) (baseFsSize d) (filesystem d) (mountOptions d)
    (mkfsArgs d) (dataDevice d) (dataLoopFile d) (metadataDevice d) v
    (doBlkDiscard d) (thinpBlockSize d) (thinPoolDevice d) (transaction d).

Definition set_doBlkDiscard (v : bool) (d : DeviceSet) : DeviceSet :=
  mkDeviceSet (Devices d) (root d) (devicePrefix d) (TransactionId d)
    (NextDeviceId d) (deviceIdMap d) (dataLoopbackSize d)
    (metaDataLoopbackSize d) (baseFsSize d) (filesystem d) (mountOptions d)
    (mkfsArgs d) (dataDevice d) (dataLoopFile d) (metadataDevice d)
    (metadataLoopFile d) v (thinpBlockSize d) (thinPoolDevice d)
    (transaction d).

Definition set_thinpBlockSize (v : Z) (d : DeviceSet) : DeviceSet :=
  mkDeviceSet (Devices d) (root d) (devicePrefix d) (TransactionId d)
    (NextDeviceId d) (deviceIdMap d) (dataLoopbackSize d)
    (metaDataLoopbackSize d) (baseFsSize d) (filesystem d) (mountOptions d)
    (mkfsArgs d) (dataDevice d) (dataLoopFile d) (metadataDevice d)
    (metadataLoopFile d) (doBlkDiscard d) v (thinPoolDevice d) (transaction d).

Definition set_thinPoolDevice (v : string) (d : DeviceSet) : DeviceSet :=
  mkDeviceSet (Devices d) (root d) (devicePrefix d) (TransactionId d)
    (NextDeviceId d) (deviceIdMap d) (dataLoopbackSize d)
    (metaDataLoopbackSize d) (baseFsSize d) (filesystem d) (mountOptions d)
    (mkfsArgs d) (dataDevice d) (dataLoopFile d) (metadataDevice d)
    (metadataLoopFile d) (doBlkDiscard d) (thinpBlockSize d) v (transaction d).

Definition set_OpenTransactionId (v : Z) (t : Transaction) : Transaction :=
  mkTransaction v (DeviceIdHash t) (tx_DeviceId t).
Definition set_DeviceIdHash (v : string) (t : Transaction) : Transaction :=
  mkTransaction (OpenTransactionId t) v (tx_DeviceId t).
Definition set_tx_DeviceId (v : Z) (t : Transaction) : Transaction :=
  mkTransaction (OpenTransactionId t) (DeviceIdHash t) v.

Definition set_Initialized (v : bool) (i : DevInfo) : DevInfo :=
  mkDevInfo (Hash i) (DeviceId i) (Size i) (info_TransactionId i) v
    (mountCount i) (mountPath i).
Definition set_mountCount (v : Z) (i : DevInfo) : DevInfo :=
  mkDevInfo (Hash i) (DeviceId i) (Size i) (info_TransactionId i) (Initialized i)
    v (mountPath i).
Definition set_mountPath (v : string) (i : DevInfo) : DevInfo :=
  mkDevInfo (Hash i) (DeviceId i) (Size i) (info_TransactionId i) (Initialized i)
    (mountCount i) v.

(** ** Status *)

Record DiskUsage : Type := mkDiskUsage {
  Used : Z;                  (* uint64 *)
  Total : Z                  (* uint64 *)
}.

Record Status : Type := mkStatus {
  PoolName : string;
  DataFile : string;         (* actual block device for data *)
  DataLoopback : string;     (* loopback file, if used *)
  MetadataFile : string;     (* actual block device for metadata *)
  MetadataLoopback : string; (* loopback file, if used *)
  Data : DiskUsage;
  Metadata : DiskUsage;
  SectorSize : Z;            (* uint64 *)
  UdevSyncSupported : bool
}.

Definition set_Data (v : DiskUsage) (s : Status) : Status :=
  mkStatus (PoolName s) (DataFile s) (DataLoopback s) (MetadataFile s)
    (MetadataLoopback s) v (Metadata s) (SectorSize s) (UdevSyncSupported s).
Definition set_Metadata (v : DiskUsage) (s : Status) : Status :=
  mkStatus (PoolName s) (DataFile s) (DataLoopback s) (MetadataFile s)
    (MetadataLoopback s) (Data s) v (SectorSize s) (UdevSyncSupported s).
Definition set_SectorSize (v : Z) (s : Status) : Status :=
  mkStatus (PoolName s) (DataFile s) (DataLoopback s) (MetadataFile s)
    (MetadataLoopback s) (Data s) (Metadata s) v (UdevSyncSupported s).

(** [p == nil] for a pointer. *)
Definition is_nil {A} (p : option A) : bool :=
  match p with None => true | Some _ => false end.

(** How a loop body is left: by [return], or by falling out of the
    loop ([break], or the loop condition) with the loop's variables. *)
Inductive flow (R S : Type) : Type :=
| Return (r : R)
| Next (s : S).
Arguments Return {R S} r.
Arguments Next {R S} s.

Section DeviceSet.
Context `{Env}.

(** ** Calls to the outside *)

(** A call that answers with an error or nil. *)
Definition call (ev : Event) : M (option error) :=
  t <- emit ev ;; ret (env_err t).

Definition log (msg : string) : M unit :=
  emit (EvLog msg) ;;; ret tt.

Definition time_Sleep (ms : Z) : M unit :=
  emit (EvSleep ms) ;;; ret tt.

Definition dm_GetInfo (name : string) : M (option DmInfo * option error) :=
  t <- emit (EvGetInfo name) ;; ret (env_info t, env_err t).

(** [devicemapper.GetStatus]: of its results the code uses the length,
    the parameter string and the error. *)
Definition dm_GetStatus (name : string) : M (Z * string * option error) :=
  t <- emit (EvGetStatus name) ;; ret (env_num t, env_str t, env_err t).

Definition ProbeFsType (devname : string) : M (string * option error) :=
  t <- emit (EvProbeFsType devname) ;; ret (env_str t, env_err t).

(** ** The file system *)

(** Files are whole contents under their path.  Each operation can fail
    at the environment's will; when it does not, it does what the
    operating system does. *)
Definition ioutil_ReadFile (path : string) : M (result (list Byte.byte)) :=
  t <- emit (EvReadFile path) ;;
  match env_err t with
  | Some e => ret (Err e)
  | None =>
      fs <- get_files ;;
      match fs !! path with
      | Some data => ret (Ok data)
      | None => ret (Err ErrNotExist)
      end
  end.

(** [ioutil.TempFile]: a new, empty file [dir/prefix<random>], opened
    with O_EXCL; the open file is known by its name. *)
Definition ioutil_TempFile (dir prefix : string) : M (result string) :=
  t <- emit (EvTempFile dir prefix) ;;
  match env_err t with
  | Some e => ret (Err e)
  | None =>
      let name := path_Join dir (prefix ++ env_str t) in
      fs <- get_files ;;
      match fs !! name with
      | Some _ => ret (Err ErrExist)
      | None => modify_files (insert name []) ;;; ret (Ok name)
      end
  end.

(** [File.Write]: some prefix of the data reaches the file. *)
Definition file_Write (name : string) (data : list Byte.byte)
  : M (Z * option error) :=
  t <- emit (EvWrite name data) ;;
  let n := Z.max 0 (Z.min (env_num t) (Z.of_nat (length data))) in
  modify_files (alter (fun old => old ++ take (Z.to_nat n) data) name) ;;;
  ret (n, env_err t).

Definition file_Sync (name : string) : M (option error) := call (EvSync name).
Definition file_Close (name : string) : M (option error) := call (EvClose name).

Definition os_Rename (oldpath newpath : string) : M (option error) :=
  t <- emit (EvRename oldpath newpath) ;;
  match env_err t with
  | Some e => ret (Some e)
  | None =>
      fs <- get_files ;;
      match fs !! oldpath with
      | None => ret (Some ErrNotExist)
      | Some data =>
          modify_files (fun fs => <[newpath := data]> (delete oldpath fs)) ;;;
          ret None
      end
  end.

Definition os_RemoveAll (path : string) : M (option error) :=
  t <- emit (EvRemoveAll path) ;;
  match env_err t with
  | Some e => ret (Some e)
  | None => modify_files (delete path) ;;; ret None
  end.

(** ** The device-id bitmap *)

(** [s[k]] and [s[k] = v] on a byte slice: out of range is a run-time
    panic. *)
Definition slice_get (s : list Z) (k : Z) : option Z :=
  if 0 <=? k then s !! Z.to_nat k else None.

Definition slice_set (s : list Z) (k v : Z) : option (list Z) :=
  if 0 <=? k then
    match s !! Z.to_nat k with
    | Some _ => Some (<[Z.to_nat k := v]> s)
    | None => None
    end
  else None.

(** [1 << uint(i)] at type [byte]: [i] is [deviceId % 8], which Go
    leaves negative for a negative [deviceId]; [uint(i)] is then huge
    and the shifted byte is 0. *)
Definition byte_bit (i : Z) : Z :=
  if (0 <=? i) && (i <? 8) then Z.shiftl 1 i else 0.

(** [^x] at type [byte]. *)
Definition byte_not (x : Z) : Z := Z.lxor x 255.

Definition markDeviceIdUsed (deviceId : Z) : M unit :=
  d <- get_devices ;;
  let i := Z.rem deviceId 8 in
  let mask := byte_bit i in
  match slice_get (deviceIdMap d) (Z.quot deviceId 8) with
  | None => panic
  | Some b =>
      match slice_set (deviceIdMap d) (Z.quot deviceId 8) (Z.lor b mask) with
      | None => panic
      | Some m => modify_devices (set_deviceIdMap m)
      end
  end.

Definition markDeviceIdFree (deviceId : Z) : M unit :=
  d <- get_devices ;;
  let i := Z.rem deviceId 8 in
  let mask := byte_not (byte_bit i) in
  match slice_get (deviceIdMap d) (Z.quot deviceId 8) with
  | None => panic
  | Some b =>
      match slice_set (deviceIdMap d) (Z.quot deviceId 8) (Z.land b mask) with
      | None => panic
      | Some m => modify_devices (set_deviceIdMap m)
      end
  end.

Definition isDeviceIdFree (deviceId : Z) : M bool :=
  d <- get_devices ;;
  let i := Z.rem deviceId 8 in
  let mask := byte_bit i in
  match slice_get (deviceIdMap d) (Z.quot deviceId 8) with
  | None => panic
  | Some b => if negb (Z.land b mask =? 0) then ret false else ret true
  end.

(** ** The allocator *)

Definition incNextDeviceId : M unit :=
  (* Ids are 24bit, so wrap around *)
  modify_devices (fun d =>
    set_NextDeviceId (Z.land (wrap_int (NextDeviceId d + 1)) MaxDeviceId) d).

(** The body of [for i := 0; i <= MaxDeviceId; i++], with the number of
    iterations still to run. *)
Fixpoint getNextFreeDeviceId_scan (n : nat) : M (result Z) :=
  match n with
  | O => ret (Err (Errorf "Unable to find a free device Id" []))
  | S n' =>
      d <- get_devices ;;
      free <- isDeviceIdFree (NextDeviceId d) ;;
      if free then
        markDeviceIdUsed (NextDeviceId d) ;;;
        ret (Ok (NextDeviceId d))
      else
        incNextDeviceId ;;;
        getNextFreeDeviceId_scan n'
  end.

Definition getNextFreeDeviceId : M (result Z) :=
  incNextDeviceId ;;;
  getNextFreeDeviceId_scan (Z.to_nat (MaxDeviceId + 1)).

(** ** Names and paths *)

Definition getDevName (name : string) : string := "/dev/mapper/" ++ name.

Definition Name (d : DeviceSet) (info : DevInfo) : string :=
  let hash := Hash info in
  let hash := if String.eqb hash "" then "base" else hash in
  devicePrefix d ++ "-" ++ hash.

Definition DevName (d : DeviceSet) (info : DevInfo) : string :=
  getDevName (Name d info).

Definition metadataDir (d : DeviceSet) : string :=
  path_Join (root d) "metadata".

(** [metadataFile] reads only the hash of the record it is given. *)
Definition metadataFile (d : DeviceSet) (hash : string) : string :=
  let file := hash in
  let file := if String.eqb file "" then "base" else file in
  path_Join (metadataDir d) file.

Definition DeviceSet_transactionMetaFile (d : DeviceSet) : string :=
  path_Join (metadataDir d) transactionMetaFile.

Definition getPoolName (d : DeviceSet) : string :=
  if String.eqb (thinPoolDevice d) "" then devicePrefix d ++ "-pool"
  else thinPoolDevice d.

Definition getPoolDevName (d : DeviceSet) : string :=
  getDevName (getPoolName d).

(** ** Transaction ids *)

Definition allocateTransactionId : M Z :=
  modify_devices (fun d =>
    set_transaction
      (set_OpenTransactionId (wrap_uint64 (TransactionId d + 1)) (transaction d)) d) ;;;
  d <- get_devices ;;
  ret (OpenTransactionId (transaction d)).

Definition updatePoolTransactionId : M (option error) :=
  d <- get_devices ;;
  err <- call (EvSetTransactionId (getPoolDevName d) (TransactionId d)
                 (OpenTransactionId (transaction d))) ;;
  match err with
  | Some err =>
      ret (Some (Errorf "Error setting devmapper transaction ID: %s" [ArgE err]))
  | None =>
      modify_devices (fun d =>
        set_TransactionId (OpenTransactionId (transaction d)) d) ;;;
      ret None
  end.

(** ** The metadata store *)

Definition removeMetadata (hash : string) : M (option error) :=
  d <- get_devices ;;
  err <- os_RemoveAll (metadataFile d hash) ;;
  match err with
  | Some err =>
      ret (Some (Errorf "Error removing metadata file %s: %s"
                   [ArgS (metadataFile d hash); ArgE err]))
  | None => ret None
  end.

(** Given json data and file path, write it to disk *)
Definition writeMetaFile (jsonData : list Byte.byte) (filePath : string)
  : M (option error) :=
  d <- get_devices ;;
  r <- ioutil_TempFile (metadataDir d) ".tmp" ;;
  match r with
  | Err err => ret (Some (Errorf "Error creating metadata file: %s" [ArgE err]))
  | Ok tmpFile =>
      r <- file_Write tmpFile jsonData ;;
      let (n, err) := r in
      match err with
      | Some err =>
          ret (Some (Errorf "Error writing metadata to %s: %s" [ArgS tmpFile; ArgE err]))
      | None =>
          if n <? Z.of_nat (length jsonData) then ret (Some ErrShortWrite)
          else
            err <- file_Sync tmpFile ;;
            match err with
            | Some err =>
                ret (Some (Errorf "Error syncing metadata file %s: %s"
                             [ArgS tmpFile; ArgE err]))
            | None =>
                err <- file_Close tmpFile ;;
                match err with
                | Some err =>
                    ret (Some (Errorf "Error closing metadata file %s: %s"
                                 [ArgS tmpFile; ArgE err]))
                | None =>
                    err <- os_Rename tmpFile filePath ;;
                    match err with
                    | Some err =>
                        ret (Some (Errorf "Error committing metadata file %s: %s"
                                     [ArgS tmpFile; ArgE err]))
                    | None => ret None
                    end
                end
            end
      end
  end.

Definition saveMetadata (info : DevInfo) : M (option error) :=
  match json_Marshal_DevInfo info with
  | Err err => ret (Some (Errorf "Error encoding metadata to json: %s" [ArgE err]))
  | Ok jsonData =>
      d <- get_devices ;;
      err <- writeMetaFile jsonData (metadataFile d (Hash info)) ;;
      match err with
      | Some err => ret (Some err)
      | None => ret None
      end
  end.

Definition loadMetadata (hash : string) : M (option DevInfo) :=
  d <- get_devices ;;
  r <- ioutil_ReadFile (metadataFile d hash) ;;
  match r with
  | Err _ => ret None
  | Ok jsonData =>
      match json_Unmarshal_DevInfo jsonData with
      | Err _ => ret None
      | Ok (deviceId, size, transactionId, initialized) =>
          ret (Some (mkDevInfo hash deviceId size transactionId initialized 0 ""))
      end
  end.

(** ** The registry *)

(** The registry maps a hash to the record itself: a [*DevInfo] the
    code holds is the entry under its hash, and a write through the
    pointer is a write to that entry. *)
Definition lookupDevice (hash : string) : M (result DevInfo) :=
  d <- get_devices ;;
  match Devices d !! hash with
  | Some info => ret (Ok info)
  | None =>
      info <- loadMetadata hash ;;
      match info with
      | None => ret (Err (Errorf "Unknown device %s" [ArgS hash]))
      | Some info =>
          modify_devices (fun d => set_Devices (<[hash := info]> (Devices d)) d) ;;;
          ret (Ok info)
      end
  end.

Definition unregisterDevice (id : Z) (hash : string) : M (option error) :=
  log "unregisterDevice(%v, %v)" ;;;
  modify_devices (fun d => set_Devices (delete hash (Devices d)) d) ;;;
  err <- removeMetadata hash ;;
  match err with
  | Some err =>
      log "Error removing meta data: %s" ;;;
      ret (Some err)
  | None => ret None
  end.

Definition registerDevice (id : Z) (hash : string) (size transactionId : Z)
  : M (result DevInfo) :=
  log "registerDevice(%v, %v)" ;;;
  let info := mkDevInfo hash id size transactionId false 0 "" in
  modify_devices (fun d => set_Devices (<[hash := info]> (Devices d)) d) ;;;
  err <- saveMetadata info ;;
  match err with
  | Some err =>
      (* Try to remove unused device *)
      modify_devices (fun d => set_Devices (delete hash (Devices d)) d) ;;;
      ret (Err err)
  | None => ret (Ok info)
  end.

(** ** Activation and formatting *)

Definition activateDeviceIfNeeded (info : DevInfo) : M (option error) :=
  log "activateDeviceIfNeeded(%v)" ;;;
  d <- get_devices ;;
  r <- dm_GetInfo (Name d info) ;;
  match fst r with
  | Some devinfo =>
      if negb (Exists devinfo =? 0) then ret None
      else call (EvActivateDevice (getPoolDevName d) (Name d info)
                   (DeviceId info) (Size info))
  | None =>
      call (EvActivateDevice (getPoolDevName d) (Name d info)
              (DeviceId info) (Size info))
  end.

Definition exec_Run (name : string) (args : list string) : M (option error) :=
  call (EvExec name args).

Definition createFilesystem (info : DevInfo) : M (option error) :=
  d <- get_devices ;;
  let devname := DevName d info in
  let args := mkfsArgs d ++ [devname] in
  err <-
    (if String.eqb (filesystem d) "xfs" then
       err <- exec_Run "mkfs.xfs" args ;; ret (Next err)
     else if String.eqb (filesystem d) "ext4" then
       err <- exec_Run "mkfs.ext4"
                (["-E"; "nodiscard,lazy_itable_init=0,lazy_journal_init=0"] ++ args) ;;
       err <- match err with
              | Some _ =>
                  exec_Run "mkfs.ext4" (["-E"; "nodiscard,lazy_itable_init=0"] ++ args)
              | None => ret err
              end ;;
       match err with
       | Some err => ret (Return (Some err))
       | None =>
           err <- exec_Run "tune2fs" (["-c"; "-1"; "-i"; "0"] ++ [devname]) ;;
           ret (Next err)
       end
     else
       ret (Next (Some (Errorf "Unsupported filesystem type %s"
                          [ArgS (filesystem d)])))) ;;
  match err with
  | Return r => ret r
  | Next (Some err) => ret (Some err)
  | Next None => ret None
  end.

(** ** The transaction log *)

Definition loadTransactionMetaData : M (option error) :=
  d <- get_devices ;;
  r <- ioutil_ReadFile (DeviceSet_transactionMetaFile d) ;;
  match r with
  | Err err =>
      (* There is no active transaction. This will be the case
         during upgrade. *)
      if os_IsNotExist err then
        modify_devices (fun d =>
          set_transaction
            (set_OpenTransactionId (TransactionId d) (transaction d)) d) ;;;
        ret None
      else ret (Some err)
  | Ok jsonData =>
      modify_devices (fun d =>
        set_transaction (json_Unmarshal_Transaction jsonData (transaction d)) d) ;;;
      ret None
  end.

Definition saveTransactionMetaData : M (option error) :=
  d <- get_devices ;;
  match json_Marshal_Transaction (transaction d) with
  | Err err => ret (Some (Errorf "Error encoding metadata to json: %s" [ArgE err]))
  | Ok jsonData => writeMetaFile jsonData (DeviceSet_transactionMetaFile d)
  end.

Definition removeTransactionMetaData : M (option error) :=
  d <- get_devices ;;
  err <- os_RemoveAll (DeviceSet_transactionMetaFile d) ;;
  match err with
  | Some err => ret (Some err)
  | None => ret None
  end.

Definition rollbackTransaction : M (option error) :=
  log "Rolling back open transaction: TransactionId=%d hash=%s device_id=%d" ;;;
  (* A device id might have already been deleted before transaction
     closed. In that case this call will fail. Just leave a message
     in case of failure. *)
  d <- get_devices ;;
  err <- call (EvDeleteDevice (getPoolDevName d) (tx_DeviceId (transaction d))) ;;
  match err with
  | Some _ => log "Warning: Unable to delete device: %s"
  | None => ret tt
  end ;;;
  err <- removeMetadata (DeviceIdHash (transaction d)) ;;
  match err with
  | Some _ => log "Warning: Unable to remove meta data: %s"
  | None => markDeviceIdFree (tx_DeviceId (transaction d))
  end ;;;
  err <- removeTransactionMetaData ;;
  match err with
  | Some _ => log "Warning: Unable to remove transaction meta file %s: %s"
  | None => ret tt
  end ;;;
  ret None.

Definition processPendingTransaction : M (option error) :=
  err <- loadTransactionMetaData ;;
  match err with
  | Some err => ret (Some err)
  | None =>
      d <- get_devices ;;
      (* If there was open transaction but pool transaction Id is same
         as open transaction Id, nothing to roll back. *)
      if TransactionId d =? OpenTransactionId (transaction d) then ret None
      (* If open transaction Id is less than pool transaction Id, something
         is wrong. Bail out. *)
      else if OpenTransactionId (transaction d) <? TransactionId d then
        log "Warning: Open Transaction id %d is less than pool transaction id %d" ;;;
        ret None
      else
        (* Pool transaction Id is not same as open transaction. There is
           a transaction which was not completed. *)
        err <- rollbackTransaction ;;
        match err with
        | Some err =>
            ret (Some (Errorf "Rolling back open transaction failed: %s" [ArgE err]))
        | None =>
            modify_devices (fun d =>
              set_transaction
                (set_OpenTransactionId (TransactionId d) (transaction d)) d) ;;;
            ret None
        end
  end.

Definition openTransaction (hash : string) (DeviceId : Z) : M (option error) :=
  allocateTransactionId ;;;
  modify_devices (fun d => set_transaction (set_DeviceIdHash hash (transaction d)) d) ;;;
  modify_devices (fun d => set_transaction (set_tx_DeviceId DeviceId (transaction d)) d) ;;;
  err <- saveTransactionMetaData ;;
  match err with
  | Some err =>
      ret (Some (Errorf "Error saving transaction meta data: %s" [ArgE err]))
  | None => ret None
  end.

Definition refreshTransaction (DeviceId : Z) : M (option error) :=
  modify_devices (fun d => set_transaction (set_tx_DeviceId DeviceId (transaction d)) d) ;;;
  err <- saveTransactionMetaData ;;
  match err with
  | Some err =>
      ret (Some (Errorf "Error saving transaction meta data: %s" [ArgE err]))
  | None => ret None
  end.

Definition closeTransaction : M (option error) :=
  err <- updatePoolTransactionId ;;
  match err with
  | Some err =>
      log "Failed to close Transaction" ;;;
      ret (Some err)
  | None => ret None
  end.

(** ** Creating devices *)

(** The retry loop [for { ... }] allocates an id on every turn but the
    first, so it cannot take more turns than there are ids. *)
Definition create_fuel : nat := Z.to_nat (MaxDeviceId + 1).

Fixpoint createRegisterDevice_loop (fuel : nat) (deviceId : Z)
  : M (flow (result DevInfo) Z) :=
  match fuel with
  | O => fuel_out
  | S fuel' =>
      d <- get_devices ;;
      err <- call (EvCreateDevice (getPoolDevName d) deviceId) ;;
      match err with
      | Some err =>
          if DeviceIdExists err then
            (* Device Id already exists. This should not
               happen. Now we have a mechianism to find
               a free device Id. So something is not right.
               Give a warning and continue. *)
            log "Warning: Device Id %d exists in pool but it is supposed to be unused" ;;;
            r <- getNextFreeDeviceId ;;
            match r with
            | Err err => ret (Return (Err err))
            | Ok deviceId =>
                (* Save new device id into transaction *)
                refreshTransaction deviceId ;;;
                createRegisterDevice_loop fuel' deviceId
            end
          else
            log "Error creating device: %s" ;;;
            markDeviceIdFree deviceId ;;;
            ret (Return (Err err))
      | None => ret (Next deviceId)
      end
  end.

Definition createRegisterDevice (hash : string) : M (result DevInfo) :=
  r <- getNextFreeDeviceId ;;
  match r with
  | Err err => ret (Err err)
  | Ok deviceId =>
      err <- openTransaction hash deviceId ;;
      match err with
      | Some err =>
          log "Error opening transaction hash = %s deviceId = %d" ;;;
          markDeviceIdFree deviceId ;;;
          ret (Err err)
      | None =>
          x <- createRegisterDevice_loop create_fuel deviceId ;;
          match x with
          | Return r => ret r
          | Next deviceId =>
              log "Registering device (id %v) with FS size %v" ;;;
              d <- get_devices ;;
              r <- registerDevice deviceId hash (baseFsSize d)
                     (OpenTransactionId (transaction d)) ;;
              match r with
              | Err err =>
                  call (EvDeleteDevice (getPoolDevName d) deviceId) ;;;
                  markDeviceIdFree deviceId ;;;
                  ret (Err err)
              | Ok info =>
                  err <- closeTransaction ;;
                  match err with
                  | Some err =>
                      unregisterDevice deviceId hash ;;;
                      call (EvDeleteDevice (getPoolDevName d) deviceId) ;;;
                      markDeviceIdFree deviceId ;;;
                      ret (Err err)
                  | None => ret (Ok info)
                  end
              end
          end
      end
  end.

Fixpoint createRegisterSnapDevice_loop (fuel : nat) (deviceId : Z)
    (baseInfo : DevInfo) : M (flow (option error) Z) :=
  match fuel with
  | O => fuel_out
  | S fuel' =>
      d <- get_devices ;;
      err <- call (EvCreateSnapDevice (getPoolDevName d) deviceId
                     (Name d baseInfo) (DeviceId baseInfo)) ;;
      match err with
      | Some err =>
          if DeviceIdExists err then
            log "Warning: Device Id %d exists in pool but it is supposed to be unused" ;;;
            r <- getNextFreeDeviceId ;;
            match r with
            | Err err => ret (Return (Some err))
            | Ok deviceId =>
                (* Save new device id into transaction *)
                refreshTransaction deviceId ;;;
                createRegisterSnapDevice_loop fuel' deviceId baseInfo
            end
          else
            log "Error creating snap device: %s" ;;;
            markDeviceIdFree deviceId ;;;
            ret (Return (Some err))
      | None => ret (Next deviceId)
      end
  end.

Definition createRegisterSnapDevice (hash : string) (baseInfo : DevInfo)
  : M (option error) :=
  r <- getNextFreeDeviceId ;;
  match r with
  | Err err => ret (Some err)
  | Ok deviceId =>
      err <- openTransaction hash deviceId ;;
      match err with
      | Some err =>
          log "Error opening transaction hash = %s deviceId = %d" ;;;
          markDeviceIdFree deviceId ;;;
          ret (Some err)
      | None =>
          x <- createRegisterSnapDevice_loop create_fuel deviceId baseInfo ;;
          match x with
          | Return r => ret r
          | Next deviceId =>
              d <- get_devices ;;
              r <- registerDevice deviceId hash (Size baseInfo)
                     (OpenTransactionId (transaction d)) ;;
              match r with
              | Err err =>
                  call (EvDeleteDevice (getPoolDevName d) deviceId) ;;;
                  markDeviceIdFree deviceId ;;;
                  log "Error registering device: %s" ;;;
                  ret (Some err)
              | Ok _ =>
                  err <- closeTransaction ;;
                  match err with
                  | Some err =>
                      unregisterDevice deviceId hash ;;;
                      call (EvDeleteDevice (getPoolDevName d) deviceId) ;;;
                      markDeviceIdFree deviceId ;;;
                      ret (Some err)
                  | None => ret None
                  end
              end
          end
      end
  end.

(** ** Waiting for the kernel *)

(** [waitRemove]: the loop [for ; i < 1000; i++], with the turns left
    and the counter [i]. *)
Fixpoint waitRemove_loop (n : nat) (i : Z) (devname : string)
  : M (flow (option error) Z) :=
  match n with
  | O => ret (Next i)
  | S n' =>
      r <- dm_GetInfo devname ;;
      match snd r with
      | Some _ =>
          (* If there is an error we assume the device doesn't exist.
             The error might actually be something else, but we can't differentiate. *)
          ret (Return None)
      | None =>
          match fst r with
          | None => panic
          | Some devinfo =>
              (if Z.rem i 100 =? 0
               then log "Waiting for removal of %s: exists=%d" else ret tt) ;;;
              if Exists devinfo =? 0 then ret (Next i)
              else
                time_Sleep 10 ;;;
                waitRemove_loop n' (i + 1) devname
          end
      end
  end.

Definition waitRemove (devname : string) : M (option error) :=
  log "[deviceset %s] waitRemove(%s)" ;;;
  r <- (x <- waitRemove_loop 1000 0 devname ;;
        match x with
        | Return r => ret r
        | Next i =>
            if i =? 1000 then
              ret (Some (Errorf "Timeout while waiting for device %s to be removed"
                           [ArgS devname]))
            else ret None
        end) ;;
  log "[deviceset %s] waitRemove(%s) END" ;;;
  ret r.

(** [removeDeviceAndWait]: the loop [for i := 0; i < 1000; i++], with
    the turns left and the variable [err]. *)
Fixpoint removeDeviceAndWait_loop (n : nat) (err : option error) (devname : string)
  : M (flow (option error) (option error)) :=
  match n with
  | O => ret (Next err)
  | S n' =>
      err <- call (EvRemoveDevice devname) ;;
      match err with
      | None => ret (Next None)
      | Some e =>
          if negb (is_ErrBusy e) then ret (Return (Some e))
          else
            (* If we see EBUSY it may be a transient error,
               sleep a bit a retry a few times. *)
            time_Sleep 10 ;;;
            removeDeviceAndWait_loop n' (Some e) devname
      end
  end.

(** Issues the underlying dm remove operation and then waits
    for it to finish. *)
Definition removeDeviceAndWait (devname : string) : M (option error) :=
  x <- removeDeviceAndWait_loop 1000 None devname ;;
  match x with
  | Return r => ret r
  | Next (Some err) => ret (Some err)
  | Next None =>
      err <- waitRemove devname ;;
      match err with
      | Some err => ret (Some err)
      | None => ret None
      end
  end.

(** [waitClose]: as [waitRemove], on the open count. *)
Fixpoint waitClose_loop (n : nat) (i : Z) (name : string)
  : M (flow (option error) Z) :=
  match n with
  | O => ret (Next i)
  | S n' =>
      r <- dm_GetInfo name ;;
      match snd r with
      | Some err => ret (Return (Some err))
      | None =>
          match fst r with
          | None => panic
          | Some devinfo =>
              (if Z.rem i 100 =? 0
               then log "Waiting for unmount of %s: opencount=%d" else ret tt) ;;;
              if OpenCount devinfo =? 0 then ret (Next i)
              else
                time_Sleep 10 ;;;
                waitClose_loop n' (i + 1) name
          end
      end
  end.

Definition waitClose (info : DevInfo) : M (option error) :=
  d <- get_devices ;;
  x <- waitClose_loop 1000 0 (Name d info) ;;
  match x with
  | Return r => ret r
  | Next i =>
      if i =? 1000 then
        ret (Some (Errorf "Timeout while waiting for device %s to close"
                     [ArgS (Hash info)]))
      else ret None
  end.

Definition deactivateDevice (info : DevInfo) : M (option error) :=
  log "[devmapper] deactivateDevice(%s)" ;;;
  r <- ((* Wait for the unmount to be effective,
           by watching the value of Info.OpenCount for the device *)
        err <- waitClose info ;;
        match err with
        | Some _ => log "Warning: error waiting for device %s to close: %s"
        | None => ret tt
        end ;;;
        d <- get_devices ;;
        r <- dm_GetInfo (Name d info) ;;
        match snd r with
        | Some err => ret (Some err)
        | None =>
            match fst r with
            | None => panic
            | Some devinfo =>
                if negb (Exists devinfo =? 0) then
                  err <- removeDeviceAndWait (Name d info) ;;
                  match err with
                  | Some err => ret (Some err)
                  | None => ret None
                  end
                else ret None
            end
        end) ;;
  log "[devmapper] deactivateDevice END(%s)" ;;;
  ret r.

(** ** Deleting devices *)

Definition deleteDevice (info : DevInfo) : M (option error) :=
  d <- get_devices ;;
  (if doBlkDiscard d then
     (* This is a workaround for the kernel not discarding block so
        on the thin pool when we remove a thinp device, so we do it
        manually *)
     err <- activateDeviceIfNeeded info ;;
     match err with
     | None =>
         err <- call (EvBlockDeviceDiscard (DevName d info)) ;;
         match err with
         | Some _ => log "Error discarding block on device: %s (ignoring)"
         | None => ret tt
         end
     | Some _ => ret tt
     end
   else ret tt) ;;;
  r <- dm_GetInfo (Name d info) ;;
  err <- match fst r with
         | Some devinfo =>
             if negb (Exists devinfo =? 0) then
               err <- removeDeviceAndWait (Name d info) ;;
               match err with
               | Some err => log "Error removing device: %s" ;;; ret (Some err)
               | None => ret None
               end
             else ret None
         | None => ret None
         end ;;
  match err with
  | Some err => ret (Some err)
  | None =>
      err <- openTransaction (Hash info) (DeviceId info) ;;
      match err with
      | Some err =>
          log "Error opening transaction hash = %s deviceId = %d" ;;;
          ret (Some err)
      | None =>
          err <- call (EvDeleteDevice (getPoolDevName d) (DeviceId info)) ;;
          match err with
          | Some err =>
              log "Error deleting device: %s" ;;;
              ret (Some err)
          | None =>
              err <- unregisterDevice (DeviceId info) (Hash info) ;;
              match err with
              | Some err => ret (Some err)
              | None =>
                  err <- closeTransaction ;;
                  match err with
                  | Some err => ret (Some err)
                  | None =>
                      markDeviceIdFree (DeviceId info) ;;;
                      ret None
                  end
              end
          end
      end
  end.

Definition DeleteDevice (hash : string) : M (option error) :=
  r <- lookupDevice hash ;;
  match r with
  | Err err => ret (Some err)
  | Ok info => deleteDevice info
  end.

(** ** Mounting *)

(** A write through the [*DevInfo] found under [hash]. *)
Definition store_info (hash : string) (info : DevInfo) : M unit :=
  modify_devices (fun d => set_Devices (<[hash := info]> (Devices d)) d).

Definition MountDevice (hash path mountLabel : string) : M (option error) :=
  r <- lookupDevice hash ;;
  match r with
  | Err err => ret (Some err)
  | Ok info =>
      if 0 <? mountCount info then
        if negb (String.eqb path (mountPath info)) then
          ret (Some (Errorf "Trying to mount devmapper device in multple places (%s, %s)"
                       [ArgS (mountPath info); ArgS path]))
        else
          store_info hash (set_mountCount (wrap_int (mountCount info + 1)) info) ;;;
          ret None
      else
        err <- activateDeviceIfNeeded info ;;
        match err with
        | Some err =>
            ret (Some (Errorf "Error activating devmapper device for '%s': %s"
                         [ArgS hash; ArgE err]))
        | None =>
            let flags := MS_MGC_VAL in
            d <- get_devices ;;
            r <- ProbeFsType (DevName d info) ;;
            let (fstype, err) := r in
            match err with
            | Some err => ret (Some err)
            | None =>
                let options := "" in
                let options :=
                  if String.eqb fstype "xfs"
                  (* XFS needs nouuid or it can't mount filesystems with the same fs *)
                  then joinMountOptions options "nouuid" else options in
                let options := joinMountOptions options (mountOptions d) in
                let options :=
                  joinMountOptions options (FormatMountLabel "" mountLabel) in
                err <- call (EvMount (DevName d info) path fstype flags
                               (joinMountOptions "discard" options)) ;;
                err <- match err with
                       | Some e =>
                           if is_EINVAL e
                           then call (EvMount (DevName d info) path fstype flags options)
                           else ret err
                       | None => ret err
                       end ;;
                match err with
                | Some err =>
                    ret (Some (Errorf "Error mounting '%s' on '%s': %s"
                                 [ArgS (DevName d info); ArgS path; ArgE err]))
                | None =>
                    let info := set_mountCount 1 info in
                    store_info hash info ;;;
                    let info := set_mountPath path info in
                    store_info hash info ;;;
                    ret None
                end
            end
        end
  end.

Definition UnmountDevice (hash : string) : M (option error) :=
  log "[devmapper] UnmountDevice(hash=%s)" ;;;
  r <- (r <- lookupDevice hash ;;
        match r with
        | Err err => ret (Some err)
        | Ok info =>
            if mountCount info =? 0 then
              ret (Some (Errorf "UnmountDevice: device not-mounted id %s" [ArgS hash]))
            else
              let info := set_mountCount (wrap_int (mountCount info - 1)) info in
              store_info hash info ;;;
              if 0 <? mountCount info then ret None
              else
                log "[devmapper] Unmount(%s)" ;;;
                err <- call (EvUnmount (mountPath info) MNT_DETACH) ;;
                match err with
                | Some err => ret (Some err)
                | None =>
                    log "[devmapper] Unmount done" ;;;
                    err <- deactivateDevice info ;;
                    match err with
                    | Some err => ret (Some err)
                    | None =>
                        let info := set_mountPath "" info in
                        store_info hash info ;;;
                        ret None
                    end
                end
        end) ;;
  log "[devmapper] UnmountDevice(hash=%s) END" ;;;
  ret r.

(** ** Pool status and the base image *)

Record PoolStatus : Type := mkPoolStatus {
  totalSizeInSectors : Z;
  ps_transactionId : Z;
  dataUsed : Z;
  dataTotal : Z;
  metadataUsed : Z;
  metadataTotal : Z
}.

Definition poolStatus : M (PoolStatus * option error) :=
  d <- get_devices ;;
  r <- dm_GetStatus (getPoolName d) ;;
  let '(totalSizeInSectors, params, err) := r in
  match err with
  | None =>
      let '((transactionId, metadataUsed, metadataTotal, dataUsed, dataTotal), err) :=
        Sscanf_pool params in
      ret (mkPoolStatus totalSizeInSectors transactionId dataUsed dataTotal
             metadataUsed metadataTotal, err)
  | Some err => ret (mkPoolStatus totalSizeInSectors 0 0 0 0 0, Some err)
  end.

Definition setupBaseImage : M (option error) :=
  r <- lookupDevice "" ;;
  let oldInfo := match r with Ok info => Some info | Err _ => None end in
  x <- match oldInfo with
       | Some info =>
           if Initialized info then ret (Return None)
           else
             log "Removing uninitialized base image" ;;;
             err <- DeleteDevice "" ;;
             match err with
             | Some err => ret (Return (Some err))
             | None => ret (Next tt)
             end
       | None => ret (Next tt)
       end ;;
  match x with
  | Return r => ret r
  | Next _ =>
      d <- get_devices ;;
      x <- (if negb (String.eqb (thinPoolDevice d) "") && is_nil oldInfo
            then
              r <- poolStatus ;;
              let (st, err) := r in
              match err with
              | Some err => ret (Return (Some err))
              | None =>
                  if negb (dataUsed st =? 0) then
                    ret (Return (Some (Errorf
                      "Unable to take ownership of thin-pool (%s) that already has used data blocks"
                      [ArgS (thinPoolDevice d)])))
                  else if negb (ps_transactionId st =? 0) then
                    ret (Return (Some (Errorf
                      "Unable to take ownership of thin-pool (%s) with non-zero transaction Id"
                      [ArgS (thinPoolDevice d)])))
                  else ret (Next tt)
              end
            else ret (Next tt)) ;;
      match x with
      | Return r => ret r
      | Next _ =>
          log "Initializing base device-mapper thin volume" ;;;
          (* Create initial device *)
          r <- createRegisterDevice "" ;;
          match r with
          | Err err => ret (Some err)
          | Ok info =>
              log "Creating filesystem on base device-mapper thin volume" ;;;
              err <- activateDeviceIfNeeded info ;;
              match err with
              | Some err => ret (Some err)
              | None =>
                  err <- createFilesystem info ;;
                  match err with
                  | Some err => ret (Some err)
                  | None =>
                      let info := set_Initialized true info in
                      store_info "" info ;;;
                      err <- saveMetadata info ;;
                      match err with
                      | Some err =>
                          let info := set_Initialized false info in
                          store_info "" info ;;;
                          ret (Some err)
                      | None => ret None
                      end
                  end
              end
          end
      end
  end.

(** ** Setting up the pool *)

Definition loopbackDir (d : DeviceSet) : string :=
  path_Join (root d) "devicemapper".

Definition DeviceSet_deviceSetMetaFile (d : DeviceSet) : string :=
  path_Join (metadataDir d) deviceSetMetaFile.

Definition oldMetadataFile (d : DeviceSet) : string :=
  path_Join (loopbackDir d) "json".

(** [os.Stat]: of the result the code uses the error and, of the
    [syscall.Stat_t], the device and the inode. *)
Definition os_Stat (path : string) : M (Z * Z * option error) :=
  t <- emit (EvStat path) ;; ret (env_stat t, env_err t).

Definition hasImage (name : string) : M bool :=
  d <- get_devices ;;
  let dirname := loopbackDir d in
  let filename := path_Join dirname name in
  r <- os_Stat filename ;;
  ret (is_nil (snd r)).

(** ensureImage creates a sparse file of <size> bytes at the path
    <root>/devicemapper/<name>.
    If the file already exists, it does nothing.
    Either way it returns the full path. *)
Definition ensureImage (name : string) (size : Z) : M (result string) :=
  d <- get_devices ;;
  let dirname := loopbackDir d in
  let filename := path_Join dirname name in
  err <- call (EvMkdirAll dirname 448) ;;
  match (match err with
         | Some err => if negb (os_IsExist err) then Some err else None
         | None => None
         end) with
  | Some err => ret (Err err)
  | None =>
      r <- os_Stat filename ;;
      match snd r with
      | Some err =>
          if negb (os_IsNotExist err) then ret (Err err)
          else
            log "Creating loopback file %s for device-manage use" ;;;
            err <- call (EvOpenFile filename (Z.lor O_RDWR O_CREATE) 384) ;;
            match err with
            | Some err => ret (Err err)
            | None =>
                (* defer file.Close() *)
                err <- call (EvTruncate filename size) ;;
                match err with
                | Some err => file_Close filename ;;; ret (Err err)
                | None => file_Close filename ;;; ret (Ok filename)
                end
            end
      | None => ret (Ok filename)
      end
  end.

Definition major (device : Z) : Z :=
  Z.land (Z.shiftr device 8) 0xfff.

Definition minor (device : Z) : Z :=
  Z.lor (Z.land device 0xff) (Z.land (Z.shiftr device 12) 0xfff00).

(** The body of [for _, i := range fileInfos]. *)
Fixpoint setCloseOnExec_loop (names : list string) (name : string) : M unit :=
  match names with
  | [] => ret tt
  | i :: rest =>
      t <- emit (EvReadlink (path_Join "/proc/self/fd" i)) ;;
      let link := env_str t in
      (if String.eqb link name then
         match strconv_Atoi i with
         | Ok fd => emit (EvCloseOnExec fd) ;;; ret tt
         | Err _ => ret tt
         end
       else ret tt) ;;;
      setCloseOnExec_loop rest name
  end.

Definition setCloseOnExec (name : string) : M unit :=
  t <- emit (EvReadDir "/proc/self/fd") ;;
  setCloseOnExec_loop (env_names t) name.

(** ** Loading what is on disk *)

Definition deviceFileWalkFunction (path : string) (finfo : FileInfo)
  : M (option error) :=
  (* Skip some of the meta files which are not device files. *)
  if strings_HasSuffix (fi_Name finfo) ".migrated" then
    log "Skipping file %s" ;;; ret None
  else if String.eqb (fi_Name finfo) deviceSetMetaFile then
    log "Skipping file %s" ;;; ret None
  else
    log "Loading data for file %s" ;;;
    let hash := fi_Name finfo in
    let hash := if String.eqb hash "base" then "" else hash in
    dinfo <- loadMetadata hash ;;
    match dinfo with
    | None =>
        ret (Some (Errorf "Error loading device metadata file %s" [ArgS hash]))
    | Some dinfo =>
        if MaxDeviceId <? DeviceId dinfo then
          log "Warning: Ignoring Invalid DeviceId=%d" ;;; ret None
        else
          markDeviceIdUsed (DeviceId dinfo) ;;;
          log "Added deviceId=%d to DeviceIdMap" ;;;
          ret None
    end.

(** The function [constructDeviceIdMap] hands to [filepath.Walk]. *)
Definition constructDeviceIdMap_scan (path : string) (info : FileInfo)
    (err : option error) : M (option error) :=
  match err with
  | Some _ => log "Can't walk the file %s" ;;; ret None
  | None =>
      (* Skip any directories *)
      if fi_IsDir info then ret None
      else deviceFileWalkFunction path info
  end.

(** [filepath.Walk]: the function is called on what the walk finds, in
    order, until it answers with an error, which ends the walk. *)
Fixpoint filepath_Walk_loop (entries : list (string * FileInfo * option error))
    (walkFn : string -> FileInfo -> option error -> M (option error))
  : M (option error) :=
  match entries with
  | [] => ret None
  | (path, info, err) :: rest =>
      r <- walkFn path info err ;;
      match r with
      | Some e => ret (Some e)
      | None => filepath_Walk_loop rest walkFn
      end
  end.

Definition filepath_Walk (walkRoot : string)
    (walkFn : string -> FileInfo -> option error -> M (option error))
  : M (option error) :=
  t <- emit (EvWalk walkRoot) ;;
  filepath_Walk_loop (env_walk t) walkFn.

Definition constructDeviceIdMap : M (option error) :=
  log "[deviceset] constructDeviceIdMap()" ;;;
  d <- get_devices ;;
  r <- filepath_Walk (metadataDir d) constructDeviceIdMap_scan ;;
  (* defer *)
  log "[deviceset] constructDeviceIdMap() END" ;;;
  ret r.

(** The body of [for hash, info := range m.Devices]. *)
Fixpoint migrateOldMetaData_loop (entries : list (string * (Z * Z * Z * bool)))
  : M unit :=
  match entries with
  | [] => ret tt
  | (hash, (deviceId, size, transactionId, initialized)) :: rest =>
      saveMetadata (mkDevInfo hash deviceId size transactionId initialized 0 "") ;;;
      migrateOldMetaData_loop rest
  end.

Definition migrateOldMetaData : M (option error) :=
  (* Migrate old metadatafile *)
  d <- get_devices ;;
  r <- ioutil_ReadFile (oldMetadataFile d) ;;
  match r with
  | Err err => if negb (os_IsNotExist err) then ret (Some err) else ret None
  | Ok jsonData =>
      match json_Unmarshal_MetaData jsonData with
      | Err err => ret (Some err)
      | Ok m =>
          migrateOldMetaData_loop m ;;;
          err <- os_Rename (oldMetadataFile d) (oldMetadataFile d ++ ".migrated") ;;
          match err with
          | Some err => ret (Some err)
          | None => ret None
          end
      end
  end.

Definition initMetaData : M (option error) :=
  err <- migrateOldMetaData ;;
  match err with
  | Some err => ret (Some err)
  | None =>
      r <- poolStatus ;;
      let (st, err) := r in
      match err with
      | Some err => ret (Some err)
      | None =>
          modify_devices (set_TransactionId (ps_transactionId st)) ;;;
          err <- constructDeviceIdMap ;;
          match err with
          | Some err => ret (Some err)
          | None =>
              err <- processPendingTransaction ;;
              match err with
              | Some err => ret (Some err)
              | None => ret None
              end
          end
      end
  end.

Definition loadDeviceSetMetaData : M (option error) :=
  d <- get_devices ;;
  r <- ioutil_ReadFile (DeviceSet_deviceSetMetaFile d) ;;
  match r with
  | Err err =>
      (* For backward compatibility return success if file does
         not exist. *)
      if os_IsNotExist err then ret None else ret (Some err)
  | Ok jsonData =>
      let (n, err) := json_Unmarshal_DeviceSet jsonData (NextDeviceId d) in
      modify_devices (set_NextDeviceId n) ;;;
      ret err
  end.

Definition saveDeviceSetMetaData : M (option error) :=
  d <- get_devices ;;
  match json_Marshal_DeviceSet (NextDeviceId d) with
  | Err err => ret (Some (Errorf "Error encoding metadata to json: %s" [ArgE err]))
  | Ok jsonData => writeMetaFile jsonData (DeviceSet_deviceSetMetaFile d)
  end.

(** What [initDevmapper] does once the pool is there; [createdLoopback]
    says whether it has just created a loopback image. *)
Definition initDevmapper_rest (doInit createdLoopback : bool) : M (option error) :=
  (* If we didn't just create the data or metadata image, we need to
     load the transaction id and migrate old metadata *)
  err <- (if negb createdLoopback then initMetaData else ret None) ;;
  match err with
  | Some err => ret (Some err)
  | None =>
      (* Right now this loads only NextDeviceId. If there is more metatadata
         down the line, we might have to move it earlier. *)
      err <- loadDeviceSetMetaData ;;
      match err with
      | Some err => ret (Some err)
      | None =>
          (* Setup the base image *)
          if doInit then
            err <- setupBaseImage ;;
            match err with
            | Some err =>
                log "Error device setupBaseImage: %s" ;;;
                ret (Some err)
            | None => ret None
            end
          else ret None
      end
  end.

(** [defer f.Close()]: the file is closed when the function returns. *)
Definition defer_Close {A} (name : string) (body : M A) : M A :=
  r <- body ;;
  file_Close name ;;;
  ret r.

(** The image, loopback device or raw device that backs one half of the
    pool; [created] says whether an image was missing. *)
Definition initDevmapper_backing (doInit : bool) (name : string)
    (device : string) (size : Z)
  : M (result (string * option (string * string) * bool)) :=
  if String.eqb device "" then
    (* Make sure the sparse images exist in <root>/devicemapper/<name> *)
    has <- hasImage name ;;
    if negb doInit && negb has then
      ret (Err (ErrNew ("Loopback " ++ name ++ " file not found")))
    else
      r <- ensureImage name size ;;
      match r with
      | Err err =>
          log ("Error device ensureImage (" ++ name ++ "): %s") ;;;
          ret (Err err)
      | Ok image =>
          t <- emit (EvAttachLoopDevice image) ;;
          match env_err t with
          | Some err => ret (Err err)
          | None => ret (Ok (env_str t, Some (image, env_str t), negb has))
          end
      end
  else
    err <- call (EvOpenFile device O_RDWR 384) ;;
    match err with
    | Some err => ret (Err err)
    | None => ret (Ok (device, None, false))
    end.

Definition initDevmapper (doInit : bool) : M (option error) :=
  t <- emit (EvGetenv "DEBUG") ;;
  (if negb (String.eqb (env_str t) "")
   then emit (EvLogInitVerbose LogLevelDebug)
   else emit (EvLogInitVerbose LogLevelWarn)) ;;;
  (* give ourselves to libdm as a log handler *)
  emit EvLogInit ;;;
  err <- call EvGetDriverVersion ;;
  match err with
  | Some _ =>
      (* Can't even get driver version, assume not supported *)
      ret (Some ErrNotSupported)
  | None =>
      t <- emit (EvUdevSetSyncSupport true) ;;
      (if negb (env_bool t)
       then log "WARNING: Udev sync is not supported. This will lead to unexpected behavior, data loss and errors"
       else ret tt) ;;;
      emit EvUdevSyncSupported ;;;
      log "devicemapper: udev sync support: %v" ;;;
      d <- get_devices ;;
      err <- call (EvMkdirAll (metadataDir d) 448) ;;
      match (match err with
             | Some err => if negb (os_IsExist err) then Some err else None
             | None => None
             end) with
      | Some err => ret (Some err)
      | None =>
          (* Set the device prefix from the device id and inode of the docker root dir *)
          r <- os_Stat (root d) ;;
          let '(dev, ino, err) := r in
          match err with
          | Some err =>
              ret (Some (Errorf "Error looking up dir %s: %s" [ArgS (root d); ArgE err]))
          | None =>
              modify_devices
                (set_devicePrefix (Sprintf_prefix (major dev) (minor dev) ino)) ;;;
              log "Generated prefix: %s" ;;;
              (* Check for the existence of the thin-pool device *)
              log "Checking for existence of the pool '%s'" ;;;
              d <- get_devices ;;
              r <- dm_GetInfo (getPoolName d) ;;
              let (info, err) := r in
              match info with
              | None =>
                  log "Error device devicemapper.GetInfo: %s" ;;;
                  ret err
              | Some info =>
                  setCloseOnExec "/dev/mapper/control" ;;;
                  (* If the pool doesn't exist, create it *)
                  if (Exists info =? 0) && String.eqb (thinPoolDevice d) "" then
                    log "Pool doesn't exist. Creating it." ;;;
                    r <- initDevmapper_backing doInit "data" (dataDevice d)
                           (dataLoopbackSize d) ;;
                    match r with
                    | Err err => ret (Some err)
                    | Ok (dataFile, loop, created1) =>
                        match loop with
                        | Some (image, device) =>
                            modify_devices (set_dataLoopFile image) ;;;
                            modify_devices (set_dataDevice device)
                        | None => ret tt
                        end ;;;
                        defer_Close dataFile (
                          d <- get_devices ;;
                          r <- initDevmapper_backing doInit "metadata"
                                 (metadataDevice d) (metaDataLoopbackSize d) ;;
                          match r with
                          | Err err => ret (Some err)
                          | Ok (metadataFile, loop, created2) =>
                              match loop with
                              | Some (image, device) =>
                                  modify_devices (set_metadataLoopFile image) ;;;
                                  modify_devices (set_metadataDevice device)
                              | None => ret tt
                              end ;;;
                              defer_Close metadataFile (
                                d <- get_devices ;;
                                err <- call (EvCreatePool (getPoolName d) dataFile
                                               metadataFile (thinpBlockSize d)) ;;
                                match err with
                                | Some err => ret (Some err)
                                | None =>
                                    initDevmapper_rest doInit (created1 || created2)
                                end)
                          end)
                    end
                  else initDevmapper_rest doInit false
              end
          end
      end
  end.

(** ** Making a DeviceSet *)

(** The body of [for _, option := range options], on the DeviceSet under
    construction and [foundBlkDiscard]. *)
Fixpoint NewDeviceSet_options (options : list string)
    (devices : DeviceSet) (foundBlkDiscard : bool)
  : result (DeviceSet * bool) :=
  match options with
  | [] => Ok (devices, foundBlkDiscard)
  | option :: rest =>
      match ParseKeyValueOpt option with
      | Err err => Err err
      | Ok (key, val) =>
          let key := strings_ToLower key in
          if String.eqb key "dm.basesize" then
            match RAMInBytes val with
            | Err err => Err err
            | Ok size =>
                NewDeviceSet_options rest
                  (set_baseFsSize (wrap_uint64 size) devices) foundBlkDiscard
            end
          else if String.eqb key "dm.loopdatasize" then
            match RAMInBytes val with
            | Err err => Err err
            | Ok size =>
                NewDeviceSet_options rest
                  (set_dataLoopbackSize size devices) foundBlkDiscard
            end
          else if String.eqb key "dm.loopmetadatasize" then
            match RAMInBytes val with
            | Err err => Err err
            | Ok size =>
                NewDeviceSet_options rest
                  (set_metaDataLoopbackSize size devices) foundBlkDiscard
            end
          else if String.eqb key "dm.fs" then
            if negb (String.eqb val "ext4") && negb (String.eqb val "xfs") then
              Err (Errorf ("Unsupported filesystem %s" ++ newline) [ArgS val])
            else
              NewDeviceSet_options rest (set_filesystem val devices) foundBlkDiscard
          else if String.eqb key "dm.mkfsarg" then
            NewDeviceSet_options rest
              (set_mkfsArgs (mkfsArgs devices ++ [val]) devices) foundBlkDiscard
          else if String.eqb key "dm.mountopt" then
            NewDeviceSet_options rest
              (set_mountOptions (joinMountOptions (mountOptions devices) val) devices)
              foundBlkDiscard
          else if String.eqb key "dm.metadatadev" then
            NewDeviceSet_options rest (set_metadataDevice val devices) foundBlkDiscard
          else if String.eqb key "dm.datadev" then
            NewDeviceSet_options rest (set_dataDevice val devices) foundBlkDiscard
          else if String.eqb key "dm.thinpooldev" then
            NewDeviceSet_options rest
              (set_thinPoolDevice (strings_TrimPrefix val "/dev/mapper/") devices)
              foundBlkDiscard
          else if String.eqb key "dm.blkdiscard" then
            match strconv_ParseBool val with
            | Err err => Err err
            | Ok b => NewDeviceSet_options rest (set_doBlkDiscard b devices) true
            end
          else if String.eqb key "dm.blocksize" then
            match RAMInBytes val with
            | Err err => Err err
            | Ok size =>
                (* convert to 512b sectors *)
                NewDeviceSet_options rest
                  (set_thinpBlockSize (Z.shiftr (wrap_uint32 size) 9) devices)
                  foundBlkDiscard
            end
          else
            Err (Errorf ("Unknown option %s" ++ newline) [ArgS key])
      end
  end.

(** The DeviceSet the [NewDeviceSet] literal builds. *)
Definition NewDeviceSet_literal (root : string) : DeviceSet :=
  mkDeviceSet ∅ root "" 0 0 (replicate (Z.to_nat DeviceIdMapSz) 0)
    DefaultDataLoopbackSize DefaultMetaDataLoopbackSize DefaultBaseFsSize
    "ext4" "" [] "" "" "" "" true DefaultThinpBlockSize ""
    (mkTransaction 0 "" 0).

(** [NewDeviceSet] makes the DeviceSet of the world: once the options
    are read, the methods run on it. *)
Definition NewDeviceSet (root : string) (doInit : bool) (options : list string)
  : M (result DeviceSet) :=
  emit (EvSetDevDir "/dev") ;;;
  let devices := NewDeviceSet_literal root in
  match NewDeviceSet_options options devices false with
  | Err err => ret (Err err)
  | Ok (devices, foundBlkDiscard) =>
      (* By default, don't do blk discard hack on raw devices, its rarely
         useful and is expensive *)
      let devices :=
        if negb foundBlkDiscard &&
           (negb (String.eqb (dataDevice devices) "") ||
            negb (String.eqb (thinPoolDevice devices) ""))
        then set_doBlkDiscard false devices
        else devices in
      modify_devices (fun _ => devices) ;;;
      err <- initDevmapper doInit ;;
      match err with
      | Some err => ret (Err err)
      | None => d <- get_devices ;; ret (Ok d)
      end
  end.

(** ** Adding devices and asking about them *)

Definition AddDevice (hash baseHash : string) : M (option error) :=
  log "[deviceset] AddDevice() hash=%s basehash=%s" ;;;
  r <- (r <- lookupDevice baseHash ;;
        match r with
        | Err err => ret (Some err)
        | Ok baseInfo =>
            r <- lookupDevice hash ;;
            match r with
            | Ok _ => ret (Some (Errorf "device %s already exists" [ArgS hash]))
            | Err _ =>
                err <- createRegisterSnapDevice hash baseInfo ;;
                match err with
                | Some err => ret (Some err)
                | None => ret None
                end
            end
        end) ;;
  (* defer *)
  log "[deviceset] AddDevice(hash=%s basehash=%s) END" ;;;
  ret r.

Definition HasDevice (hash : string) : M bool :=
  r <- lookupDevice hash ;;
  match r with
  | Ok _ => ret true
  | Err _ => ret false
  end.

Definition HasActivatedDevice (hash : string) : M bool :=
  r <- lookupDevice hash ;;
  match r with
  | Err _ => ret false
  | Ok info =>
      d <- get_devices ;;
      r <- dm_GetInfo (Name d info) ;;
      match fst r with
      | Some devinfo => ret (negb (Exists devinfo =? 0))
      | None => ret false
      end
  end.

(** [List]: the keys of the registry, in the order the map hands them
    out. *)
Definition List : M (list string) :=
  d <- get_devices ;;
  ret (map fst (map_to_list (Devices d))).

(** ** Status *)

Definition DataDevicePath : M string :=
  d <- get_devices ;; ret (dataDevice d).

Definition MetadataDevicePath : M string :=
  d <- get_devices ;; ret (metadataDevice d).

(** [a / b] at type [uint64]: dividing by zero is a run-time panic. *)
Definition uint64_div (a b : Z) : M Z :=
  if b =? 0 then panic else ret (a / b).

Definition uint64_mul (a b : Z) : Z := wrap_uint64 (a * b).

(** Status returns the current status of this deviceset *)
Definition DeviceSet_Status : M Status :=
  d <- get_devices ;;
  dataFile <- DataDevicePath ;;
  metadataFile <- MetadataDevicePath ;;
  t <- emit EvUdevSyncSupported ;;
  let status :=
    mkStatus (getPoolName d) dataFile (dataLoopFile d) metadataFile
      (metadataLoopFile d) (mkDiskUsage 0 0) (mkDiskUsage 0 0) 0 (env_bool t) in
  r <- poolStatus ;;
  let (st, err) := r in
  match err with
  | None =>
      (* Convert from blocks to bytes *)
      blockSizeInSectors <- uint64_div (totalSizeInSectors st) (dataTotal st) ;;
      let status :=
        set_Data (mkDiskUsage (uint64_mul (uint64_mul (dataUsed st) blockSizeInSectors) 512)
                    (uint64_mul (uint64_mul (dataTotal st) blockSizeInSectors) 512))
          status in
      (* metadata blocks are always 4k *)
      let status :=
        set_Metadata (mkDiskUsage (uint64_mul (metadataUsed st) 4096)
                        (uint64_mul (metadataTotal st) 4096)) status in
      let status := set_SectorSize (uint64_mul blockSizeInSectors 512) status in
      ret status
  | Some _ => ret status
  end.

End DeviceSet.

(** ** Concrete environments and worlds *)

(** [pkg/parsers.ParseKeyValueOpt] without the trimming of spaces: the
    key and the value around the first [=]. *)
Fixpoint split_key_value (s : string) : option (string * string) :=
  match s with
  | EmptyString => None
  | String c rest =>
      if Ascii.eqb c (Ascii.ascii_of_nat 61) (* = *) then Some (EmptyString, rest)
      else match split_key_value rest with
           | Some (k, v) => Some (String c k, v)
           | None => None
           end
  end.

(** An environment given by its answers, by what the pool status line
    and the pending transaction file decode to; the library functions
    are simple stand-ins ([DeviceIdExists] holds of the code 17,
    EEXIST). *)
Definition make_env (err : list Event -> option error)
    (info : list Event -> option DmInfo)
    (str : list Event -> string) (num : list Event -> Z)
    (pool : Z * Z * Z * Z * Z) (pending : Transaction) : Env :=
  {| env_err := err;
     env_info := info;
     env_str := str;
     env_num := num;
     path_Join := fun a b => (a ++ "/" ++ b)%string;
     DeviceIdExists := fun e => match e with ErrDm 17 => true | _ => false end;
     joinMountOptions := fun a b =>
       if String.eqb a "" then b else if String.eqb b "" then a
       else (a ++ "," ++ b)%string;
     FormatMountLabel := fun src _ => src;
     Sscanf_pool := fun _ => (pool, None);
     json_Marshal_Transaction := fun t => Ok (String.list_byte_of_string (DeviceIdHash t));
     json_Marshal_DevInfo := fun i => Ok (String.list_byte_of_string (Hash i));
     json_Unmarshal_Transaction := fun _ _ => pending;
     json_Unmarshal_DevInfo := fun _ => Ok (1, 1, 1, true);
     ParseKeyValueOpt := fun s =>
       match split_key_value s with
       | Some kv => Ok kv
       | None => Err (Errorf "Unable to parse key/value option: %s" [ArgS s])
       end;
     strings_ToLower := fun s => s;
     strings_TrimPrefix := fun s _ => s;
     RAMInBytes := fun _ => Ok 0;
     strconv_ParseBool := fun s =>
       if String.eqb s "true" then Ok true
       else if String.eqb s "false" then Ok false
       else Err (ErrNew "invalid syntax");
     env_bool := fun _ => true;
     env_stat := fun _ => (2049, 42);
     env_names := fun _ => [];
     env_walk := fun _ => [];
     Sprintf_prefix := fun _ _ _ => "docker-8:1-42";
     strconv_Atoi := fun _ => Ok 0;
     strings_HasSuffix := fun _ _ => false;
     json_Marshal_DeviceSet := fun _ => Ok [];
     json_Unmarshal_DeviceSet := fun _ n => (n, None);
     json_Unmarshal_MetaData := fun _ => Ok [] |}.

(** The last call of a history. *)
Definition last_event (t : list Event) : option Event := last t.

(** A DeviceSet as [NewDeviceSet] makes it, rooted at [/var/lib/docker],
    with the prefix [initDevmapper] would give it. *)
Definition fresh_devices : DeviceSet :=
  mkDeviceSet ∅ "/var/lib/docker" "docker-8:1-42" 0 0
    (replicate (Z.to_nat DeviceIdMapSz) 0)
    DefaultDataLoopbackSize DefaultMetaDataLoopbackSize DefaultBaseFsSize
    "ext4" "" [] "" "" "" "" true DefaultThinpBlockSize ""
    (mkTransaction 0 "" 0).

Definition fresh_world : World := mkWorld fresh_devices ∅ [].

(** Everything succeeds, no device exists, writes are complete. *)
Definition quiet_env : Env :=
  make_env (fun _ => None) (fun _ => Some (mkDmInfo 0 0)) (fun _ => "1")
           (fun _ => 2 ^ 62) (0, 0, 0, 0, 0) (mkTransaction 0 "" 0).

(** What a run returned and the world it left, for runs that return. *)
Definition returned {A} (o : outcome A) : option A :=
  match o with Returns a _ => Some a | Stops _ => None end.

Definition world_after {A} (o : outcome A) (w : World) : World :=
  match o with Returns _ w' => w' | Stops _ => w end.

(** ** Reading the bitmap in specifications *)

(** The bit of [id] in the bitmap, for [id] within the slice. *)
Definition bit_of (m : list Z) (id : Z) : bool :=
  match m !! Z.to_nat (id / 8) with
  | Some b => Z.testbit b (id mod 8)
  | None => false
  end.

(** The bitmap with the bit of [id] set, respectively cleared. *)
Definition set_bit (m : list Z) (id : Z) : list Z :=
  match m !! Z.to_nat (id / 8) with
  | Some b => <[Z.to_nat (id / 8) := Z.lor b (Z.shiftl 1 (id mod 8))]> m
  | None => m
  end.

Definition clear_bit (m : list Z) (id : Z) : list Z :=
  match m !! Z.to_nat (id / 8) with
  | Some b => <[Z.to_nat (id / 8) := Z.land b (Z.lxor (Z.shiftl 1 (id mod 8)) 255)]> m
  | None => m
  end.

(** The bitmap has the size [NewDeviceSet] gives it. *)
Definition bitmap_ok (w : World) : Prop :=
  length (deviceIdMap (devices w)) = Z.to_nat DeviceIdMapSz.

Definition valid_id (id : Z) : Prop := 0 <= id <= MaxDeviceId.

(** The world with the allocator's cursor and bitmap replaced. *)
Definition alloc_state (c : Z) (m : list Z) (w : World) : World :=
  upd_devices (fun d => set_deviceIdMap m (set_NextDeviceId c d)) w.

(** ** Effects in specifications *)

(** A call that only talks to the outside: it leaves the DeviceSet and
    the files alone, and every call it makes satisfies [P]. *)
Definition io_only {A} (P : Event -> Prop) (m : M A) : Prop :=
  forall w,
    match m w with
    | Returns _ w' =>
        devices w' = devices w /\ files w' = files w /\
        exists t, trace w' = trace w ++ t /\ Forall P t
    | Stops _ => True
    end.

(** The calls made while a device is being deactivated: polling,
    removing, sleeping, and log lines other than the one that opens
    [deactivateDevice]. *)
Definition poll_event (ev : Event) : Prop :=
  match ev with
  | EvGetInfo _ | EvRemoveDevice _ | EvSleep _ => True
  | EvLog msg => msg <> "[devmapper] deactivateDevice(%s)"
  | _ => False
  end.





(** The world after some more calls have been recorded. *)
Definition add_events (t : list Event) (w : World) : World :=
  mkWorld (devices w) (files w) (trace w ++ t).

(** The world with the record under [hash] replaced. *)
Definition with_info (hash : string) (info : DevInfo) (w : World) : World :=
  upd_devices (fun d => set_Devices (<[hash := info]> (Devices d)) d) w.

(** A small DeviceSet for the runs that do not touch the bitmap. *)
Definition small_world : World :=
  mkWorld (set_deviceIdMap [] fresh_devices) ∅ [].

(** The device [h], mounted [n] times at [/mnt/a]. *)
Definition mounted_info (n : Z) : DevInfo :=
  mkDevInfo "h" 7 1024 1 true n (if n =? 0 then "" else "/mnt/a").

Definition mounted_world (n : Z) : World :=
  with_info "h" (mounted_info n) small_world.


(** The kernel refuses to unmount. *)
Definition busy_env : Env :=
  make_env (fun t => match last t with
                     | Some (EvUnmount _ _) => Some ErrBusy
                     | _ => None
                     end)
           (fun _ => Some (mkDmInfo 0 0)) (fun _ => "1")
           (fun _ => 2 ^ 62) (0, 0, 0, 0, 0) (mkTransaction 0 "" 0).

(** An external thin pool, with used data blocks. *)
Definition pool_world : World :=
  upd_devices (set_thinPoolDevice "pool") small_world.

Definition used_pool_env : Env :=
  make_env (fun _ => None) (fun _ => Some (mkDmInfo 0 0)) (fun _ => "1")
           (fun _ => 2 ^ 62) (0, 0, 0, 12, 100) (mkTransaction 0 "" 0).

(** The pool already has the device 1. *)
Definition retry_env : Env :=
  make_env (fun t => match last t with
                     | Some (EvCreateDevice _ 1) => Some (ErrDm 17)
                     | Some (EvCreateSnapDevice _ 1 _ _) => Some (ErrDm 17)
                     | _ => None
                     end)
           (fun _ => Some (mkDmInfo 0 0)) (fun _ => "1")
           (fun _ => 2 ^ 62) (0, 0, 0, 0, 0) (mkTransaction 0 "" 0).





(** The calls a first [MountDevice] at [path] may make. *)
Definition mount_event (path : string) (ev : Event) : Prop :=
  match ev with
  | EvLog msg => msg <> "[devmapper] deactivateDevice(%s)"
  | EvGetInfo _ | EvActivateDevice _ _ _ _ | EvProbeFsType _ => True
  | EvMount _ target _ _ _ => target = path
  | _ => False
  end.

(** ** What a call leaves alone *)

(** Every return of [m] is related to the world it started from. *)
Definition steps {A} (R : World -> World -> Prop) (m : M A) : Prop :=
  forall w a w', m w = Returns a w' -> R w w'.

(** Relations that say what a run may change: they hold between a
    world and itself, and compose. *)
Class Frame (R : World -> World -> Prop) : Prop := {
  frame_refl : forall w, R w w;
  frame_trans : forall w1 w2 w3, R w1 w2 -> R w2 w3 -> R w1 w3
}.

(** A field of the DeviceSet keeps its value. *)
Definition same {X} (f : DeviceSet -> X) : World -> World -> Prop :=
  fun w w' => f (devices w') = f (devices w).

(** No file changes. *)
Definition same_files : World -> World -> Prop :=
  fun w w' => files w' = files w.

(** The file at [p], if there is one, is still there. *)
Definition file_kept (p : string) : World -> World -> Prop :=
  fun w w' => is_Some (files w !! p) -> is_Some (files w' !! p).

(** Every call recorded since satisfies [P]. *)
Definition traced (P : Event -> Prop) : World -> World -> Prop :=
  fun w w' => exists t, trace w' = trace w ++ t /\ Forall P t.

Definition both (R1 R2 : World -> World -> Prop) : World -> World -> Prop :=
  fun w w' => R1 w w' /\ R2 w w'.

Definition open_id (d : DeviceSet) : Z := OpenTransactionId (transaction d).

(** What the steps of a transaction other than its opening, the
    registration and the commit leave alone: the pool and the open
    transaction ids, the registry, the root, and the file at [p]. *)
Definition kept (p : string) : World -> World -> Prop :=
  both (same TransactionId)
    (both (same open_id) (both (same Devices) (both (same root) (file_kept p)))).

(** ** Device ids tried in the pool *)

(** The id a call asks the pool to create, if it is such a call. *)
Definition created_id (ev : Event) : option Z :=
  match ev with
  | EvCreateDevice _ id | EvCreateSnapDevice _ id _ _ => Some id
  | _ => None
  end.

(** The ids a history asked the pool to create, in order. *)
Definition created (t : list Event) : list Z := omap created_id t.

Definition not_create (ev : Event) : Prop := created_id ev = None.

(** What the steps around the kernel create leave alone: the bitmap;
    and they ask for no device to be created. *)
Definition quiet : World -> World -> Prop :=
  both (same deviceIdMap) (traced not_create).

(** How the bitmap [m'] a create leaves relates to the bitmap [m] it
    found: apart from the id [skip], a bit is set exactly if it was set
    or its id is among [cs]. *)
Definition loop_bits (m m' : list Z) (cs : list Z) (skip : option Z) : Prop :=
  forall y, valid_id y -> skip <> Some y ->
    (bit_of m' y = true <-> bit_of m y = true \/ In y cs).

(** What a create call does to the bitmap.  The ids it asked the pool to
    create are distinct, within range and were free; every superseded
    one (all but the last) has its bit set afterwards; and apart from
    the last of them when the call fails, a bit is set afterwards
    exactly if it was set before or belongs to one of these ids. *)
Definition create_bits (w w' : World) (ok : bool) : Prop :=
  exists t,
    trace w' = trace w ++ t /\
    NoDup (created t) /\
    Forall valid_id (created t) /\
    Forall (fun y => bit_of (deviceIdMap (devices w)) y = false) (created t) /\
    Forall (fun y => bit_of (deviceIdMap (devices w')) y = true)
           (removelast (created t)) /\
    loop_bits (deviceIdMap (devices w)) (deviceIdMap (devices w')) (created t)
      (if ok then None else last (created t)).

Definition is_Ok {T} (r : result T) : bool :=
  match r with Ok _ => true | Err _ => false end.

(** Where a run that started in [w] has got to in [wi]: the bitmap is
    [m], and the ids it has asked the pool to create so far are [ids]. *)
Definition bits_at (w : World) (m : list Z) (ids : list Z) (wi : World) : Prop :=
  deviceIdMap (devices wi) = m /\
  exists t, trace wi = trace w ++ t /\ created t = ids.

(** What the retry loop of a create has done when it is left with [x],
    having started with the id [id] in the world [w]. *)
Definition loop_post {R} (id : Z) (w : World) (x : flow R Z) (w' : World) : Prop :=
  bitmap_ok w' /\
  exists t cs,
    trace w' = trace w ++ t /\ created t = id :: cs /\
    Forall valid_id cs /\
    Forall (fun y => bit_of (deviceIdMap (devices w)) y = false) cs /\
    NoDup cs /\
    match x with
    | Next s =>
        last (id :: cs) = Some s /\
        loop_bits (deviceIdMap (devices w)) (deviceIdMap (devices w')) (id :: cs) None
    | Return _ =>
        loop_bits (deviceIdMap (devices w)) (deviceIdMap (devices w')) (id :: cs)
          (last (id :: cs))
    end.

(** A call that always returns: it neither panics nor loops. *)
Definition returns {A} (m : M A) : Prop :=
  forall w, exists a w', m w = Returns a w'.

(** ** The options *)

(** What [NewDeviceSet] configures and nothing changes afterwards. *)
Definition options_of (d : DeviceSet)
  : string * Z * Z * Z * string * string * list string * bool * Z * string :=
  (root d, dataLoopbackSize d, metaDataLoopbackSize d, baseFsSize d,
   filesystem d, mountOptions d, mkfsArgs d, doBlkDiscard d, thinpBlockSize d,
   thinPoolDevice d).

(** The values the options give to [key], in order. *)
Fixpoint option_values `{Env} (key : string) (options : list string) : list string :=
  match options with
  | [] => []
  | option :: rest =>
      match ParseKeyValueOpt option with
      | Ok (k, val) =>
          if String.eqb (strings_ToLower k) key
          then val :: option_values key rest
          else option_values key rest
      | Err _ => option_values key rest
      end
  end.

(** ** Growing bitmaps *)

(** The bitmap keeps its size, and every id within range that was
    marked used still is. *)
Definition bits_grow : World -> World -> Prop :=
  fun w w' =>
    bitmap_ok w ->
    bitmap_ok w' /\
    forall x, valid_id x ->
      bit_of (deviceIdMap (devices w)) x = true ->
      bit_of (deviceIdMap (devices w')) x = true.

(** Nothing but the bitmap changes. *)
Definition only_bitmap : World -> World -> Prop :=
  fun w w' =>
    (exists m, devices w' = set_deviceIdMap m (devices w)) /\ files w' = files w.

(** ** Counting calls *)

Definition is_poll (ev : Event) : bool :=
  match ev with EvGetInfo _ => true | _ => false end.

Definition is_sleep (ev : Event) : bool :=
  match ev with EvSleep _ => true | _ => false end.

Definition is_remove (ev : Event) : bool :=
  match ev with EvRemoveDevice _ => true | _ => false end.

(** How many calls of a history satisfy [f]. *)
Definition count (f : Event -> bool) (t : list Event) : nat :=
  length (List.filter f t).

(** * Properties *)

(** ** Bit-level facts about the bitmap *)

Lemma wrap_int_mod24 z : wrap_int z mod 2 ^ 24 = z mod 2 ^ 24.
Proof.
  unfold wrap_int.
  rewrite (Z.mod_eq (z + 2 ^ 63) (2 ^ 64)) by lia.
  replace (z + 2 ^ 63 - 2 ^ 64 * ((z + 2 ^ 63) / 2 ^ 64) - 2 ^ 63)
    with (z + (- (2 ^ 40 * ((z + 2 ^ 63) / 2 ^ 64))) * 2 ^ 24) by lia.
  apply Z.mod_add. lia.
Qed.

Lemma wrap_int_small z : - 2 ^ 63 <= z < 2 ^ 63 -> wrap_int z = z.
Proof. intros Hz. unfold wrap_int. rewrite Z.mod_small; lia. Qed.

Lemma wrap_uint64_small z : 0 <= z < 2 ^ 64 -> wrap_uint64 z = z.
Proof. intros Hz. unfold wrap_uint64. apply Z.mod_small; lia. Qed.

Lemma land_MaxDeviceId z : Z.land z MaxDeviceId = z mod 2 ^ 24.
Proof.
  change MaxDeviceId with (Z.ones 24). apply Z.land_ones. lia.
Qed.

Lemma byte_bit_testbit i j :
  0 <= i < 8 -> 0 <= j -> Z.testbit (byte_bit i) j = (j =? i).
Proof.
  intros Hi Hj. unfold byte_bit.
  replace ((0 <=? i) && (i <? 8)) with true
    by (symmetry; apply andb_true_iff; split; [apply Z.leb_le | apply Z.ltb_lt]; lia).
  rewrite Z.shiftl_1_l.
  destruct (Z.eqb_spec j i) as [->|Hne].
  - apply Z.pow2_bits_true; lia.
  - apply Z.pow2_bits_false; lia.
Qed.

Lemma land_byte_bit_zero b i :
  0 <= i < 8 -> (Z.land b (byte_bit i) =? 0) = negb (Z.testbit b i).
Proof.
  intros Hi.
  destruct (Z.testbit b i) eqn:Hb; simpl.
  - apply Z.eqb_neq. intros H0.
    assert (Z.testbit (Z.land b (byte_bit i)) i = true) as Ht.
    { rewrite Z.land_spec, Hb, byte_bit_testbit by lia. now rewrite Z.eqb_refl. }
    rewrite H0, Z.bits_0 in Ht. discriminate.
  - apply Z.eqb_eq. apply Z.bits_inj'. intros n Hn.
    rewrite Z.land_spec, Z.bits_0, byte_bit_testbit by lia.
    destruct (Z.eqb_spec n i) as [->|]; [now rewrite Hb | apply andb_false_r].
Qed.

Lemma DeviceIdMapSz_val : DeviceIdMapSz = 2097152.
Proof. reflexivity. Qed.

Lemma valid_id_index (m : list Z) id :
  length m = Z.to_nat DeviceIdMapSz -> valid_id id ->
  exists b, m !! Z.to_nat (id / 8) = Some b.
Proof.
  intros Hlen [H0 H1].
  apply lookup_lt_is_Some_2. rewrite Hlen, DeviceIdMapSz_val.
  unfold MaxDeviceId in H1.
  apply Z2Nat.inj_lt; [apply Z.div_pos; lia | lia |].
  apply Z.div_lt_upper_bound; lia.
Qed.

Lemma valid_id_quot_rem id :
  valid_id id -> Z.quot id 8 = id / 8 /\ Z.rem id 8 = id mod 8 /\ 0 <= id mod 8 < 8
                 /\ 0 <= id / 8.
Proof.
  intros [H0 H1]. repeat split.
  - apply Z.quot_div_nonneg; lia.
  - apply Z.rem_mod_nonneg; lia.
  - apply Z.mod_pos_bound; lia.
  - apply Z.mod_pos_bound; lia.
  - apply Z.div_pos; lia.
Qed.

Lemma slice_get_valid (m : list Z) id b :
  valid_id id -> m !! Z.to_nat (id / 8) = Some b ->
  slice_get m (Z.quot id 8) = Some b.
Proof.
  intros Hv Hb. destruct (valid_id_quot_rem id Hv) as (-> & _ & _ & Hq).
  unfold slice_get. now replace (0 <=? id / 8) with true by (symmetry; apply Z.leb_le; lia).
Qed.

Lemma slice_set_valid (m : list Z) id b v :
  valid_id id -> m !! Z.to_nat (id / 8) = Some b ->
  slice_set m (Z.quot id 8) v = Some (<[Z.to_nat (id / 8) := v]> m).
Proof.
  intros Hv Hb. destruct (valid_id_quot_rem id Hv) as (-> & _ & _ & Hq).
  unfold slice_set. rewrite Hb.
  now replace (0 <=? id / 8) with true by (symmetry; apply Z.leb_le; lia).
Qed.

Lemma isDeviceIdFree_bit w id :
  bitmap_ok w -> valid_id id ->
  isDeviceIdFree id w = Returns (negb (bit_of (deviceIdMap (devices w)) id)) w.
Proof.
  intros Hok Hv.
  destruct (valid_id_index _ id Hok Hv) as [b Hb].
  destruct (valid_id_quot_rem id Hv) as (Hq & Hr & Hm & _).
  unfold isDeviceIdFree, bind, get_devices, bit_of.
  rewrite (slice_get_valid _ _ _ Hv Hb), Hb, Hr, land_byte_bit_zero by lia.
  rewrite negb_involutive. now destruct (Z.testbit b (id mod 8)).
Qed.

Lemma markDeviceIdUsed_bit w id :
  bitmap_ok w -> valid_id id ->
  markDeviceIdUsed id w =
  Returns tt (upd_devices (set_deviceIdMap (set_bit (deviceIdMap (devices w)) id)) w).
Proof.
  intros Hok Hv.
  destruct (valid_id_index _ id Hok Hv) as [b Hb].
  destruct (valid_id_quot_rem id Hv) as (Hq & Hr & Hm & _).
  unfold markDeviceIdUsed, bind, get_devices, set_bit.
  rewrite (slice_get_valid _ _ _ Hv Hb), (slice_set_valid _ _ _ _ Hv Hb), Hb, Hr.
  unfold byte_bit.
  now replace ((0 <=? id mod 8) && (id mod 8 <? 8)) with true
    by (symmetry; apply andb_true_iff; split; [apply Z.leb_le | apply Z.ltb_lt]; lia).
Qed.

Lemma markDeviceIdFree_bit w id :
  bitmap_ok w -> valid_id id ->
  markDeviceIdFree id w =
  Returns tt (upd_devices (set_deviceIdMap (clear_bit (deviceIdMap (devices w)) id)) w).
Proof.
  intros Hok Hv.
  destruct (valid_id_index _ id Hok Hv) as [b Hb].
  destruct (valid_id_quot_rem id Hv) as (Hq & Hr & Hm & _).
  unfold markDeviceIdFree, bind, get_devices, clear_bit.
  rewrite (slice_get_valid _ _ _ Hv Hb), (slice_set_valid _ _ _ _ Hv Hb), Hb, Hr.
  unfold byte_bit, byte_not.
  now replace ((0 <=? id mod 8) && (id mod 8 <? 8)) with true
    by (symmetry; apply andb_true_iff; split; [apply Z.leb_le | apply Z.ltb_lt]; lia).
Qed.

Lemma length_set_bit (m : list Z) id : length (set_bit m id) = length m.
Proof. unfold set_bit. destruct (m !! _); [apply length_insert | done]. Qed.

Lemma length_clear_bit (m : list Z) id : length (clear_bit m id) = length m.
Proof. unfold clear_bit. destruct (m !! _); [apply length_insert | done]. Qed.

Lemma id_split_eq x y :
  x / 8 = y / 8 -> x mod 8 = y mod 8 -> x = y.
Proof.
  intros Hd Hm. rewrite (Z.div_mod x 8), (Z.div_mod y 8) by lia. now rewrite Hd, Hm.
Qed.

Lemma bit_of_set_bit (m : list Z) id x :
  length m = Z.to_nat DeviceIdMapSz -> valid_id id -> valid_id x ->
  bit_of (set_bit m id) x = bit_of m x || (x =? id).
Proof.
  intros Hlen Hv Hx.
  destruct (valid_id_index _ id Hlen Hv) as [b Hb].
  destruct (valid_id_quot_rem id Hv) as (_ & _ & Hm & Hq).
  destruct (valid_id_quot_rem x Hx) as (_ & _ & Hmx & Hqx).
  unfold bit_of, set_bit. rewrite Hb.
  destruct (decide (Z.to_nat (id / 8) = Z.to_nat (x / 8))) as [He|Hne].
  - rewrite <- He, list_lookup_insert_eq by (eapply lookup_lt_Some; eauto).
    rewrite Hb, Z.lor_spec, Z.shiftl_1_l.
    assert (id / 8 = x / 8) as Hd by lia.
    destruct (Z.eqb_spec x id) as [->|Hxi].
    + now rewrite Z.pow2_bits_true by lia.
    + rewrite Z.pow2_bits_false, !orb_false_r; [done|].
      intros Heq. apply Hxi. apply id_split_eq; congruence.
  - rewrite list_lookup_insert_ne by done.
    destruct (Z.eqb_spec x id) as [->|Hxi]; [done|]. now rewrite orb_false_r.
Qed.

Lemma bit_of_clear_bit (m : list Z) id x :
  length m = Z.to_nat DeviceIdMapSz -> valid_id id -> valid_id x ->
  bit_of (clear_bit m id) x = bit_of m x && negb (x =? id).
Proof.
  intros Hlen Hv Hx.
  destruct (valid_id_index _ id Hlen Hv) as [b Hb].
  destruct (valid_id_quot_rem id Hv) as (_ & _ & Hm & Hq).
  destruct (valid_id_quot_rem x Hx) as (_ & _ & Hmx & Hqx).
  unfold bit_of, clear_bit. rewrite Hb.
  destruct (decide (Z.to_nat (id / 8) = Z.to_nat (x / 8))) as [He|Hne].
  - rewrite <- He, list_lookup_insert_eq by (eapply lookup_lt_Some; eauto).
    rewrite Hb, Z.land_spec, Z.lxor_spec, Z.shiftl_1_l.
    assert (id / 8 = x / 8) as Hd by lia.
    change 255 with (Z.ones 8). rewrite (Z.ones_spec_low 8 (x mod 8)) by lia.
    destruct (Z.eqb_spec x id) as [->|Hxi].
    + now rewrite Z.pow2_bits_true by lia.
    + rewrite Z.pow2_bits_false; [simpl; done|].
      intros Heq. apply Hxi. apply id_split_eq; congruence.
  - rewrite list_lookup_insert_ne by done.
    destruct (Z.eqb_spec x id) as [->|Hxi]; [done|]. now rewrite andb_true_r.
Qed.

(** ** The allocator *)

Lemma alloc_state_same w :
  alloc_state (NextDeviceId (devices w)) (deviceIdMap (devices w)) w = w.
Proof. now destruct w as [[] ? ?]. Qed.

Lemma alloc_state_twice c m c' m' w :
  alloc_state c m (alloc_state c' m' w) = alloc_state c m w.
Proof. reflexivity. Qed.

Lemma valid_id_mod z : valid_id (z mod 2 ^ 24).
Proof.
  unfold valid_id, MaxDeviceId.
  pose proof (Z.mod_pos_bound z (2 ^ 24)). lia.
Qed.

Lemma incNextDeviceId_spec w :
  incNextDeviceId w =
  Returns tt (alloc_state ((NextDeviceId (devices w) + 1) mod 2 ^ 24)
                          (deviceIdMap (devices w)) w).
Proof.
  unfold incNextDeviceId, modify_devices, alloc_state, upd_devices.
  rewrite land_MaxDeviceId, wrap_int_mod24. now destruct w as [[] ? ?].
Qed.

Lemma getNextFreeDeviceId_scan_step n w :
  bitmap_ok w -> valid_id (NextDeviceId (devices w)) ->
  getNextFreeDeviceId_scan (S n) w =
  let c := NextDeviceId (devices w) in
  let m := deviceIdMap (devices w) in
  if bit_of m c
  then getNextFreeDeviceId_scan n (alloc_state ((c + 1) mod 2 ^ 24) m w)
  else Returns (Ok c) (alloc_state c (set_bit m c) w).
Proof.
  intros Hok Hv. cbn [getNextFreeDeviceId_scan].
  unfold bind at 1, get_devices at 1.
  unfold bind at 1. rewrite (isDeviceIdFree_bit w _ Hok Hv). cbn zeta.
  destruct (bit_of (deviceIdMap (devices w)) (NextDeviceId (devices w))); cbn [negb].
  - unfold bind. now rewrite incNextDeviceId_spec.
  - unfold bind. now rewrite (markDeviceIdUsed_bit w _ Hok Hv).
Qed.

Lemma getNextFreeDeviceId_scan_spec n : forall w,
  bitmap_ok w -> valid_id (NextDeviceId (devices w)) ->
  let c := NextDeviceId (devices w) in
  let m := deviceIdMap (devices w) in
  (exists k, (k < n)%nat /\
     (forall j, (j < k)%nat -> bit_of m ((c + Z.of_nat j) mod 2 ^ 24) = true) /\
     bit_of m ((c + Z.of_nat k) mod 2 ^ 24) = false /\
     getNextFreeDeviceId_scan n w =
     Returns (Ok ((c + Z.of_nat k) mod 2 ^ 24))
       (alloc_state ((c + Z.of_nat k) mod 2 ^ 24)
                    (set_bit m ((c + Z.of_nat k) mod 2 ^ 24)) w))
  \/
  ((forall j, (j < n)%nat -> bit_of m ((c + Z.of_nat j) mod 2 ^ 24) = true) /\
   getNextFreeDeviceId_scan n w =
   Returns (Err (Errorf "Unable to find a free device Id" []))
     (alloc_state ((c + Z.of_nat n) mod 2 ^ 24) m w)).
Proof.
  induction n as [|n IH]; intros w Hok Hv; cbn zeta.
  - right. split; [intros j Hj; lia|].
    cbn [getNextFreeDeviceId_scan]. unfold ret.
    rewrite Z.add_0_r, Z.mod_small by (unfold valid_id, MaxDeviceId in Hv; lia).
    now rewrite alloc_state_same.
  - assert (NextDeviceId (devices w) mod 2 ^ 24 = NextDeviceId (devices w)) as Hc
      by (apply Z.mod_small; unfold valid_id, MaxDeviceId in Hv; lia).
    rewrite (getNextFreeDeviceId_scan_step n w Hok Hv). cbv zeta.
    destruct (bit_of (deviceIdMap (devices w)) (NextDeviceId (devices w))) eqn:Hbit.
    + (* the cursor is on a used id: step and go on *)
      set (w1 := alloc_state ((NextDeviceId (devices w) + 1) mod 2 ^ 24)
                             (deviceIdMap (devices w)) w).
      assert (bitmap_ok w1) as Hok1 by exact Hok.
      assert (valid_id (NextDeviceId (devices w1))) as Hv1 by apply valid_id_mod.
      assert (forall j, (NextDeviceId (devices w1) + Z.of_nat j) mod 2 ^ 24
                        = (NextDeviceId (devices w) + Z.of_nat (S j)) mod 2 ^ 24) as Hidx.
      { intros j. unfold w1. cbn [alloc_state upd_devices devices set_deviceIdMap
                                   set_NextDeviceId NextDeviceId].
        rewrite Z.add_mod_idemp_l by lia. f_equal. lia. }
      destruct (IH w1 Hok1 Hv1) as [(k & Hk & Hused & Hfree & Hrun) | (Hused & Hrun)].
      * left. exists (S k). rewrite <- (Hidx k). split; [lia|]. split; [|split].
        -- intros [|j] Hj.
           ++ now rewrite Z.add_0_r, Hc.
           ++ rewrite <- (Hidx j). apply Hused. lia.
        -- exact Hfree.
        -- rewrite Hrun. reflexivity.
      * right. rewrite <- (Hidx n). split.
        -- intros [|j] Hj.
           ++ now rewrite Z.add_0_r, Hc.
           ++ rewrite <- (Hidx j). apply Hused. lia.
        -- rewrite Hrun. reflexivity.
    + (* the cursor is on a free id: take it *)
      left. exists 0%nat. rewrite Z.add_0_r, Hc. split; [lia|]. split; [|split].
      * intros j Hj. lia.
      * exact Hbit.
      * reflexivity.
Qed.

(** C4: for every DeviceSet whose bitmap has its [DeviceIdMapSz] bytes,
    [getNextFreeDeviceId] starts one past the cursor (modulo 2^24) and
    looks at no more than 2^24 cursor positions.  Either some position
    [k] is the first whose id is free: that id is returned, its bit is
    set, no other bit changes and the cursor rests on it.  Or every one
    of the 2^24 ids is used: the call returns an error and the bitmap is
    what it was. *)
Theorem getNextFreeDeviceId_first_free (w : World) :
  bitmap_ok w ->
  let m := deviceIdMap (devices w) in
  let c0 := (NextDeviceId (devices w) + 1) mod 2 ^ 24 in
  (exists k, 0 <= k < 2 ^ 24 /\
     let id := (c0 + k) mod 2 ^ 24 in
     (forall j, 0 <= j < k ->
        isDeviceIdFree ((c0 + j) mod 2 ^ 24) w = Returns false w) /\
     isDeviceIdFree id w = Returns true w /\
     exists w', getNextFreeDeviceId w = Returns (Ok id) w' /\
       NextDeviceId (devices w') = id /\
       deviceIdMap (devices w') = set_bit m id /\
       isDeviceIdFree id w' = Returns false w' /\
       (forall x, valid_id x -> x <> id ->
          bit_of (deviceIdMap (devices w')) x = bit_of m x) /\
       files w' = files w /\ trace w' = trace w)
  \/
  ((forall x, valid_id x -> isDeviceIdFree x w = Returns false w) /\
   exists e w', getNextFreeDeviceId w = Returns (Err e) w' /\
     deviceIdMap (devices w') = m /\ files w' = files w /\ trace w' = trace w).
Proof.
  intros Hok m c0.
  unfold getNextFreeDeviceId, bind. rewrite incNextDeviceId_spec.
  set (w1 := alloc_state c0 m w).
  assert (bitmap_ok w1) as Hok1 by exact Hok.
  assert (valid_id (NextDeviceId (devices w1))) as Hv1 by apply valid_id_mod.
  assert (forall x, valid_id x ->
            isDeviceIdFree x w = Returns (negb (bit_of m x)) w) as Hfree_w
    by (intros x Hx; now apply isDeviceIdFree_bit).
  destruct (getNextFreeDeviceId_scan_spec (Z.to_nat (MaxDeviceId + 1)) w1 Hok1 Hv1)
    as [(k & Hk & Hused & Hfree & Hrun) | (Hused & Hrun)];
    change (NextDeviceId (devices w1)) with c0 in *;
    change (deviceIdMap (devices w1)) with m in *.
  - left. exists (Z.of_nat k). split; [unfold MaxDeviceId in Hk; lia|]. cbn zeta.
    set (id := (c0 + Z.of_nat k) mod 2 ^ 24) in *.
    assert (valid_id id) as Hid by apply valid_id_mod.
    split; [|split].
    + intros j Hj. rewrite Hfree_w by apply valid_id_mod.
      replace j with (Z.of_nat (Z.to_nat j)) by lia.
      rewrite Hused by lia. reflexivity.
    + now rewrite Hfree_w, Hfree.
    + eexists. split; [exact Hrun|]. split; [reflexivity|]. split; [reflexivity|].
      split; [|split; [|split; reflexivity]].
      * rewrite isDeviceIdFree_bit; [|unfold bitmap_ok; cbn; now rewrite length_set_bit|done].
        cbn [alloc_state upd_devices devices deviceIdMap set_deviceIdMap].
        rewrite bit_of_set_bit, Z.eqb_refl, orb_true_r by done. reflexivity.
      * intros x Hx Hne. cbn [alloc_state upd_devices devices deviceIdMap set_deviceIdMap].
        rewrite bit_of_set_bit by done.
        destruct (Z.eqb_spec x id); [contradiction | apply orb_false_r].
  - right. split.
    + intros x Hx. rewrite Hfree_w by done.
      pose proof (Z.mod_pos_bound (x - c0) (2 ^ 24) ltac:(lia)) as Hj.
      specialize (Hused (Z.to_nat ((x - c0) mod 2 ^ 24)) ltac:(unfold MaxDeviceId; lia)).
      rewrite Z2Nat.id, Z.add_mod_idemp_r in Hused by lia.
      replace (c0 + (x - c0)) with x in Hused by lia.
      rewrite Z.mod_small in Hused by (unfold valid_id, MaxDeviceId in Hx; lia).
      now rewrite Hused.
    + do 2 eexists. split; [exact Hrun|]. repeat split.
Qed.

(** ** Calls that only talk to the outside *)

Lemma io_only_ret {A} (P : Event -> Prop) (a : A) : io_only P (ret a).
Proof.
  intros w. cbn. repeat split. exists []. split; [now rewrite app_nil_r | constructor].
Qed.

Lemma io_only_bind {A B} (P : Event -> Prop) (m : M A) (k : A -> M B) :
  io_only P m -> (forall a, io_only P (k a)) -> io_only P (bind m k).
Proof.
  intros Hm Hk w. unfold bind. specialize (Hm w).
  destruct (m w) as [a w1|s]; [|exact I].
  destruct Hm as (Hd & Hf & t1 & Ht1 & HP1).
  specialize (Hk a w1). destruct (k a w1) as [b w2|s]; [|exact I].
  destruct Hk as (Hd2 & Hf2 & t2 & Ht2 & HP2).
  split; [congruence|]. split; [congruence|].
  exists (t1 ++ t2). split; [rewrite Ht2, Ht1; now rewrite app_assoc|].
  now apply Forall_app.
Qed.

Lemma io_only_emit (P : Event -> Prop) ev : P ev -> io_only P (emit ev).
Proof.
  intros HP w. cbn. repeat split. exists [ev]. split; [done|]. now repeat constructor.
Qed.

Lemma io_only_panic {A} (P : Event -> Prop) : io_only P (@panic A).
Proof. intros w. exact I. Qed.

Lemma io_only_get_devices (P : Event -> Prop) : io_only P get_devices.
Proof.
  intros w. cbn. repeat split. exists []. split; [now rewrite app_nil_r | constructor].
Qed.

Lemma io_only_weaken {A} (P Q : Event -> Prop) (m : M A) :
  (forall ev, P ev -> Q ev) -> io_only P m -> io_only Q m.
Proof.
  intros HPQ Hm w. specialize (Hm w). destruct (m w); [|exact I].
  destruct Hm as (? & ? & t & ? & HP). repeat split; try done.
  exists t. split; [done|]. eapply Forall_impl; eauto.
Qed.

Ltac io_step :=
  lazymatch goal with
  | |- io_only _ (ret _) => apply io_only_ret
  | |- io_only _ panic => apply io_only_panic
  | |- io_only _ get_devices => apply io_only_get_devices
  | |- io_only _ (emit _) => apply io_only_emit; cbn; try done
  | |- io_only _ (bind _ _) => apply io_only_bind; [|intros ?]
  | |- io_only _ (match ?x with _ => _ end) => destruct x
  | |- io_only _ (if ?x then _ else _) => destruct x
  | |- io_only _ (let (_, _) := ?x in _) => destruct x
  end.

Ltac io_auto := repeat io_step.

(** ** Inverting runs *)

Lemma bind_Returns {A B} (m : M A) (k : A -> M B) w b w'' :
  bind m k w = Returns b w'' ->
  exists a w', m w = Returns a w' /\ k a w' = Returns b w''.
Proof.
  unfold bind. destruct (m w) as [a w'|s]; [|discriminate]. intros Hk. eauto.
Qed.

Lemma ret_Returns {A} (a b : A) w w' :
  ret a w = Returns b w' -> a = b /\ w = w'.
Proof. unfold ret. now intros [= -> ->]. Qed.

Lemma get_devices_Returns d w w' :
  get_devices w = Returns d w' -> d = devices w /\ w' = w.
Proof. unfold get_devices. now intros [= -> ->]. Qed.

Lemma get_files_Returns f w w' :
  get_files w = Returns f w' -> f = files w /\ w' = w.
Proof. unfold get_files. now intros [= -> ->]. Qed.

Lemma modify_devices_Returns f u w w' :
  modify_devices f w = Returns u w' -> w' = upd_devices f w.
Proof. unfold modify_devices. now intros [= _ <-]. Qed.

Lemma modify_files_Returns f u w w' :
  modify_files f w = Returns u w' ->
  w' = mkWorld (devices w) (f (files w)) (trace w).
Proof. unfold modify_files. now intros [= _ <-]. Qed.

Lemma emit_Returns ev t w w' :
  emit ev w = Returns t w' -> t = trace w ++ [ev] /\ w' = add_events [ev] w.
Proof. unfold emit, add_events. now intros [= <- <-]. Qed.

Lemma call_Returns `{Env} ev r w w' :
  call ev w = Returns r w' ->
  r = env_err (trace w ++ [ev]) /\ w' = add_events [ev] w.
Proof. unfold call, bind, emit, ret, add_events. now intros [= <- <-]. Qed.

Lemma log_Returns msg u w w' :
  log msg w = Returns u w' -> w' = add_events [EvLog msg] w.
Proof. unfold log, bind, emit, ret, add_events. now intros [= _ <-]. Qed.

Lemma store_info_Returns hash info u w w' :
  store_info hash info w = Returns u w' -> w' = with_info hash info w.
Proof. unfold store_info, modify_devices, with_info. now intros [= _ <-]. Qed.

(** Take a run [H : m w = Returns r w'] apart along the binds and the
    case distinctions of [m], down to the calls of named functions. *)
Ltac run_inv H :=
  lazymatch type of H with
  | bind _ _ _ = Returns _ _ =>
      let a := fresh "a" in
      let w := fresh "w" in
      let H1 := fresh "Hrun" in
      let H2 := fresh "Hrun" in
      apply bind_Returns in H; destruct H as (a & w & H1 & H2);
      run_inv H1; run_inv H2
  | ret _ _ = Returns _ _ =>
      let He := fresh "He" in
      apply ret_Returns in H; destruct H as [He ?];
      first [discriminate He | injection He as He; subst | subst]
  | panic _ = Returns _ _ => discriminate H
  | fuel_out _ = Returns _ _ => discriminate H
  | Stops _ = Returns _ _ => discriminate H
  | get_devices _ = Returns _ _ =>
      apply get_devices_Returns in H; destruct H as [? ?]; subst
  | get_files _ = Returns _ _ =>
      apply get_files_Returns in H; destruct H as [? ?]; subst
  | modify_devices _ _ = Returns _ _ =>
      apply modify_devices_Returns in H; subst
  | modify_files _ _ = Returns _ _ =>
      apply modify_files_Returns in H; subst
  | store_info _ _ _ = Returns _ _ =>
      apply store_info_Returns in H; subst
  | emit _ _ = Returns _ _ =>
      apply emit_Returns in H; destruct H as [? ?]; subst
  | call _ _ = Returns _ _ =>
      apply call_Returns in H; destruct H as [? ?]; subst
  | log _ _ = Returns _ _ =>
      apply log_Returns in H; subst
  | (match ?x with _ => _ end) _ = Returns _ _ =>
      let E := fresh "E" in destruct x eqn:E; run_inv H
  | (if ?x then _ else _) _ = Returns _ _ =>
      let E := fresh "E" in destruct x eqn:E; run_inv H
  | (let (_, _) := ?x in _) _ = Returns _ _ =>
      let E := fresh "E" in destruct x eqn:E; run_inv H
  | _ => idtac
  end.

(** ** Frames *)

#[export] Instance same_Frame {X} (f : DeviceSet -> X) : Frame (same f).
Proof. split; unfold same; intros; cbn; congruence. Qed.

#[export] Instance same_files_Frame : Frame same_files.
Proof. split; unfold same_files; intros; cbn; congruence. Qed.

#[export] Instance file_kept_Frame p : Frame (file_kept p).
Proof. split; unfold file_kept; intros; cbn; auto. Qed.

#[export] Instance traced_Frame P : Frame (traced P).
Proof.
  split; unfold traced.
  - intros w. exists []. split; [now rewrite app_nil_r | constructor].
  - intros w1 w2 w3 (t1 & H1 & P1) (t2 & H2 & P2). exists (t1 ++ t2).
    split; [rewrite H2, H1; now rewrite app_assoc | now apply Forall_app].
Qed.

#[export] Instance both_Frame R1 R2 : Frame R1 -> Frame R2 -> Frame (both R1 R2).
Proof.
  intros F1 F2. split; unfold both.
  - intros w. split; apply frame_refl.
  - intros w1 w2 w3 [? ?] [? ?]. split; eapply frame_trans; eauto.
Qed.

Lemma steps_ret {A} R `{!Frame R} (a : A) : steps R (ret a).
Proof. intros w b w' [= _ <-]. apply frame_refl. Qed.

Lemma steps_bind {A B} R `{!Frame R} (m : M A) (k : A -> M B) :
  steps R m -> (forall a, steps R (k a)) -> steps R (bind m k).
Proof.
  intros Hm Hk w b w'' Hrun. apply bind_Returns in Hrun.
  destruct Hrun as (a & w' & H1 & H2).
  eapply frame_trans; [eapply Hm | eapply Hk]; eauto.
Qed.

Lemma steps_emit R ev :
  (forall w, R w (add_events [ev] w)) -> steps R (emit ev).
Proof. intros HR w t w' Hrun. apply emit_Returns in Hrun as [_ ->]. apply HR. Qed.

Lemma steps_panic {A} R : steps R (@panic A).
Proof. intros w a w' [=]. Qed.

Lemma steps_fuel_out {A} R : steps R (@fuel_out A).
Proof. intros w a w' [=]. Qed.

Lemma steps_get_devices R `{!Frame R} : steps R get_devices.
Proof. intros w d w' [= _ <-]. apply frame_refl. Qed.

Lemma steps_get_files R `{!Frame R} : steps R get_files.
Proof. intros w d w' [= _ <-]. apply frame_refl. Qed.

Lemma steps_modify_devices R g :
  (forall w, R w (upd_devices g w)) -> steps R (modify_devices g).
Proof. intros HR w u w' [= _ <-]. apply HR. Qed.

Lemma steps_modify_files R g :
  (forall w, R w (mkWorld (devices w) (g (files w)) (trace w))) ->
  steps R (modify_files g).
Proof. intros HR w u w' [= _ <-]. apply HR. Qed.

Lemma steps_both {A} R1 R2 (m : M A) :
  steps R1 m -> steps R2 m -> steps (both R1 R2) m.
Proof. intros H1 H2 w a w' Hrun. split; eauto. Qed.

Lemma steps_fst {A} R1 R2 (m : M A) : steps (both R1 R2) m -> steps R1 m.
Proof. intros Hm w a w' Hrun. now destruct (Hm w a w' Hrun). Qed.

Lemma steps_snd {A} R1 R2 (m : M A) : steps (both R1 R2) m -> steps R2 m.
Proof. intros Hm w a w' Hrun. now destruct (Hm w a w' Hrun). Qed.

Lemma same_files_kept {A} p (m : M A) : steps same_files m -> steps (file_kept p) m.
Proof.
  intros Hm w a w' Hrun Hp. unfold same_files in Hm. now rewrite (Hm w a w' Hrun).
Qed.

Create HintDb steps discriminated.

(** Side conditions: the relation holds across one field update. *)
Ltac frame_side :=
  intros; unfold kept, quiet;
  repeat lazymatch goal with
  | |- both _ _ _ _ => split
  end;
  try lazymatch goal with
  | |- traced _ _ (add_events [_] _) =>
      eexists; split; [reflexivity|]; repeat constructor; cbn; done
  | |- traced _ _ _ =>
      exists []; split; [cbn; now rewrite app_nil_r | constructor]
  | |- _ =>
      unfold same, same_files, file_kept, open_id; cbn; intros;
      try rewrite ?lookup_insert_is_Some', ?lookup_alter_is_Some;
      solve [done | reflexivity | tauto | eauto]
  end.

Ltac steps_step :=
  lazymatch goal with
  | |- steps _ (ret _) => apply steps_ret; try exact _
  | |- steps _ panic => apply steps_panic
  | |- steps _ fuel_out => apply steps_fuel_out
  | |- steps _ get_devices => apply steps_get_devices; try exact _
  | |- steps _ get_files => apply steps_get_files; try exact _
  | |- steps _ (emit _) => apply steps_emit; frame_side
  | |- steps _ (modify_devices _) => apply steps_modify_devices; frame_side
  | |- steps _ (modify_files _) => apply steps_modify_files; frame_side
  | |- steps _ (bind _ _) => apply steps_bind; [try exact _ | | intros ?]
  | |- steps _ (match ?x with _ => _ end) => destruct x
  | |- steps _ (if ?x then _ else _) => destruct x
  | |- steps _ (let (_, _) := ?x in _) => destruct x
  | |- steps _ _ => solve [eauto with steps]
  end.

Ltac steps_auto := repeat steps_step.

(** ** Running the model symbolically *)

Ltac exec_proj :=
  cbn [devices files trace fst snd upd_devices
       Devices root devicePrefix TransactionId NextDeviceId deviceIdMap
       dataLoopbackSize metaDataLoopbackSize baseFsSize filesystem mountOptions
       mkfsArgs dataDevice dataLoopFile metadataDevice metadataLoopFile doBlkDiscard
       thinpBlockSize thinPoolDevice transaction
       set_Devices set_TransactionId set_NextDeviceId set_deviceIdMap set_transaction
       OpenTransactionId DeviceIdHash tx_DeviceId
       set_OpenTransactionId set_DeviceIdHash set_tx_DeviceId
       Hash DeviceId Size info_TransactionId Initialized mountCount mountPath
       set_Initialized set_mountCount set_mountPath].

Ltac exec :=
  cbv beta iota zeta delta
    [bind ret panic get_devices modify_devices get_files modify_files
     emit call log time_Sleep dm_GetInfo dm_GetStatus ProbeFsType store_info];
  exec_proj.

Ltac exec_fs :=
  cbv beta iota zeta delta
    [ioutil_ReadFile ioutil_TempFile file_Write file_Sync file_Close
     os_Rename os_RemoveAll];
  exec.

Section Properties.
Context `{Env}.

(** ** Mounting *)

Lemma lookupDevice_cached w hash info :
  Devices (devices w) !! hash = Some info ->
  lookupDevice hash w = Returns (Ok info) w.
Proof. intros Hin. unfold lookupDevice. exec. now rewrite Hin. Qed.

(** C6: while the device is mounted, a mount at another path fails with
    the mounted-in-multiple-places error and leaves the world, history
    included, as it was; a mount at the same path adds one to the count
    and touches nothing else, the history included. *)
Theorem MountDevice_while_mounted w hash path mountLabel info :
  Devices (devices w) !! hash = Some info ->
  0 < mountCount info ->
  (path <> mountPath info ->
   MountDevice hash path mountLabel w =
   Returns (Some (Errorf "Trying to mount devmapper device in multple places (%s, %s)"
                    [ArgS (mountPath info); ArgS path])) w)
  /\
  (path = mountPath info ->
   MountDevice hash path mountLabel w =
   Returns None
     (upd_devices (fun d =>
        set_Devices (<[hash := set_mountCount (wrap_int (mountCount info + 1)) info]>
                       (Devices d)) d) w)
   /\ (mountCount info < max_int -> wrap_int (mountCount info + 1) = mountCount info + 1)).
Proof.
  intros Hin Hpos.
  split; intros Hpath; unfold MountDevice, bind at 1;
    rewrite (lookupDevice_cached _ _ _ Hin);
    replace (0 <? mountCount info) with true by (symmetry; apply Z.ltb_lt; lia).
  - now replace (path =? mountPath info)%string with false
      by (symmetry; apply String.eqb_neq; exact Hpath).
  - replace (path =? mountPath info)%string with true
      by (symmetry; apply String.eqb_eq; exact Hpath).
    exec. split; [reflexivity|].
    intros Hmax. apply wrap_int_small. unfold max_int in Hmax. lia.
Qed.

(** ** The metadata store *)

(** C3: [writeMetaFile] creates a temporary file in the metadata
    directory, writes the data to it, syncs it, closes it and renames it
    onto the target, in this order.  When it succeeds the target holds
    exactly the data (and the temporary name is gone).  When it fails,
    at whichever step, a target that is not itself a temporary name
    holds what it held before; and a write that reports fewer bytes
    than given, without an error, makes the call fail with
    [io.ErrShortWrite]. *)
Theorem writeMetaFile_atomic w (jsonData : list Byte.byte) filePath :
  (forall suffix,
     filePath <> path_Join (metadataDir (devices w)) (".tmp" ++ suffix)) ->
  match writeMetaFile jsonData filePath w with
  | Returns None w' =>
      files w' !! filePath = Some jsonData /\ devices w' = devices w /\
      exists tmp suffix,
        tmp = path_Join (metadataDir (devices w)) (".tmp" ++ suffix) /\
        files w !! tmp = None /\
        files w' = <[filePath := jsonData]> (files w) /\
        trace w' = trace w ++
          [EvTempFile (metadataDir (devices w)) ".tmp"; EvWrite tmp jsonData;
           EvSync tmp; EvClose tmp; EvRename tmp filePath]
  | Returns (Some e) w' =>
      files w' !! filePath = files w !! filePath /\ devices w' = devices w /\
      (forall tmp w1 n w2,
         ioutil_TempFile (metadataDir (devices w)) ".tmp" w = Returns (Ok tmp) w1 ->
         file_Write tmp jsonData w1 = Returns (n, None) w2 ->
         n < Z.of_nat (length jsonData) ->
         e = ErrShortWrite /\ w' = w2)
  | Stops _ => False
  end.
Proof.
  intros Hfresh. unfold writeMetaFile. exec_fs.
  set (t1 := trace w ++ [EvTempFile (metadataDir (devices w)) ".tmp"]).
  set (tmp := path_Join (metadataDir (devices w)) (".tmp" ++ env_str t1)).
  assert (filePath <> tmp) as Hne by apply Hfresh.
  destruct (env_err t1) as [e1|] eqn:E1; exec.
  { split; [done|]. split; [done|]. intros ? ? ? ? [=]. }
  destruct (files w !! tmp) as [old|] eqn:Htmp; exec.
  { split; [done|]. split; [done|]. intros ? ? ? ? [=]. }
  set (t2 := t1 ++ [EvWrite tmp jsonData]).
  set (n := Z.max 0 (Z.min (env_num t2) (Z.of_nat (length jsonData)))).
  rewrite alter_insert_eq, app_nil_l.
  destruct (env_err t2) as [e2|] eqn:E2; exec.
  { split; [now rewrite lookup_insert_ne|]. split; [done|].
    intros ? ? ? ? [= <- <-]. exec. fold t2. rewrite E2. intros [=]. }
  destruct (n <? Z.of_nat (length jsonData)) eqn:Hn; exec.
  { split; [now rewrite lookup_insert_ne|]. split; [done|].
    intros ? ? ? ? [= <- <-]. exec. fold t2 n. rewrite E2, alter_insert_eq, app_nil_l.
    intros [= <- <-] _. done. }
  apply Z.ltb_ge in Hn.
  assert (take (Z.to_nat n) jsonData = jsonData) as Hall
    by (apply take_ge; lia).
  rewrite Hall.
  assert (forall e w', forall tmp0 w1 n0 w2,
    Returns (Ok tmp) (mkWorld (devices w) (<[tmp := []]> (files w)) t1) = Returns (Ok tmp0) w1 ->
    file_Write tmp0 jsonData w1 = Returns (n0, None) w2 ->
    n0 < Z.of_nat (length jsonData) -> e = ErrShortWrite /\ w' = w2) as Hshort.
  { intros ? ? ? ? ? ? [= <- <-]. unfold file_Write. exec. fold t2 n.
    intros [= <- _ <-]. lia. }
  set (t3 := t2 ++ [EvSync tmp]).
  destruct (env_err t3) as [e3|] eqn:E3; exec.
  { split; [now rewrite lookup_insert_ne|]. split; [done|]. apply Hshort. }
  set (t4 := t3 ++ [EvClose tmp]).
  destruct (env_err t4) as [e4|] eqn:E4; exec.
  { split; [now rewrite lookup_insert_ne|]. split; [done|]. apply Hshort. }
  set (t5 := t4 ++ [EvRename tmp filePath]).
  destruct (env_err t5) as [e5|] eqn:E5; exec.
  { split; [now rewrite lookup_insert_ne|]. split; [done|]. apply Hshort. }
  rewrite lookup_insert_eq. exec.
  rewrite delete_insert_eq, (delete_id _ _ Htmp).
  split; [apply lookup_insert_eq|]. split; [done|].
  exists tmp, (env_str t1). repeat split; try done.
  unfold t5, t4, t3, t2, t1. now rewrite <- !app_assoc.
Qed.

(** ** Waiting for the kernel *)

Lemma waitRemove_loop_io n : forall i devname,
  io_only poll_event (waitRemove_loop n i devname).
Proof.
  induction n as [|n IH]; intros i devname; cbn [waitRemove_loop].
  - apply io_only_ret.
  - unfold dm_GetInfo, log, time_Sleep. io_auto. apply IH.
Qed.

Lemma waitRemove_io devname : io_only poll_event (waitRemove devname).
Proof.
  unfold waitRemove, log. io_auto. apply waitRemove_loop_io.
Qed.

Lemma removeDeviceAndWait_loop_io n : forall err devname,
  io_only poll_event (removeDeviceAndWait_loop n err devname).
Proof.
  induction n as [|n IH]; intros err devname; cbn [removeDeviceAndWait_loop].
  - apply io_only_ret.
  - unfold call, time_Sleep. io_auto. apply IH.
Qed.

Lemma removeDeviceAndWait_io devname :
  io_only poll_event (removeDeviceAndWait devname).
Proof.
  unfold removeDeviceAndWait. io_auto;
    first [apply removeDeviceAndWait_loop_io | apply waitRemove_io].
Qed.

Lemma waitClose_loop_io n : forall i name,
  io_only poll_event (waitClose_loop n i name).
Proof.
  induction n as [|n IH]; intros i name; cbn [waitClose_loop].
  - apply io_only_ret.
  - unfold dm_GetInfo, log, time_Sleep. io_auto. apply IH.
Qed.

Lemma waitClose_io info : io_only poll_event (waitClose info).
Proof. unfold waitClose. io_auto. apply waitClose_loop_io. Qed.

Lemma bind_log {A} msg (k : unit -> M A) w :
  bind (log msg) k w = k tt (add_events [EvLog msg] w).
Proof. reflexivity. Qed.

Lemma deactivateDevice_spec info w :
  match deactivateDevice info w with
  | Returns _ w' =>
      devices w' = devices w /\ files w' = files w /\
      exists t, trace w' = trace w ++ EvLog "[devmapper] deactivateDevice(%s)" :: t /\
                Forall poll_event t
  | Stops _ => True
  end.
Proof.
  unfold deactivateDevice. rewrite bind_log.
  set (w1 := add_events _ w).
  match goal with |- match ?m w1 with _ => _ end =>
    assert (io_only poll_event m) as Hio end.
  { unfold log, dm_GetInfo. io_auto;
      first [apply waitClose_io | apply removeDeviceAndWait_io]. }
  match goal with |- match ?m w1 with _ => _ end =>
    specialize (Hio w1); destruct (m w1) as [r w2|s]; [|exact I] end.
  destruct Hio as (Hd & Hf & t & Ht & HP).
  split; [exact Hd|]. split; [exact Hf|]. exists t. split; [|exact HP].
  rewrite Ht. unfold w1. cbn [trace add_events]. now rewrite <- app_assoc.
Qed.

Lemma UnmountDevice_last w hash info :
  Devices (devices w) !! hash = Some info ->
  mountCount info = 1 ->
  let info0 := set_mountCount 0 info in
  let w1 := add_events [EvLog "[devmapper] UnmountDevice(hash=%s)";
                        EvLog "[devmapper] Unmount(%s)";
                        EvUnmount (mountPath info) MNT_DETACH]
                       (with_info hash info0 w) in
  let done := [EvLog "[devmapper] UnmountDevice(hash=%s) END"] in
  UnmountDevice hash w =
  match env_err (trace w1) with
  | Some e => Returns (Some e) (add_events done w1)
  | None =>
      match deactivateDevice info0 (add_events [EvLog "[devmapper] Unmount done"] w1) with
      | Returns (Some e) w2 => Returns (Some e) (add_events done w2)
      | Returns None w2 =>
          Returns None (add_events done (with_info hash (set_mountPath "" info0) w2))
      | Stops s => Stops s
      end
  end.
Proof.
  intros Hin Hone. cbv zeta.
  unfold UnmountDevice. rewrite bind_log.
  unfold bind at 1. unfold bind at 1.
  rewrite (lookupDevice_cached (add_events _ w) hash info) by exact Hin.
  rewrite Hone. change (1 =? 0) with false. change (wrap_int (1 - 1)) with 0.
  cbv iota. unfold bind at 1. unfold store_info at 1, modify_devices at 1.
  cbn [mountCount set_mountCount]. change (0 <? 0) with false. cbv iota.
  rewrite bind_log. unfold bind at 1, call at 1, bind at 1, emit at 1, ret at 1.
  unfold add_events, with_info, upd_devices. cbn [devices files trace mountPath set_mountCount].
  rewrite <- !app_assoc. cbn [app].
  destruct (env_err _) as [e|].
  { exec. now rewrite <- !app_assoc. }
  rewrite bind_log. unfold bind at 1. unfold add_events. cbn [devices files trace].
  rewrite <- !app_assoc. cbn [app].
  destruct (deactivateDevice _ _) as [[e|] w2|s]; exec; reflexivity.
Qed.
(** C10: [UnmountDevice] takes one off the count before it asks the
    kernel for anything.  Called on a device mounted once, it leaves the
    count at 0 and the mount path as it was whenever it returns an
    error; it returns the kernel's error when the unmount fails, and the
    error of [deactivateDevice] when the unmount succeeds and the
    deactivation fails. *)
Theorem UnmountDevice_error_keeps_decrement w hash info :
  Devices (devices w) !! hash = Some info ->
  mountCount info = 1 ->
  let info0 := set_mountCount 0 info in
  let w1 := add_events [EvLog "[devmapper] UnmountDevice(hash=%s)";
                        EvLog "[devmapper] Unmount(%s)";
                        EvUnmount (mountPath info) MNT_DETACH]
                       (with_info hash info0 w) in
  (mountCount info0 = 0 /\ mountPath info0 = mountPath info) /\
  (forall e, env_err (trace w1) = Some e ->
     exists w', UnmountDevice hash w = Returns (Some e) w' /\
                Devices (devices w') !! hash = Some info0) /\
  (env_err (trace w1) = None ->
   forall e w2,
     deactivateDevice info0 (add_events [EvLog "[devmapper] Unmount done"] w1)
       = Returns (Some e) w2 ->
     exists w', UnmountDevice hash w = Returns (Some e) w' /\
                Devices (devices w') !! hash = Some info0) /\
  (forall e w', UnmountDevice hash w = Returns (Some e) w' ->
     Devices (devices w') !! hash = Some info0).
Proof.
  intros Hin Hone info0 w1.
  pose proof (UnmountDevice_last w hash info Hin Hone) as Heq. cbv zeta in Heq.
  fold info0 in Heq. fold w1 in Heq.
  assert (Devices (devices w1) !! hash = Some info0) as Hw1
    by (unfold w1, add_events, with_info; exec; apply lookup_insert_eq).
  split; [done|]. split; [|split].
  - intros e He. rewrite He in Heq. eexists. split; [exact Heq|]. exact Hw1.
  - intros He e w2 Hde. rewrite He, Hde in Heq. eexists. split; [exact Heq|].
    pose proof (deactivateDevice_spec info0
                  (add_events [EvLog "[devmapper] Unmount done"] w1)) as Hsp.
    rewrite Hde in Hsp. destruct Hsp as (Hd & _). cbn [add_events devices].
    rewrite Hd. exact Hw1.
  - intros e w' Hrun. rewrite Heq in Hrun.
    destruct (env_err (trace w1)) as [e1|].
    + injection Hrun as _ <-. exact Hw1.
    + pose proof (deactivateDevice_spec info0
                    (add_events [EvLog "[devmapper] Unmount done"] w1)) as Hsp.
      destruct (deactivateDevice _ _) as [[e2|] w2|s]; try discriminate.
      injection Hrun as _ <-. destruct Hsp as (Hd & _). cbn [add_events devices].
      rewrite Hd. exact Hw1.
Qed.



Lemma with_info_lookup w hash info :
  Devices (devices (with_info hash info w)) !! hash = Some info.
Proof. unfold with_info. cbn. apply lookup_insert_eq. Qed.


Lemma add_events_app t1 t2 w :
  add_events t2 (add_events t1 w) = add_events (t1 ++ t2) w.
Proof. unfold add_events. cbn. now rewrite app_assoc. Qed.

Lemma add_events_nil w : add_events [] w = w.
Proof. destruct w. unfold add_events. cbn. now rewrite app_nil_r. Qed.






Lemma activateDeviceIfNeeded_io path info :
  io_only (mount_event path) (activateDeviceIfNeeded info).
Proof. unfold activateDeviceIfNeeded, log, dm_GetInfo, call. io_auto. Qed.

Lemma io_only_Returns {A} P (m : M A) w a w' :
  io_only P m -> m w = Returns a w' ->
  exists t, w' = add_events t w /\ Forall P t.
Proof.
  intros Hio Hrun. specialize (Hio w). rewrite Hrun in Hio.
  destruct Hio as (Hd & Hf & t & Ht & HP). exists t. split; [|done].
  destruct w' as [d' f' t']. unfold add_events. cbn in *. congruence.
Qed.



(** ** Crash recovery *)



(** ** The base image *)

Lemma lookupDevice_miss w hash e w1 :
  lookupDevice hash w = Returns (Err e) w1 ->
  Devices (devices w) !! hash = None /\
  w1 = add_events [EvReadFile (metadataFile (devices w) hash)] w.
Proof.
  unfold lookupDevice, loadMetadata, ioutil_ReadFile. intros Hrun.
  run_inv Hrun; try discriminate; done.
Qed.

Lemma poolStatus_frame w r w1 :
  poolStatus w = Returns r w1 ->
  w1 = add_events [EvGetStatus (getPoolName (devices w))] w.
Proof.
  unfold poolStatus, dm_GetStatus. intros Hrun. run_inv Hrun; done.
Qed.

(** C7: with an external thin pool configured and no base record, in
    the registry or on disk, [setupBaseImage] asks for the pool's
    status.  If the status cannot be had, or the pool has used data
    blocks, or its transaction id is not 0, it returns an error at once:
    the world is the one the status query left, so nothing was created.
    Only with both at 0 does it go on to [createRegisterDevice]. *)
Theorem setupBaseImage_refuses_used_pool w e w1 st err w2 :
  thinPoolDevice (devices w) <> "" ->
  lookupDevice "" w = Returns (Err e) w1 ->
  poolStatus w1 = Returns (st, err) w2 ->
  let pool := thinPoolDevice (devices w) in
  w2 = add_events [EvReadFile (metadataFile (devices w) "");
                   EvGetStatus (getPoolName (devices w))] w /\
  (forall e', err = Some e' -> setupBaseImage w = Returns (Some e') w2) /\
  (err = None -> dataUsed st <> 0 ->
   setupBaseImage w =
   Returns (Some (Errorf
     "Unable to take ownership of thin-pool (%s) that already has used data blocks"
     [ArgS pool])) w2) /\
  (err = None -> dataUsed st = 0 -> ps_transactionId st <> 0 ->
   setupBaseImage w =
   Returns (Some (Errorf
     "Unable to take ownership of thin-pool (%s) with non-zero transaction Id"
     [ArgS pool])) w2) /\
  (err = None -> dataUsed st = 0 -> ps_transactionId st = 0 ->
   exists k,
     setupBaseImage w =
     bind (createRegisterDevice "") k
       (add_events [EvLog "Initializing base device-mapper thin volume"] w2)) /\
  (forall r w' t pool' id,
     setupBaseImage w = Returns r w' ->
     trace w' = trace w ++ t ->
     In (EvCreateDevice pool' id) t ->
     err = None /\ dataUsed st = 0 /\ ps_transactionId st = 0).
Proof.
  intros Hpool Hlook Hstat pool.
  destruct (lookupDevice_miss _ _ _ _ Hlook) as (Hnone & ->).
  pose proof (poolStatus_frame _ _ _ Hstat) as ->.
  rewrite add_events_app in *. cbn [app] in *.
  change (devices (add_events [EvReadFile (metadataFile (devices w) "")] w))
    with (devices w) in *.
  split; [reflexivity|].
  set (w2 := add_events [EvReadFile (metadataFile (devices w) "");
                         EvGetStatus (getPoolName (devices w))] w) in *.
  assert (forall B (k : _ -> M B),
    bind (lookupDevice "") k w = k (Err e) (add_events [EvReadFile (metadataFile (devices w) "")] w))
    as Hstep1 by (intros B k; unfold bind; now rewrite Hlook).
  assert (negb (thinPoolDevice (devices w) =? "")%string = true) as Hext
    by (apply negb_true_iff, String.eqb_neq; exact Hpool).
  assert (setupBaseImage w =
          match err with
          | Some e' => Returns (Some e') w2
          | None =>
              if negb (dataUsed st =? 0) then
                Returns (Some (Errorf
                  "Unable to take ownership of thin-pool (%s) that already has used data blocks"
                  [ArgS pool])) w2
              else if negb (ps_transactionId st =? 0) then
                Returns (Some (Errorf
                  "Unable to take ownership of thin-pool (%s) with non-zero transaction Id"
                  [ArgS pool])) w2
              else
                bind (createRegisterDevice "")
                  (fun r =>
                     match r with
                     | Err err => ret (Some err)
                     | Ok info =>
                         log "Creating filesystem on base device-mapper thin volume" ;;;
                         err <- activateDeviceIfNeeded info ;;
                         match err with
                         | Some err => ret (Some err)
                         | None =>
                             err <- createFilesystem info ;;
                             match err with
                             | Some err => ret (Some err)
                             | None =>
                                 let info := set_Initialized true info in
                                 store_info "" info ;;;
                                 err <- saveMetadata info ;;
                                 match err with
                                 | Some err =>
                                     let info := set_Initialized false info in
                                     store_info "" info ;;;
                                     ret (Some err)
                                 | None => ret None
                                 end
                             end
                         end
                     end)
                  (add_events [EvLog "Initializing base device-mapper thin volume"] w2)
          end) as Heq.
  { unfold setupBaseImage. rewrite Hstep1. cbv beta iota zeta.
    unfold bind at 1, ret at 1. unfold bind at 1, get_devices at 1.
    cbn [add_events devices]. rewrite Hext. cbn [is_nil andb].
    unfold bind at 1. unfold bind at 1. rewrite Hstat.
    destruct err as [e'|]; [reflexivity|].
    destruct (negb (dataUsed st =? 0)); [reflexivity|].
    destruct (negb (ps_transactionId st =? 0)); reflexivity. }
  split; [|split; [|split; [|split]]].
  - intros e' ->. exact Heq.
  - intros -> Hused. rewrite Heq.
    now replace (dataUsed st =? 0) with false by (symmetry; now apply Z.eqb_neq).
  - intros -> Hused Htx. rewrite Heq, Hused.
    now replace (ps_transactionId st =? 0) with false by (symmetry; now apply Z.eqb_neq).
  - intros -> Hused Htx. rewrite Heq, Hused, Htx. eexists. reflexivity.
  - intros r w' t pool' id Hrun Htr Hin.
    assert (trace w2 = trace w ++ t -> False) as Hno.
    { unfold w2. cbn [add_events trace]. intros Ht. apply app_inv_head in Ht.
      subst t. cbn in Hin. intuition discriminate. }
    rewrite Heq in Hrun. destruct err as [e'|].
    { injection Hrun as _ <-. tauto. }
    destruct (Z.eqb_spec (dataUsed st) 0) as [Hu|Hu]; cbn [negb] in Hrun.
    2:{ injection Hrun as _ <-. tauto. }
    destruct (Z.eqb_spec (ps_transactionId st) 0) as [Ht0|Ht0]; cbn [negb] in Hrun.
    2:{ injection Hrun as _ <-. tauto. }
    done.
Qed.

(** ** What the steps of a transaction leave alone *)

#[export] Instance kept_Frame p : Frame (kept p).
Proof. unfold kept. exact _. Qed.

Lemma kept_io {A} p P (m : M A) : io_only P m -> steps (kept p) m.
Proof.
  intros Hio w a w' Hrun. destruct (io_only_Returns _ _ _ _ _ Hio Hrun) as (t & -> & _).
  frame_side.
Qed.

Lemma markDeviceIdUsed_kept p id : steps (kept p) (markDeviceIdUsed id).
Proof. unfold markDeviceIdUsed, kept. steps_auto. Qed.

Lemma markDeviceIdFree_kept p id : steps (kept p) (markDeviceIdFree id).
Proof. unfold markDeviceIdFree, kept. steps_auto. Qed.

Lemma isDeviceIdFree_kept p id : steps (kept p) (isDeviceIdFree id).
Proof. unfold isDeviceIdFree, kept. steps_auto. Qed.

Lemma incNextDeviceId_kept p : steps (kept p) incNextDeviceId.
Proof. unfold incNextDeviceId, kept. steps_auto. Qed.

#[local] Hint Resolve markDeviceIdUsed_kept markDeviceIdFree_kept isDeviceIdFree_kept
  incNextDeviceId_kept : steps.

Lemma getNextFreeDeviceId_scan_kept p n : steps (kept p) (getNextFreeDeviceId_scan n).
Proof.
  induction n as [|n IH]; cbn [getNextFreeDeviceId_scan]; steps_auto.
Qed.

#[local] Hint Resolve getNextFreeDeviceId_scan_kept : steps.

Lemma getNextFreeDeviceId_kept p : steps (kept p) getNextFreeDeviceId.
Proof. unfold getNextFreeDeviceId. steps_auto. Qed.

#[local] Hint Resolve getNextFreeDeviceId_kept : steps.

Lemma call_kept p ev : steps (kept p) (call ev).
Proof. unfold call. steps_auto. Qed.

Lemma log_kept p msg : steps (kept p) (log msg).
Proof. unfold log. steps_auto. Qed.

#[local] Hint Resolve call_kept log_kept : steps.

Lemma writeMetaFile_run data path w r w' :
  writeMetaFile data path w = Returns r w' ->
  devices w' = devices w /\
  (forall p, is_Some (files w !! p) -> is_Some (files w' !! p)) /\
  (r = None -> files w' !! path = Some data).
Proof.
  unfold writeMetaFile, ioutil_TempFile, file_Write, file_Sync, file_Close, os_Rename.
  intros Hrun. run_inv Hrun.
  all: cbn [add_events upd_devices devices files trace] in *.
  all: split; [reflexivity|]; split; [|try discriminate].
  all: try (intros p Hp; exact Hp).
  all: try (intros p Hp; rewrite lookup_alter_is_Some, lookup_insert_is_Some'; tauto).
  - intros p Hp.
    match goal with E : files w !! ?tmp = None |- _ =>
      assert (p <> tmp) as Hne by (intros ->; rewrite E in Hp; now destruct Hp) end.
    rewrite lookup_insert_is_Some', lookup_delete_is_Some, lookup_alter_is_Some,
      lookup_insert_is_Some'. right. split; [congruence | tauto].
  - intros _. rewrite lookup_insert_eq. f_equal.
    match goal with E : _ !! _ = Some ?l |- _ = ?d =>
      rewrite lookup_alter_eq, lookup_insert_eq in E; cbn in E; injection E as <- end.
    match goal with E : (_ <? _) = false |- _ => apply Z.ltb_ge in E end.
    rewrite take_ge; [reflexivity|]. lia.
Qed.

Lemma writeMetaFile_kept p data path : steps (kept p) (writeMetaFile data path).
Proof.
  intros w r w' Hrun. destruct (writeMetaFile_run _ _ _ _ _ Hrun) as (Hd & Hf & _).
  unfold kept, both, same, file_kept. rewrite Hd. repeat split; try done. apply Hf.
Qed.

#[local] Hint Resolve writeMetaFile_kept : steps.

Lemma saveTransactionMetaData_kept p : steps (kept p) saveTransactionMetaData.
Proof. unfold saveTransactionMetaData. steps_auto. Qed.

#[local] Hint Resolve saveTransactionMetaData_kept : steps.

Lemma refreshTransaction_kept p id : steps (kept p) (refreshTransaction id).
Proof. unfold refreshTransaction. steps_auto. Qed.

#[local] Hint Resolve refreshTransaction_kept : steps.

Lemma createRegisterDevice_loop_kept p fuel : forall id,
  steps (kept p) (createRegisterDevice_loop fuel id).
Proof.
  induction fuel as [|fuel IH]; intros id; cbn [createRegisterDevice_loop]; steps_auto.
Qed.

Lemma createRegisterSnapDevice_loop_kept p fuel : forall id baseInfo,
  steps (kept p) (createRegisterSnapDevice_loop fuel id baseInfo).
Proof.
  induction fuel as [|fuel IH]; intros id baseInfo;
    cbn [createRegisterSnapDevice_loop]; steps_auto.
Qed.

Lemma openTransaction_run hash id w w' :
  openTransaction hash id w = Returns None w' ->
  TransactionId (devices w') = TransactionId (devices w) /\
  open_id (devices w') = wrap_uint64 (TransactionId (devices w) + 1) /\
  Devices (devices w') = Devices (devices w) /\
  root (devices w') = root (devices w) /\
  is_Some (files w' !! DeviceSet_transactionMetaFile (devices w)).
Proof.
  unfold openTransaction, allocateTransactionId, saveTransactionMetaData.
  intros Hrun. run_inv Hrun.
  match goal with Hw : writeMetaFile _ _ _ = Returns None _ |- _ =>
    destruct (writeMetaFile_run _ _ _ _ _ Hw) as (Hd & _ & Hf) end.
  rewrite Hd. cbn. repeat split. specialize (Hf eq_refl).
  unfold DeviceSet_transactionMetaFile, metadataDir in *. cbn in Hf.
  rewrite Hf. eauto.
Qed.

Lemma registerDevice_run id hash size transactionId w info w' :
  registerDevice id hash size transactionId w = Returns (Ok info) w' ->
  info = mkDevInfo hash id size transactionId false 0 "" /\
  devices w' = set_Devices (<[hash := info]> (Devices (devices w))) (devices w) /\
  (forall p, is_Some (files w !! p) -> is_Some (files w' !! p)).
Proof.
  unfold registerDevice, saveMetadata. intros Hrun. run_inv Hrun.
  match goal with Hw : writeMetaFile _ _ _ = Returns _ _ |- _ =>
    destruct (writeMetaFile_run _ _ _ _ _ Hw) as (Hd & Hf & _) end.
  rewrite Hd. cbn. repeat split. exact Hf.
Qed.

Lemma closeTransaction_run w r w' :
  closeTransaction w = Returns r w' ->
  files w' = files w /\
  match r with
  | None =>
      w' = add_events [EvSetTransactionId (getPoolDevName (devices w))
                         (TransactionId (devices w)) (open_id (devices w))]
             (upd_devices (set_TransactionId (open_id (devices w))) w)
  | Some _ => devices w' = devices w
  end.
Proof.
  unfold closeTransaction, updatePoolTransactionId. intros Hrun. run_inv Hrun; done.
Qed.
Lemma unregisterDevice_ids id hash :
  steps (both (same TransactionId) (same open_id)) (unregisterDevice id hash).
Proof.
  unfold unregisterDevice, removeMetadata, os_RemoveAll, log. steps_auto.
Qed.

Lemma activateDeviceIfNeeded_kept p info : steps (kept p) (activateDeviceIfNeeded info).
Proof. eapply kept_io. apply (activateDeviceIfNeeded_io ""). Qed.

Lemma removeDeviceAndWait_kept p devname : steps (kept p) (removeDeviceAndWait devname).
Proof. eapply kept_io. apply removeDeviceAndWait_io. Qed.

Lemma dm_GetInfo_kept p name : steps (kept p) (dm_GetInfo name).
Proof. unfold dm_GetInfo. steps_auto. Qed.

#[local] Hint Resolve activateDeviceIfNeeded_kept removeDeviceAndWait_kept
  dm_GetInfo_kept : steps.

Lemma kept_TransactionId p w w' :
  kept p w w' -> TransactionId (devices w') = TransactionId (devices w).
Proof. now intros (? & _). Qed.

Lemma kept_open_id p w w' : kept p w w' -> open_id (devices w') = open_id (devices w).
Proof. now intros (_ & ? & _). Qed.

Lemma kept_Devices p w w' : kept p w w' -> Devices (devices w') = Devices (devices w).
Proof. now intros (_ & _ & ? & _). Qed.

Lemma kept_root p w w' : kept p w w' -> root (devices w') = root (devices w).
Proof. now intros (_ & _ & _ & ? & _). Qed.

Lemma kept_file p w w' :
  kept p w w' -> is_Some (files w !! p) -> is_Some (files w' !! p).
Proof. now intros (_ & _ & _ & _ & ?). Qed.

Lemma txfile_root d d' :
  root d' = root d -> DeviceSet_transactionMetaFile d' = DeviceSet_transactionMetaFile d.
Proof. unfold DeviceSet_transactionMetaFile, metadataDir. now intros ->. Qed.

Lemma createRegisterDevice_loop_Return fuel : forall id w r w',
  createRegisterDevice_loop fuel id w = Returns (Return r) w' -> exists e, r = Err e.
Proof.
  induction fuel as [|fuel IH]; intros id w r w'; cbn [createRegisterDevice_loop];
    intros Hrun; run_inv Hrun; eauto.
Qed.

Lemma createRegisterSnapDevice_loop_Return fuel : forall id baseInfo w r w',
  createRegisterSnapDevice_loop fuel id baseInfo w = Returns (Return r) w' ->
  exists e, r = Some e.
Proof.
  induction fuel as [|fuel IH]; intros id baseInfo w r w';
    cbn [createRegisterSnapDevice_loop]; intros Hrun; run_inv Hrun; eauto.
Qed.

Lemma createRegisterDevice_commit w hash info w' :
  createRegisterDevice hash w = Returns (Ok info) w' ->
  TransactionId (devices w') = wrap_uint64 (TransactionId (devices w) + 1) /\
  Devices (devices w') !! hash = Some info /\
  info_TransactionId info = TransactionId (devices w') /\
  is_Some (files w' !! DeviceSet_transactionMetaFile (devices w)).
Proof.
  unfold createRegisterDevice. intros Hrun. run_inv Hrun.
  { apply createRegisterDevice_loop_Return in Hrun1 as [e [=]]. }
  set (p := DeviceSet_transactionMetaFile (devices w)).
  pose proof (getNextFreeDeviceId_kept p _ _ _ Hrun0) as K0.
  destruct (openTransaction_run _ _ _ _ Hrun) as (T1 & O1 & D1 & R1 & F1).
  pose proof (createRegisterDevice_loop_kept p _ _ _ _ _ Hrun1) as K2.
  destruct (registerDevice_run _ _ _ _ _ _ _ Hrun2) as (-> & Hd3 & F3).
  destruct (closeTransaction_run _ _ _ Hrun3) as (F4 & ->).
  cbn [add_events upd_devices devices files trace] in *.
  rewrite (txfile_root _ _ (kept_root _ _ _ K0)) in F1. fold p in F1.
  rewrite Hd3. unfold open_id. cbn.
  fold (open_id (devices w2)).
  rewrite (kept_open_id _ _ _ K2), O1, (kept_TransactionId _ _ _ K0).
  repeat split.
  - apply lookup_insert_eq.
  - apply F3. cbn. apply (kept_file _ _ _ K2). exact F1.
Qed.

Lemma createRegisterSnapDevice_commit w hash baseInfo w' :
  createRegisterSnapDevice hash baseInfo w = Returns None w' ->
  TransactionId (devices w') = wrap_uint64 (TransactionId (devices w) + 1) /\
  (exists info, Devices (devices w') !! hash = Some info /\
                info_TransactionId info = TransactionId (devices w')) /\
  is_Some (files w' !! DeviceSet_transactionMetaFile (devices w)).
Proof.
  unfold createRegisterSnapDevice. intros Hrun. run_inv Hrun.
  { match goal with Hl : createRegisterSnapDevice_loop _ _ _ _ = _ |- _ =>
      apply createRegisterSnapDevice_loop_Return in Hl as [e [=]] end. }
  set (p := DeviceSet_transactionMetaFile (devices w)).
  match goal with Hg : getNextFreeDeviceId _ = _ |- _ =>
    pose proof (getNextFreeDeviceId_kept p _ _ _ Hg) as K0 end.
  match goal with Ho : openTransaction _ _ _ = _ |- _ =>
    destruct (openTransaction_run _ _ _ _ Ho) as (T1 & O1 & D1 & R1 & F1) end.
  match goal with Hl : createRegisterSnapDevice_loop _ _ _ _ = _ |- _ =>
    pose proof (createRegisterSnapDevice_loop_kept p _ _ _ _ _ _ Hl) as K2 end.
  match goal with Hr : registerDevice _ _ _ _ _ = _ |- _ =>
    destruct (registerDevice_run _ _ _ _ _ _ _ Hr) as (-> & Hd3 & F3) end.
  match goal with Hc : closeTransaction _ = _ |- _ =>
    destruct (closeTransaction_run _ _ _ Hc) as (F4 & ->) end.
  cbn [add_events upd_devices devices files trace] in *.
  rewrite (txfile_root _ _ (kept_root _ _ _ K0)) in F1. fold p in F1.
  rewrite Hd3. unfold open_id. cbn.
  match goal with |- context [OpenTransactionId (transaction (devices ?x))] =>
    fold (open_id (devices x)) end.
  rewrite (kept_open_id _ _ _ K2), O1, (kept_TransactionId _ _ _ K0).
  repeat split.
  - eexists. split; [apply lookup_insert_eq|]. reflexivity.
  - apply F3. apply (kept_file _ _ _ K2). exact F1.
Qed.
Lemma deleteDevice_commit w info w' :
  deleteDevice info w = Returns None w' ->
  TransactionId (devices w') = wrap_uint64 (TransactionId (devices w) + 1).
Proof.
  unfold deleteDevice. intros Hrun. run_inv Hrun.
  all: repeat match goal with
       | Hx : activateDeviceIfNeeded _ _ = Returns _ _ |- _ =>
           apply (activateDeviceIfNeeded_kept "") in Hx; apply kept_TransactionId in Hx
       | Hx : removeDeviceAndWait _ _ = Returns _ _ |- _ =>
           apply (removeDeviceAndWait_kept "") in Hx; apply kept_TransactionId in Hx
       | Hx : dm_GetInfo _ _ = Returns _ _ |- _ =>
           apply (dm_GetInfo_kept "") in Hx; apply kept_TransactionId in Hx
       | Hx : markDeviceIdFree _ _ = Returns _ _ |- _ =>
           apply (markDeviceIdFree_kept "") in Hx; apply kept_TransactionId in Hx
       | Hx : openTransaction _ _ _ = Returns None _ |- _ =>
           apply openTransaction_run in Hx; destruct Hx as (? & ? & _)
       | Hx : unregisterDevice _ _ _ = Returns _ _ |- _ =>
           apply unregisterDevice_ids in Hx; destruct Hx as [? ?]
       | Hx : closeTransaction _ = Returns None _ |- _ =>
           apply closeTransaction_run in Hx; destruct Hx as (_ & Hx)
       end.
  all: unfold same in *; subst;
    cbn [add_events upd_devices devices TransactionId set_TransactionId] in *;
    congruence.
Qed.

(** C2: while the pool's transaction id has not reached the largest
    [uint64], a successful [createRegisterDevice],
    [createRegisterSnapDevice] or [deleteDevice] leaves it exactly one
    greater than it was; the record a create has registered carries the
    new id; the pending-transaction file written when the transaction
    was opened is still there after the commit; and [closeTransaction]
    itself touches no file: when it succeeds it sets the pool's id to
    the open one and records the kernel call, and does nothing else. *)
Theorem transaction_monotonicity w :
  0 <= TransactionId (devices w) < max_uint64 ->
  let next := TransactionId (devices w) + 1 in
  let txfile := DeviceSet_transactionMetaFile (devices w) in
  (forall hash info w',
     createRegisterDevice hash w = Returns (Ok info) w' ->
     TransactionId (devices w') = next /\
     Devices (devices w') !! hash = Some info /\
     info_TransactionId info = next /\
     is_Some (files w' !! txfile)) /\
  (forall hash baseInfo w',
     createRegisterSnapDevice hash baseInfo w = Returns None w' ->
     TransactionId (devices w') = next /\
     (exists info, Devices (devices w') !! hash = Some info /\
                   info_TransactionId info = next) /\
     is_Some (files w' !! txfile)) /\
  (forall info w',
     deleteDevice info w = Returns None w' ->
     TransactionId (devices w') = next) /\
  (forall w',
     closeTransaction w = Returns None w' ->
     w' = add_events [EvSetTransactionId (getPoolDevName (devices w))
                        (TransactionId (devices w)) (open_id (devices w))]
            (upd_devices (set_TransactionId (open_id (devices w))) w) /\
     files w' = files w).
Proof.
  intros Hrange next txfile.
  assert (wrap_uint64 (TransactionId (devices w) + 1) = next) as Hnext
    by (apply wrap_uint64_small; unfold max_uint64 in Hrange; lia).
  split; [|split; [|split]].
  - intros hash info w' Hrun.
    destruct (createRegisterDevice_commit _ _ _ _ Hrun) as (Ht & Hd & Hi & Hf).
    rewrite Hi, Ht, Hnext. done.
  - intros hash baseInfo w' Hrun.
    destruct (createRegisterSnapDevice_commit _ _ _ _ Hrun) as (Ht & (info & Hd & Hi) & Hf).
    rewrite Hnext in Ht. split; [done|]. split; [|done].
    exists info. split; [done|]. congruence.
  - intros info w' Hrun. rewrite <- Hnext. exact (deleteDevice_commit _ _ _ Hrun).
  - intros w' Hrun. destruct (closeTransaction_run _ _ _ Hrun) as (Hf & Hw). done.
Qed.

(** ** Ids superseded in the retry loop *)

#[export] Instance quiet_Frame : Frame quiet.
Proof. unfold quiet. exact _. Qed.

Lemma created_app t1 t2 : created (t1 ++ t2) = created t1 ++ created t2.
Proof. apply omap_app. Qed.

Lemma created_not_create t : Forall not_create t -> created t = [].
Proof.
  induction 1 as [|ev t Hev _ IH]; [done|].
  unfold created in *. cbn. unfold not_create in Hev. now rewrite Hev.
Qed.

Lemma quiet_run w w' :
  quiet w w' ->
  deviceIdMap (devices w') = deviceIdMap (devices w) /\
  exists t, trace w' = trace w ++ t /\ created t = [].
Proof.
  intros (Hm & t & Ht & HP). split; [exact Hm|]. exists t. split; [exact Ht|].
  now apply created_not_create.
Qed.

Lemma writeMetaFile_quiet data path : steps quiet (writeMetaFile data path).
Proof.
  unfold writeMetaFile, ioutil_TempFile, file_Write, file_Sync, file_Close, os_Rename, call.
  steps_auto.
Qed.

#[local] Hint Resolve writeMetaFile_quiet : steps.

Lemma log_quiet msg : steps quiet (log msg).
Proof. unfold log. steps_auto. Qed.

#[local] Hint Resolve log_quiet : steps.

Lemma saveTransactionMetaData_quiet : steps quiet saveTransactionMetaData.
Proof. unfold saveTransactionMetaData. steps_auto. Qed.

#[local] Hint Resolve saveTransactionMetaData_quiet : steps.

Lemma refreshTransaction_quiet id : steps quiet (refreshTransaction id).
Proof. unfold refreshTransaction. steps_auto. Qed.

Lemma openTransaction_quiet hash id : steps quiet (openTransaction hash id).
Proof. unfold openTransaction, allocateTransactionId. steps_auto. Qed.

Lemma registerDevice_quiet id hash size transactionId :
  steps quiet (registerDevice id hash size transactionId).
Proof. unfold registerDevice, saveMetadata. steps_auto. Qed.

Lemma closeTransaction_quiet : steps quiet closeTransaction.
Proof. unfold closeTransaction, updatePoolTransactionId, call. steps_auto. Qed.

Lemma unregisterDevice_quiet id hash : steps quiet (unregisterDevice id hash).
Proof. unfold unregisterDevice, removeMetadata, os_RemoveAll. steps_auto. Qed.

Lemma alloc_state_files c m w : files (alloc_state c m w) = files w.
Proof. reflexivity. Qed.

Lemma alloc_state_trace c m w : trace (alloc_state c m w) = trace w.
Proof. reflexivity. Qed.

Lemma alloc_state_map c m w : deviceIdMap (devices (alloc_state c m w)) = m.
Proof. reflexivity. Qed.

Lemma getNextFreeDeviceId_alloc w r w' :
  bitmap_ok w ->
  getNextFreeDeviceId w = Returns r w' ->
  files w' = files w /\ trace w' = trace w /\ bitmap_ok w' /\
  match r with
  | Ok id =>
      valid_id id /\ bit_of (deviceIdMap (devices w)) id = false /\
      deviceIdMap (devices w') = set_bit (deviceIdMap (devices w)) id
  | Err _ => deviceIdMap (devices w') = deviceIdMap (devices w)
  end.
Proof.
  intros Hok. unfold getNextFreeDeviceId, bind. rewrite incNextDeviceId_spec.
  set (w1 := alloc_state _ _ w).
  assert (bitmap_ok w1) as Hok1 by exact Hok.
  assert (valid_id (NextDeviceId (devices w1))) as Hv1 by apply valid_id_mod.
  assert (files w1 = files w) as Hf by reflexivity.
  assert (trace w1 = trace w) as Ht by reflexivity.
  assert (deviceIdMap (devices w1) = deviceIdMap (devices w)) as Hm by reflexivity.
  clearbody w1.
  destruct (getNextFreeDeviceId_scan_spec (Z.to_nat (MaxDeviceId + 1)) w1 Hok1 Hv1)
    as [(k & Hk & Hused & Hfree & Hrun) | (Hused & Hrun)];
    rewrite Hrun; intros [= <- <-]; unfold bitmap_ok;
    rewrite alloc_state_files, alloc_state_trace, alloc_state_map, Hf, Ht.
  - split; [reflexivity|]. split; [reflexivity|]. split.
    + rewrite length_set_bit. exact Hok1.
    + split; [apply valid_id_mod|]. rewrite <- Hm. split; [exact Hfree | reflexivity].
  - split; [reflexivity|]. split; [reflexivity|]. split; [exact Hok1 | exact Hm].
Qed.

Lemma markDeviceIdFree_free w id u w' :
  bitmap_ok w -> valid_id id ->
  markDeviceIdFree id w = Returns u w' ->
  files w' = files w /\ trace w' = trace w /\ bitmap_ok w' /\
  deviceIdMap (devices w') = clear_bit (deviceIdMap (devices w)) id.
Proof.
  intros Hok Hv. rewrite markDeviceIdFree_bit by done. intros [= _ <-].
  repeat split. unfold bitmap_ok. cbn [upd_devices devices deviceIdMap set_deviceIdMap].
  rewrite length_clear_bit. exact Hok.
Qed.

Lemma loop_bits_stop (m : list Z) id skip :
  bit_of m id = true -> loop_bits m m [id] skip.
Proof.
  intros Hbit y _ _. split; [auto|]. intros [Hy|[<-|[]]]; done.
Qed.

Lemma loop_bits_free (m : list Z) id :
  length m = Z.to_nat DeviceIdMapSz -> valid_id id ->
  bit_of m id = true -> loop_bits m (clear_bit m id) [id] (Some id).
Proof.
  intros Hlen Hv Hbit y Hy Hne. rewrite bit_of_clear_bit by done.
  destruct (Z.eqb_spec y id) as [->|Hyi]; [done|]. rewrite andb_true_r.
  split; [auto|]. intros [Hb|[<-|[]]]; done.
Qed.

Lemma loop_bits_retry (m m' : list Z) id v cs skip :
  length m = Z.to_nat DeviceIdMapSz -> valid_id id -> valid_id v ->
  bit_of m id = true -> bit_of m v = false ->
  Forall valid_id cs ->
  Forall (fun y => bit_of (set_bit m v) y = false) cs ->
  NoDup cs ->
  loop_bits (set_bit m v) m' (v :: cs) skip ->
  Forall (fun y => bit_of m y = false) (v :: cs) /\ NoDup (v :: cs) /\
  loop_bits m m' (id :: v :: cs) skip.
Proof.
  intros Hlen Hid Hv Hbit Hfree Hcs Hunset Hnd Hloop.
  assert (forall y, y ∈ cs -> bit_of m y = false /\ y <> v) as Hin.
  { intros y Hy. rewrite Forall_forall in Hcs, Hunset.
    specialize (Hunset y Hy). rewrite bit_of_set_bit in Hunset by auto.
    apply orb_false_elim in Hunset as [Hb Hne]. split; [exact Hb|].
    now apply Z.eqb_neq. }
  split; [|split].
  - constructor; [exact Hfree|]. apply Forall_forall. intros y Hy. now apply Hin.
  - constructor; [|exact Hnd]. intros Hy. now apply Hin in Hy as [_ ?].
  - intros y Hy Hs. rewrite (Hloop y Hy Hs), bit_of_set_bit by done.
    rewrite orb_true_iff, Z.eqb_eq. cbn [In]. split.
    + intros [[Hb| ->]|[<-|Hc]]; auto.
    + intros [Hb|[<-|[<-|Hc]]]; auto.
Qed.

Ltac loop_bits_solve IH :=
  lazymatch goal with
  | Hok : bitmap_ok ?w, Hv : valid_id ?id, Hbit : bit_of _ ?id = true,
    E : env_err (trace ?w ++ [?ev]) = _ |- _ =>
      lazymatch goal with
      | Hrun : getNextFreeDeviceId _ = Returns (Ok ?v) ?w0,
        Hrun1 : refreshTransaction ?v ?w0 = Returns _ ?w1,
        Hrun2 : _ = Returns ?x ?w' |- _ =>
          let tq := fresh "tq" in let t := fresh "t" in let cs := fresh "cs" in
          let Hm0 := fresh "Hm0" in let Hm1 := fresh "Hm1" in
          let Hv0 := fresh "Hv0" in let Hfree := fresh "Hfree" in
          let Ht0 := fresh "Ht0" in let Ht1 := fresh "Ht1" in let Hq := fresh "Hq" in
          let Hok1 := fresh "Hok1" in let Hok' := fresh "Hok'" in
          let Ht := fresh "Ht" in let Hc := fresh "Hc" in let Hvs := fresh "Hvs" in
          let Hun := fresh "Hun" in let Hnd := fresh "Hnd" in let Hx := fresh "Hx" in
          apply getNextFreeDeviceId_alloc in Hrun as (_ & Ht0 & _ & Hv0 & Hfree & Hm0);
            [|exact Hok];
          cbn [add_events trace devices deviceIdMap] in Ht0, Hfree, Hm0;
          pose proof (refreshTransaction_quiet _ _ _ _ Hrun1)
            as [Hm1 (tq & Ht1 & Hq)]%quiet_run;
          assert (bitmap_ok w1) as Hok1
            by (unfold bitmap_ok in *; rewrite Hm1, Hm0, length_set_bit; exact Hok);
          assert (bit_of (deviceIdMap (devices w1)) v = true) as Hbit1
            by (rewrite Hm1, Hm0, bit_of_set_bit by done;
                now rewrite Z.eqb_refl, orb_true_r);
          destruct (IH _ _ _ _ Hok1 Hv0 Hbit1 Hrun2)
            as (Hok' & t & cs & Ht & Hc & Hvs & Hun & Hnd & Hx);
          rewrite Hm1, Hm0 in Hun, Hx;
          split; [exact Hok'|];
          exists ([ev; EvLog "Warning: Device Id %d exists in pool but it is supposed to be unused"]
                  ++ tq ++ t), (v :: cs);
          split; [rewrite Ht, Ht1, Ht0; now rewrite <- !app_assoc|];
          split; [rewrite !created_app, Hq, Hc; reflexivity|];
          split; [now constructor|];
          change (last (id :: v :: cs)) with (last (v :: cs));
          destruct x as [?|?];
          [ now apply loop_bits_retry
          | destruct Hx as [? Hx];
            destruct (loop_bits_retry _ _ id _ _ _ Hok Hv Hv0 Hbit Hfree Hvs Hun Hnd Hx)
              as (? & ? & ?); done ]
      | Hrun : getNextFreeDeviceId _ = Returns (Err _) ?w' |- _ =>
          let Ht0 := fresh "Ht0" in let Hok0 := fresh "Hok0" in let Hm0 := fresh "Hm0" in
          apply getNextFreeDeviceId_alloc in Hrun as (_ & Ht0 & Hok0 & Hm0);
            [|exact Hok];
          cbn [add_events trace devices deviceIdMap] in Ht0, Hm0;
          split; [exact Hok0|];
          exists [ev; EvLog "Warning: Device Id %d exists in pool but it is supposed to be unused"],
            [];
          split; [rewrite Ht0; now rewrite <- !app_assoc|];
          split; [reflexivity|];
          split; [constructor|]; split; [constructor|]; split; [constructor|];
          rewrite Hm0; now apply loop_bits_stop
      | Hrun : markDeviceIdFree ?id _ = Returns _ ?w' |- _ =>
          let Ht0 := fresh "Ht0" in let Hok0 := fresh "Hok0" in let Hm0 := fresh "Hm0" in
          apply markDeviceIdFree_free in Hrun as (_ & Ht0 & Hok0 & Hm0);
            [|exact Hok|exact Hv];
          cbn [add_events trace devices deviceIdMap] in Ht0, Hm0;
          split; [exact Hok0|];
          eexists [ev; EvLog _], [];
          split; [rewrite Ht0; now rewrite <- !app_assoc|];
          split; [reflexivity|];
          split; [constructor|]; split; [constructor|]; split; [constructor|];
          rewrite Hm0; now apply loop_bits_free
      | |- _ =>
          split; [exact Hok|];
          exists [ev], [];
          split; [reflexivity|]; split; [reflexivity|];
          split; [constructor|]; split; [constructor|]; split; [constructor|];
          split; [reflexivity|]; now apply loop_bits_stop
      end
  end.

Lemma createRegisterDevice_loop_bits fuel : forall id w x w',
  bitmap_ok w -> valid_id id ->
  bit_of (deviceIdMap (devices w)) id = true ->
  createRegisterDevice_loop fuel id w = Returns x w' ->
  bitmap_ok w' /\
  exists t cs,
    trace w' = trace w ++ t /\ created t = id :: cs /\
    Forall valid_id cs /\
    Forall (fun y => bit_of (deviceIdMap (devices w)) y = false) cs /\
    NoDup cs /\
    match x with
    | Next s =>
        last (id :: cs) = Some s /\
        loop_bits (deviceIdMap (devices w)) (deviceIdMap (devices w')) (id :: cs) None
    | Return _ =>
        loop_bits (deviceIdMap (devices w)) (deviceIdMap (devices w')) (id :: cs)
          (last (id :: cs))
    end.
Proof.
  induction fuel as [|fuel IH]; intros id w x w' Hok Hv Hbit;
    cbn [createRegisterDevice_loop]; intros Hrun; run_inv Hrun; loop_bits_solve IH.
Qed.

Lemma createRegisterSnapDevice_loop_bits fuel : forall id baseInfo w x w',
  bitmap_ok w -> valid_id id ->
  bit_of (deviceIdMap (devices w)) id = true ->
  createRegisterSnapDevice_loop fuel id baseInfo w = Returns x w' ->
  bitmap_ok w' /\
  exists t cs,
    trace w' = trace w ++ t /\ created t = id :: cs /\
    Forall valid_id cs /\
    Forall (fun y => bit_of (deviceIdMap (devices w)) y = false) cs /\
    NoDup cs /\
    match x with
    | Next s =>
        last (id :: cs) = Some s /\
        loop_bits (deviceIdMap (devices w)) (deviceIdMap (devices w')) (id :: cs) None
    | Return _ =>
        loop_bits (deviceIdMap (devices w)) (deviceIdMap (devices w')) (id :: cs)
          (last (id :: cs))
    end.
Proof.
  induction fuel as [|fuel IH]; intros id baseInfo w x w' Hok Hv Hbit;
    cbn [createRegisterSnapDevice_loop]; intros Hrun; run_inv Hrun;
    loop_bits_solve (fun v w => IH v baseInfo w).
Qed.

Lemma call_quiet ev : not_create ev -> steps quiet (call ev).
Proof. intros Hev. unfold call. steps_auto. Qed.

Lemma removelast_not_last (l : list Z) y :
  NoDup l -> In y (removelast l) -> In y l /\ last l <> Some y.
Proof.
  induction l as [|a [|b l] IH]; cbn [removelast]; [done..|].
  intros [Ha Hnd]%NoDup_cons [<-|Hy].
  - split; [now left|]. change (last (a :: b :: l)) with (last (b :: l)).
    intros Hl%last_Some_elem_of. contradiction.
  - destruct (IH Hnd Hy) as [Hin Hl]. split; [now right|exact Hl].
Qed.

Lemma loop_bits_superseded (m m' : list Z) ids skip :
  NoDup ids -> Forall valid_id ids ->
  loop_bits m m' ids skip -> (skip = None \/ skip = last ids) ->
  Forall (fun y => bit_of m' y = true) (removelast ids).
Proof.
  intros Hnd Hv Hloop Hskip. apply Forall_forall. intros y Hy%list_elem_of_In.
  destruct (removelast_not_last _ _ Hnd Hy) as [Hin Hl].
  apply Hloop; [|destruct Hskip as [-> | ->]; done|now right].
  rewrite Forall_forall in Hv. apply Hv. now apply list_elem_of_In.
Qed.
Lemma loop_bits_first (m m' : list Z) id cs skip :
  length m = Z.to_nat DeviceIdMapSz -> valid_id id ->
  bit_of m id = false ->
  Forall valid_id cs ->
  Forall (fun y => bit_of (set_bit m id) y = false) cs ->
  NoDup cs ->
  loop_bits (set_bit m id) m' (id :: cs) skip ->
  Forall (fun y => bit_of m y = false) (id :: cs) /\ NoDup (id :: cs) /\
  loop_bits m m' (id :: cs) skip.
Proof.
  intros Hlen Hid Hfree Hcs Hunset Hnd Hloop.
  assert (forall y, y ∈ cs -> bit_of m y = false /\ y <> id) as Hin.
  { intros y Hy. rewrite Forall_forall in Hcs, Hunset.
    specialize (Hunset y Hy). rewrite bit_of_set_bit in Hunset by auto.
    apply orb_false_elim in Hunset as [Hb Hne]. split; [exact Hb|].
    now apply Z.eqb_neq. }
  split; [|split].
  - constructor; [exact Hfree|]. apply Forall_forall. intros y Hy. now apply Hin.
  - constructor; [|exact Hnd]. intros Hy. now apply Hin in Hy as [_ ?].
  - intros y Hy Hs. rewrite (Hloop y Hy Hs), bit_of_set_bit by done.
    rewrite orb_true_iff, Z.eqb_eq. cbn [In]. split.
    + intros [[Hb| ->]|[<-|Hc]]; auto.
    + intros [Hb|[<-|Hc]]; auto.
Qed.

Lemma loop_bits_then_free (m m' : list Z) ids s :
  length m' = Z.to_nat DeviceIdMapSz -> valid_id s ->
  loop_bits m m' ids None ->
  loop_bits m (clear_bit m' s) ids (Some s).
Proof.
  intros Hlen Hs Hloop y Hy Hne. rewrite bit_of_clear_bit by done.
  destruct (Z.eqb_spec y s) as [->|Hys]; [done|]. rewrite andb_true_r.
  now apply Hloop.
Qed.

Lemma create_bits_undo w w' ok id t :
  bitmap_ok w -> valid_id id -> bit_of (deviceIdMap (devices w)) id = false ->
  trace w' = trace w ++ t -> created t = [] ->
  deviceIdMap (devices w') = clear_bit (set_bit (deviceIdMap (devices w)) id) id ->
  create_bits w w' ok.
Proof.
  intros Hok Hv Hfree Ht Hc Hm. exists t. rewrite Hc, Hm. cbn.
  split; [exact Ht|]. split; [constructor|]. do 3 (split; [constructor|]).
  intros y Hy _. rewrite bit_of_clear_bit, bit_of_set_bit;
    rewrite ?length_set_bit; try done.
  destruct (Z.eqb_spec y id) as [->|Hne].
  - rewrite Hfree. cbn. intuition discriminate.
  - rewrite orb_false_r, andb_true_r. cbn [In]. tauto.
Qed.

Lemma create_bits_loop w w' (ok : bool) id (cs : list Z) t :
  bitmap_ok w -> valid_id id -> bit_of (deviceIdMap (devices w)) id = false ->
  trace w' = trace w ++ t -> created t = id :: cs ->
  Forall valid_id cs ->
  Forall (fun y => bit_of (set_bit (deviceIdMap (devices w)) id) y = false) cs ->
  NoDup cs ->
  loop_bits (set_bit (deviceIdMap (devices w)) id) (deviceIdMap (devices w'))
    (id :: cs) (if ok then None else last (id :: cs)) ->
  create_bits w w' ok.
Proof.
  intros Hok Hv Hfree Ht Hc Hvs Hun Hnd Hloop.
  destruct (loop_bits_first _ _ _ _ _ Hok Hv Hfree Hvs Hun Hnd Hloop) as (Hf & Hn & Hl).
  exists t. rewrite Hc. split; [exact Ht|]. split; [exact Hn|].
  split; [now constructor|]. split; [exact Hf|]. split; [|exact Hl].
  eapply loop_bits_superseded; [exact Hn|now constructor|exact Hl|].
  destruct ok; auto.
Qed.

Lemma bits_at_start w : bits_at w (deviceIdMap (devices w)) [] w.
Proof. split; [reflexivity|]. exists []. now rewrite app_nil_r. Qed.

Lemma bits_at_quiet w m ids wi wj :
  bits_at w m ids wi -> quiet wi wj -> bits_at w m ids wj.
Proof.
  intros (Hm & t & Ht & Hc) (Hm' & tq & Htq & Hq)%quiet_run.
  split; [congruence|]. exists (t ++ tq).
  rewrite Htq, Ht, created_app, Hq, Hc, app_nil_r. now rewrite app_assoc.
Qed.

Lemma bits_at_event w m ids wi ev :
  bits_at w m ids wi -> not_create ev -> bits_at w m ids (add_events [ev] wi).
Proof.
  intros (Hm & t & Ht & Hc) Hev. split; [exact Hm|]. exists (t ++ [ev]).
  cbn [add_events trace]. rewrite Ht, created_app, Hc.
  rewrite (created_not_create [ev]) by (now constructor).
  now rewrite app_nil_r, app_assoc.
Qed.

Lemma bits_at_alloc w (m : list Z) ids wi r wj :
  bits_at w m ids wi -> length m = Z.to_nat DeviceIdMapSz ->
  getNextFreeDeviceId wi = Returns r wj ->
  match r with
  | Ok v => valid_id v /\ bit_of m v = false /\ bits_at w (set_bit m v) ids wj
  | Err _ => bits_at w m ids wj
  end.
Proof.
  intros (Hm & t & Ht & Hc) Hlen Hrun.
  apply getNextFreeDeviceId_alloc in Hrun as (_ & Ht' & _ & Hr);
    [|unfold bitmap_ok; now rewrite Hm].
  rewrite Hm in Hr. destruct r as [v|e].
  - destruct Hr as (Hv & Hfree & Hm'). do 2 (split; [done|]).
    split; [exact Hm'|]. exists t. now rewrite Ht', Ht.
  - split; [exact Hr|]. exists t. now rewrite Ht', Ht.
Qed.

Lemma bits_at_free w (m : list Z) ids wi id u wj :
  bits_at w m ids wi -> length m = Z.to_nat DeviceIdMapSz -> valid_id id ->
  markDeviceIdFree id wi = Returns u wj ->
  bits_at w (clear_bit m id) ids wj.
Proof.
  intros (Hm & t & Ht & Hc) Hlen Hv Hrun.
  apply markDeviceIdFree_free in Hrun as (_ & Ht' & _ & Hm');
    [|unfold bitmap_ok; now rewrite Hm|exact Hv].
  rewrite Hm in Hm'. split; [exact Hm'|]. exists t. now rewrite Ht', Ht.
Qed.

Lemma bits_at_create w (m : list Z) wi wj id cs t :
  bits_at w m [] wi ->
  trace wj = trace wi ++ t -> created t = id :: cs ->
  bits_at w (deviceIdMap (devices wj)) (id :: cs) wj.
Proof.
  intros (Hm & t0 & Ht0 & Hc0) Ht Hc. split; [reflexivity|]. exists (t0 ++ t).
  rewrite Ht, Ht0, created_app, Hc0, Hc. now rewrite app_assoc.
Qed.

Lemma create_bits_at w w' (m' : list Z) (ok : bool) id0 cs :
  bitmap_ok w -> valid_id id0 -> bit_of (deviceIdMap (devices w)) id0 = false ->
  bits_at w m' (id0 :: cs) w' ->
  Forall valid_id cs ->
  Forall (fun y => bit_of (set_bit (deviceIdMap (devices w)) id0) y = false) cs ->
  NoDup cs ->
  loop_bits (set_bit (deviceIdMap (devices w)) id0) m'
    (id0 :: cs) (if ok then None else last (id0 :: cs)) ->
  create_bits w w' ok.
Proof.
  intros Hok Hv Hfree (Hm & t & Ht & Hc) Hvs Hun Hnd Hloop.
  eapply create_bits_loop; eauto. now rewrite Hm.
Qed.

Lemma createRegisterDevice_loop_post fuel id w x w' :
  bitmap_ok w -> valid_id id ->
  bit_of (deviceIdMap (devices w)) id = true ->
  createRegisterDevice_loop fuel id w = Returns x w' ->
  loop_post id w x w'.
Proof. apply createRegisterDevice_loop_bits. Qed.

Lemma createRegisterSnapDevice_loop_post fuel id baseInfo w x w' :
  bitmap_ok w -> valid_id id ->
  bit_of (deviceIdMap (devices w)) id = true ->
  createRegisterSnapDevice_loop fuel id baseInfo w = Returns x w' ->
  loop_post id w x w'.
Proof. apply createRegisterSnapDevice_loop_bits. Qed.

Lemma last_valid id (cs : list Z) s :
  valid_id id -> Forall valid_id cs -> last (id :: cs) = Some s -> valid_id s.
Proof.
  intros Hv Hcs Hl%last_Some_elem_of.
  assert (Forall valid_id (id :: cs)) as Hall by now constructor.
  rewrite Forall_forall in Hall. now apply Hall.
Qed.

Ltac bits_event B :=
  lazymatch type of B with
  | bits_at _ _ _ ?wi =>
      match goal with
      | _ : context [add_events [?ev] wi] |- _ =>
          apply (fun b => bits_at_event _ _ _ _ ev b eq_refl) in B
      | |- context [add_events [?ev] wi] =>
          apply (fun b => bits_at_event _ _ _ _ ev b eq_refl) in B
      end
  end.

Lemma bits_at_loop {R} w (m : list Z) w1 id (x : flow R Z) w2 :
  bits_at w m [] w1 -> loop_post id w1 x w2 ->
  exists cs,
    bits_at w (deviceIdMap (devices w2)) (id :: cs) w2 /\
    length (deviceIdMap (devices w2)) = Z.to_nat DeviceIdMapSz /\
    Forall valid_id cs /\
    Forall (fun y => bit_of m y = false) cs /\
    NoDup cs /\
    match x with
    | Next s =>
        last (id :: cs) = Some s /\
        loop_bits m (deviceIdMap (devices w2)) (id :: cs) None
    | Return _ =>
        loop_bits m (deviceIdMap (devices w2)) (id :: cs) (last (id :: cs))
    end.
Proof.
  intros B (Hok & t & cs & Ht & Hc & Hvs & Hun & Hnd & Hx). exists cs.
  split; [eapply bits_at_create; eauto|]. split; [exact Hok|].
  destruct B as (<- & _). auto.
Qed.

Ltac bits_step B :=
  lazymatch type of B with
  | bits_at _ _ _ ?wi =>
      match goal with
      | H : openTransaction _ _ wi = Returns _ _ |- _ =>
          eapply bits_at_quiet in B; [|eapply openTransaction_quiet; exact H]
      | H : registerDevice _ _ _ _ wi = Returns _ _ |- _ =>
          eapply bits_at_quiet in B; [|eapply registerDevice_quiet; exact H]
      | H : closeTransaction wi = Returns _ _ |- _ =>
          eapply bits_at_quiet in B; [|eapply closeTransaction_quiet; exact H]
      | H : unregisterDevice _ _ wi = Returns _ _ |- _ =>
          eapply bits_at_quiet in B; [|eapply unregisterDevice_quiet; exact H]
      | H : markDeviceIdFree ?id wi = Returns _ _ |- _ =>
          eapply (bits_at_free _ _ _ _ id) in B;
            [ | | first [assumption | eapply last_valid; eassumption] | exact H];
            [ | first [assumption | now rewrite length_set_bit] ]
      | _ : context [add_events [?ev] wi] |- _ =>
          apply (fun b => bits_at_event _ _ _ _ ev b eq_refl) in B
      | |- context [add_events [?ev] wi] =>
          apply (fun b => bits_at_event _ _ _ _ ev b eq_refl) in B
      end
  end.

Ltac bits_done :=
  lazymatch goal with
  | B : bits_at ?w _ _ ?w' |- create_bits ?w ?w' _ =>
      eapply create_bits_at; [eassumption..|]; cbn [is_Ok is_nil];
      first [ assumption
            | match goal with Hl : last _ = Some _ |- _ => rewrite Hl end;
              apply loop_bits_then_free;
                [assumption | eapply last_valid; eassumption | assumption] ]
  end.

Ltac bits_loop lem_post :=
  lazymatch goal with
  | Hok : bitmap_ok ?w, Hv : valid_id ?v, B : bits_at ?w _ [] ?w1,
    H : _ ?w1 = Returns _ _ |- _ =>
      let cs := fresh "cs" in let B3 := fresh "B" in
      let Hlen := fresh "Hlen" in let Hvs := fresh "Hvs" in
      let Hun := fresh "Hun" in let Hnd := fresh "Hnd" in let Hx := fresh "Hx" in
      apply lem_post in H;
        [ destruct (bits_at_loop _ _ _ _ _ _ B H)
            as (cs & B3 & Hlen & Hvs & Hun & Hnd & Hx)
        | destruct B as [B _]; unfold bitmap_ok; rewrite B, length_set_bit; exact Hok
        | exact Hv
        | destruct B as [B _]; rewrite B, bit_of_set_bit by done;
          now rewrite Z.eqb_refl, orb_true_r ];
      try (let Hl := fresh "Hl" in destruct Hx as [Hl Hx]);
      repeat bits_step B3; bits_done
  end.

Lemma createRegisterDevice_bits w hash r w' :
  bitmap_ok w ->
  createRegisterDevice hash w = Returns r w' ->
  create_bits w w' (is_Ok r).
Proof.
  intros Hok. unfold createRegisterDevice. intros Hrun. run_inv Hrun.
  all: pose proof (bits_at_start w) as B.
  all: apply (bits_at_alloc _ _ _ _ _ _ B Hok) in Hrun0; clear B.
  all: cbv beta iota in Hrun0.
  all: try lazymatch type of Hrun0 with
       | valid_id _ /\ _ => destruct Hrun0 as (Hv & Hfree & B); repeat bits_step B
       end.
  all: try (pose proof (createRegisterDevice_loop_Return _ _ _ _ _ Hrun1) as [e ->]).
  all: try bits_loop createRegisterDevice_loop_post.
  - destruct B as (Hm & t & Ht & Hc). eapply create_bits_undo; eauto.
  - destruct Hrun0 as (Hm & t & Ht & Hc). exists t. rewrite Hc, Hm.
    split; [exact Ht|]. split; [constructor|]. do 3 (split; [constructor|]).
    intros y _ _. cbn [In]. tauto.
Qed.

Lemma createRegisterSnapDevice_bits w hash baseInfo r w' :
  bitmap_ok w ->
  createRegisterSnapDevice hash baseInfo w = Returns r w' ->
  create_bits w w' (is_nil r).
Proof.
  intros Hok. unfold createRegisterSnapDevice. intros Hrun. run_inv Hrun.
  all: pose proof (bits_at_start w) as B.
  all: apply (bits_at_alloc _ _ _ _ _ _ B Hok) in Hrun0; clear B.
  all: cbv beta iota in Hrun0.
  all: try lazymatch type of Hrun0 with
       | valid_id _ /\ _ => destruct Hrun0 as (Hv & Hfree & B); repeat bits_step B
       end.
  all: try (pose proof (createRegisterSnapDevice_loop_Return _ _ _ _ _ _ Hrun1) as [e ->]).
  all: try bits_loop createRegisterSnapDevice_loop_post.
  - destruct B as (Hm & t & Ht & Hc). eapply create_bits_undo; eauto.
  - destruct Hrun0 as (Hm & t & Ht & Hc). exists t. rewrite Hc, Hm.
    split; [exact Ht|]. split; [constructor|]. do 3 (split; [constructor|]).
    intros y _ _. cbn [In]. tauto.
Qed.
Lemma returns_ret {A} (a : A) : returns (ret a).
Proof. intros w. now exists a, w. Qed.

Lemma returns_bind {A B} (m : M A) (k : A -> M B) :
  returns m -> (forall a, returns (k a)) -> returns (bind m k).
Proof.
  intros Hm Hk w. destruct (Hm w) as (a & w1 & H1).
  destruct (Hk a w1) as (b & w2 & H2). exists b, w2.
  unfold bind. now rewrite H1.
Qed.

Lemma returns_emit ev : returns (emit ev).
Proof. intros w. eexists _, _. reflexivity. Qed.

Lemma returns_get_devices : returns get_devices.
Proof. intros w. eexists _, _. reflexivity. Qed.

Lemma returns_get_files : returns get_files.
Proof. intros w. eexists _, _. reflexivity. Qed.

Lemma returns_modify_devices g : returns (modify_devices g).
Proof. intros w. eexists _, _. reflexivity. Qed.

Lemma returns_modify_files g : returns (modify_files g).
Proof. intros w. eexists _, _. reflexivity. Qed.

Ltac returns_step :=
  lazymatch goal with
  | |- returns (ret _) => apply returns_ret
  | |- returns get_devices => apply returns_get_devices
  | |- returns get_files => apply returns_get_files
  | |- returns (emit _) => apply returns_emit
  | |- returns (modify_devices _) => apply returns_modify_devices
  | |- returns (modify_files _) => apply returns_modify_files
  | |- returns (bind _ _) => apply returns_bind; [|intros ?]
  | |- returns (match ?x with _ => _ end) => destruct x
  | |- returns (if ?x then _ else _) => destruct x
  | |- returns (let (_, _) := ?x in _) => destruct x
  | |- returns _ => solve [eauto with steps]
  end.

Ltac returns_auto := repeat returns_step.

Lemma call_returns ev : returns (call ev).
Proof. unfold call. returns_auto. Qed.

Lemma log_returns msg : returns (log msg).
Proof. unfold log. returns_auto. Qed.

#[local] Hint Resolve call_returns log_returns : steps.

Lemma writeMetaFile_returns data path : returns (writeMetaFile data path).
Proof.
  unfold writeMetaFile, ioutil_TempFile, file_Write, file_Sync, file_Close, os_Rename.
  returns_auto.
Qed.

#[local] Hint Resolve writeMetaFile_returns : steps.

Lemma saveTransactionMetaData_returns : returns saveTransactionMetaData.
Proof. unfold saveTransactionMetaData. returns_auto. Qed.

#[local] Hint Resolve saveTransactionMetaData_returns : steps.

Lemma refreshTransaction_returns id : returns (refreshTransaction id).
Proof. unfold refreshTransaction. returns_auto. Qed.

Lemma openTransaction_returns hash id : returns (openTransaction hash id).
Proof. unfold openTransaction, allocateTransactionId. returns_auto. Qed.

Lemma registerDevice_returns id hash size transactionId :
  returns (registerDevice id hash size transactionId).
Proof. unfold registerDevice, saveMetadata. returns_auto. Qed.

Lemma closeTransaction_returns : returns closeTransaction.
Proof. unfold closeTransaction, updatePoolTransactionId. returns_auto. Qed.

Lemma unregisterDevice_returns id hash : returns (unregisterDevice id hash).
Proof. unfold unregisterDevice, removeMetadata, os_RemoveAll. returns_auto. Qed.

Lemma getNextFreeDeviceId_returns w :
  bitmap_ok w -> exists r w', getNextFreeDeviceId w = Returns r w'.
Proof.
  intros Hok. unfold getNextFreeDeviceId, bind. rewrite incNextDeviceId_spec.
  set (w1 := alloc_state _ _ w).
  assert (bitmap_ok w1) as Hok1 by exact Hok.
  assert (valid_id (NextDeviceId (devices w1))) as Hv1 by apply valid_id_mod.
  destruct (getNextFreeDeviceId_scan_spec (Z.to_nat (MaxDeviceId + 1)) w1 Hok1 Hv1)
    as [(k & Hk & Hused & Hfree & Hrun) | (Hused & Hrun)]; rewrite Hrun; eauto.
Qed.

(** Distinct ids within range are at most as many as the range holds. *)
Lemma valid_ids_bound (used : list Z) :
  NoDup used -> Forall valid_id used ->
  (length used <= Z.to_nat (MaxDeviceId + 1))%nat.
Proof.
  intros Hnd Hv.
  rewrite <- (length_seqZ 0 (MaxDeviceId + 1)).
  apply submseteq_length, NoDup_submseteq; [exact Hnd|].
  intros y Hy. rewrite Forall_forall in Hv. apply Hv in Hy.
  apply elem_of_seqZ. unfold valid_id in Hy. lia.
Qed.
Lemma bind_run {A B} (m : M A) (k : A -> M B) w a w1 :
  m w = Returns a w1 -> bind m k w = k a w1.
Proof. intros Hm. unfold bind. now rewrite Hm. Qed.

Lemma quiet_bitmap_ok w w' : quiet w w' -> bitmap_ok w -> bitmap_ok w'.
Proof. intros [Hm _] Hok. unfold bitmap_ok, same in *. now rewrite Hm. Qed.

Ltac loop_returns IH loop :=
  lazymatch goal with
  | Hok : bitmap_ok ?w, Hv : valid_id ?id, Hnd : NoDup ?used,
    Hvs : Forall valid_id ?used, Hbits : Forall _ ?used |- _ =>
      let e := fresh "e" in let w0 := fresh "w0" in let Hok0 := fresh "Hok0" in
      let r := fresh "r" in let w1 := fresh "w1" in let Hr := fresh "Hr" in
      let Hok1 := fresh "Hok1" in let Hr1 := fresh "Hr1" in let v := fresh "v" in
      let e' := fresh "e'" in let Hv1 := fresh "Hv1" in let Hfree := fresh "Hfree" in
      let Hm1 := fresh "Hm1" in let a := fresh "a" in let w2 := fresh "w2" in
      let Hq := fresh "Hq" in let Q := fresh "Q" in let Hin := fresh "Hin" in
      let Hm2 := fresh "Hm2" in let y := fresh "y" in let Hy := fresh "Hy" in
      exec;
      destruct (env_err _) as [e|]; [|eauto];
      destruct (DeviceIdExists e);
      [ match goal with |- context [getNextFreeDeviceId ?W] => set (w0 := W) end;
        assert (bitmap_ok w0) as Hok0 by exact Hok;
        destruct (getNextFreeDeviceId_returns w0 Hok0) as (r & w1 & Hr); rewrite Hr;
        destruct (getNextFreeDeviceId_alloc _ _ _ Hok0 Hr) as (_ & _ & Hok1 & Hr1);
        destruct r as [v|e']; [|eauto]; destruct Hr1 as (Hv1 & Hfree & Hm1);
        change (deviceIdMap (devices w0)) with (deviceIdMap (devices w)) in Hfree, Hm1;
        destruct (refreshTransaction_returns v w1) as (a & w2 & Hq);
        pose proof (refreshTransaction_quiet _ _ _ _ Hq) as Q;
        fold (bind (refreshTransaction v) (fun _ => loop v) w1);
        rewrite (bind_run _ _ _ _ _ Hq);
        apply (IH v w2 (v :: used));
        [ eapply quiet_bitmap_ok; eauto
        | exact Hv1
        | constructor; [|exact Hnd]; intros Hin; rewrite Forall_forall in Hbits;
          apply Hbits in Hin; congruence
        | now constructor
        | destruct Q as [Hm2 _]; unfold same in Hm2; rewrite Hm2, Hm1;
          rewrite Forall_forall in Hbits, Hvs |- *;
          intros y Hy;
          rewrite bit_of_set_bit
            by (try done; apply elem_of_cons in Hy as [->|Hy]; auto);
          apply elem_of_cons in Hy as [->|Hy];
          [now rewrite Z.eqb_refl, orb_true_r | now rewrite (Hbits y Hy)]
        | cbn [length]; lia ]
      | rewrite markDeviceIdFree_bit by (exact Hok || exact Hv); eauto ]
  end.

Lemma createRegisterDevice_loop_returns fuel : forall id w (used : list Z),
  bitmap_ok w -> valid_id id ->
  NoDup used -> Forall valid_id used ->
  Forall (fun y => bit_of (deviceIdMap (devices w)) y = true) used ->
  (Z.to_nat (MaxDeviceId + 1) < length used + fuel)%nat ->
  exists x w', createRegisterDevice_loop fuel id w = Returns x w'.
Proof.
  induction fuel as [|fuel IH]; intros id w used Hok Hv Hnd Hvs Hbits Hlen.
  { pose proof (valid_ids_bound used Hnd Hvs). lia. }
  cbn [createRegisterDevice_loop].
  loop_returns IH (createRegisterDevice_loop fuel).
Qed.

Lemma createRegisterSnapDevice_loop_returns fuel :
  forall id baseInfo w (used : list Z),
  bitmap_ok w -> valid_id id ->
  NoDup used -> Forall valid_id used ->
  Forall (fun y => bit_of (deviceIdMap (devices w)) y = true) used ->
  (Z.to_nat (MaxDeviceId + 1) < length used + fuel)%nat ->
  exists x w', createRegisterSnapDevice_loop fuel id baseInfo w = Returns x w'.
Proof.
  induction fuel as [|fuel IH]; intros id baseInfo w used Hok Hv Hnd Hvs Hbits Hlen.
  { pose proof (valid_ids_bound used Hnd Hvs). lia. }
  cbn [createRegisterSnapDevice_loop].
  loop_returns (fun v w => IH v baseInfo w)
               (fun v => createRegisterSnapDevice_loop fuel v baseInfo).
Qed.
(** Runs the next call of the goal, which always returns and is quiet. *)
Ltac fwd_quiet lem_returns lem_quiet :=
  lazymatch goal with
  | |- exists r w', match ?m ?W with _ => _ end = _ =>
      let R := fresh "R" in let a := fresh "a" in let w := fresh "w" in
      let Hr := fresh "Hr" in let HokW := fresh "Hok" in let Hok' := fresh "Hok" in
      assert (returns m) as R by apply lem_returns;
      assert (bitmap_ok W) as HokW by assumption;
      destruct (R W) as (a & w & Hr); clear R;
      assert (bitmap_ok w) as Hok'
        by (eapply quiet_bitmap_ok; [eapply lem_quiet; exact Hr | exact HokW]);
      rewrite Hr; clear Hr HokW; destruct a
  end.

Ltac fwd_free :=
  lazymatch goal with
  | |- context [markDeviceIdFree ?id ?W] =>
      let HokW := fresh "Hok" in
      assert (bitmap_ok W) as HokW by assumption;
      rewrite (markDeviceIdFree_bit W id HokW) by assumption
  end.

Lemma createRegisterDevice_returns w hash :
  bitmap_ok w -> exists r w', createRegisterDevice hash w = Returns r w'.
Proof.
  intros Hok. unfold createRegisterDevice.
  destruct (getNextFreeDeviceId_returns w Hok) as (r0 & w0 & H0).
  rewrite (bind_run _ _ _ _ _ H0).
  destruct (getNextFreeDeviceId_alloc _ _ _ Hok H0) as (_ & _ & Hok0 & Hr0).
  destruct r0 as [v|e]; [|eauto]. destruct Hr0 as (Hv & Hfree & Hm0).
  destruct (openTransaction_returns hash v w0) as (r1 & w1 & H1).
  rewrite (bind_run _ _ _ _ _ H1).
  pose proof (openTransaction_quiet _ _ _ _ _ H1) as Q1.
  pose proof (quiet_bitmap_ok _ _ Q1 Hok0) as Hok1.
  destruct r1 as [e|].
  { exec. fwd_free. eauto. }
  assert (bit_of (deviceIdMap (devices w1)) v = true) as Hbit1.
  { destruct Q1 as [Hm1 _]. unfold same in Hm1.
    rewrite Hm1, Hm0, bit_of_set_bit by done. now rewrite Z.eqb_refl, orb_true_r. }
  destruct (createRegisterDevice_loop_returns create_fuel v w1 [v])
    as (x & w2 & H2); try done.
  { apply NoDup_singleton. }
  { now constructor. }
  { now constructor. }
  { unfold create_fuel. cbn [length]. lia. }
  rewrite (bind_run _ _ _ _ _ H2).
  destruct (createRegisterDevice_loop_post _ _ _ _ _ Hok1 Hv Hbit1 H2)
    as (Hok2 & t & cs & _ & _ & Hvs & _ & _ & Hx).
  destruct x as [r|s]; [eauto|]. destruct Hx as [Hl _].
  pose proof (last_valid _ _ _ Hv Hvs Hl) as Hs.
  clear H0 H1 H2 Q1.
  exec.
  fwd_quiet registerDevice_returns registerDevice_quiet; [|fwd_free; eauto].
  fwd_quiet closeTransaction_returns closeTransaction_quiet; [|eauto].
  fwd_quiet unregisterDevice_returns unregisterDevice_quiet; fwd_free; eauto.
Qed.

Lemma createRegisterSnapDevice_returns w hash baseInfo :
  bitmap_ok w ->
  exists r w', createRegisterSnapDevice hash baseInfo w = Returns r w'.
Proof.
  intros Hok. unfold createRegisterSnapDevice.
  destruct (getNextFreeDeviceId_returns w Hok) as (r0 & w0 & H0).
  rewrite (bind_run _ _ _ _ _ H0).
  destruct (getNextFreeDeviceId_alloc _ _ _ Hok H0) as (_ & _ & Hok0 & Hr0).
  destruct r0 as [v|e]; [|eauto]. destruct Hr0 as (Hv & Hfree & Hm0).
  destruct (openTransaction_returns hash v w0) as (r1 & w1 & H1).
  rewrite (bind_run _ _ _ _ _ H1).
  pose proof (openTransaction_quiet _ _ _ _ _ H1) as Q1.
  pose proof (quiet_bitmap_ok _ _ Q1 Hok0) as Hok1.
  destruct r1 as [e|].
  { exec. fwd_free. eauto. }
  assert (bit_of (deviceIdMap (devices w1)) v = true) as Hbit1.
  { destruct Q1 as [Hm1 _]. unfold same in Hm1.
    rewrite Hm1, Hm0, bit_of_set_bit by done. now rewrite Z.eqb_refl, orb_true_r. }
  destruct (createRegisterSnapDevice_loop_returns create_fuel v baseInfo w1 [v])
    as (x & w2 & H2); try done.
  { apply NoDup_singleton. }
  { now constructor. }
  { now constructor. }
  { unfold create_fuel. cbn [length]. lia. }
  rewrite (bind_run _ _ _ _ _ H2).
  destruct (createRegisterSnapDevice_loop_post _ _ _ _ _ _ Hok1 Hv Hbit1 H2)
    as (Hok2 & t & cs & _ & _ & Hvs & _ & _ & Hx).
  destruct x as [r|s]; [eauto|]. destruct Hx as [Hl _].
  pose proof (last_valid _ _ _ Hv Hvs Hl) as Hs.
  clear H0 H1 H2 Q1.
  exec.
  fwd_quiet registerDevice_returns registerDevice_quiet; [|fwd_free; eauto].
  fwd_quiet closeTransaction_returns closeTransaction_quiet; [|eauto].
  fwd_quiet unregisterDevice_returns unregisterDevice_quiet; fwd_free; eauto.
Qed.

(** C9.  Called with the bitmap [NewDeviceSet] allocates, each of
    [createRegisterDevice] and [createRegisterSnapDevice] returns, and
    of the ids it asked the pool to create - the one allocated first and
    one more for every time the pool answered that the id exists - all
    are distinct, within range and were free before the call; every
    superseded one (all but the last) has its bit set when the call
    returns; and apart from the last id when the call fails, a bit is
    set afterwards exactly if it was set before or belongs to one of
    these ids: cleaning up frees no id but the one allocated last. *)
Theorem retry_keeps_superseded_ids w hash baseInfo :
  bitmap_ok w ->
  (exists r w',
     createRegisterDevice hash w = Returns r w' /\ create_bits w w' (is_Ok r)) /\
  (exists r w',
     createRegisterSnapDevice hash baseInfo w = Returns r w' /\
     create_bits w w' (is_nil r)).
Proof.
  intros Hok. split.
  - destruct (createRegisterDevice_returns w hash Hok) as (r & w' & Hrun).
    exists r, w'. split; [exact Hrun|]. now apply createRegisterDevice_bits with hash.
  - destruct (createRegisterSnapDevice_returns w hash baseInfo Hok) as (r & w' & Hrun).
    exists r, w'. split; [exact Hrun|].
    now apply createRegisterSnapDevice_bits with hash baseInfo.
Qed.

(** ** The options never change *)

#[local] Instance options_Frame : Frame (same options_of) := same_Frame options_of.

Lemma options_io {A} P (m : M A) : io_only P m -> steps (same options_of) m.
Proof.
  intros Hio w a w' Hrun. destruct (io_only_Returns _ _ _ _ _ Hio Hrun) as (t & -> & _).
  reflexivity.
Qed.

Ltac options_auto := unfold call, log, dm_GetInfo, dm_GetStatus, os_Stat; steps_auto.

Lemma call_options ev : steps (same options_of) (call ev).
Proof. options_auto. Qed.

Lemma log_options msg : steps (same options_of) (log msg).
Proof. options_auto. Qed.

#[local] Hint Resolve call_options log_options : steps.

Lemma markDeviceIdUsed_options id : steps (same options_of) (markDeviceIdUsed id).
Proof. unfold markDeviceIdUsed. steps_auto. Qed.

Lemma markDeviceIdFree_options id : steps (same options_of) (markDeviceIdFree id).
Proof. unfold markDeviceIdFree. steps_auto. Qed.

Lemma isDeviceIdFree_options id : steps (same options_of) (isDeviceIdFree id).
Proof. unfold isDeviceIdFree. steps_auto. Qed.

Lemma incNextDeviceId_options : steps (same options_of) incNextDeviceId.
Proof. unfold incNextDeviceId. steps_auto. Qed.

#[local] Hint Resolve markDeviceIdUsed_options markDeviceIdFree_options
  isDeviceIdFree_options incNextDeviceId_options : steps.

Lemma getNextFreeDeviceId_scan_options n :
  steps (same options_of) (getNextFreeDeviceId_scan n).
Proof. induction n as [|n IH]; cbn [getNextFreeDeviceId_scan]; steps_auto. Qed.

#[local] Hint Resolve getNextFreeDeviceId_scan_options : steps.

Lemma getNextFreeDeviceId_options : steps (same options_of) getNextFreeDeviceId.
Proof. unfold getNextFreeDeviceId. steps_auto. Qed.

Lemma writeMetaFile_options data path : steps (same options_of) (writeMetaFile data path).
Proof.
  unfold writeMetaFile, ioutil_TempFile, file_Write, file_Sync, file_Close, os_Rename.
  options_auto.
Qed.

#[local] Hint Resolve getNextFreeDeviceId_options writeMetaFile_options : steps.

Lemma saveMetadata_options info : steps (same options_of) (saveMetadata info).
Proof. unfold saveMetadata. steps_auto. Qed.

Lemma removeMetadata_options hash : steps (same options_of) (removeMetadata hash).
Proof. unfold removeMetadata, os_RemoveAll. steps_auto. Qed.

Lemma loadMetadata_options hash : steps (same options_of) (loadMetadata hash).
Proof. unfold loadMetadata, ioutil_ReadFile. steps_auto. Qed.

#[local] Hint Resolve saveMetadata_options removeMetadata_options
  loadMetadata_options : steps.

Lemma lookupDevice_options hash : steps (same options_of) (lookupDevice hash).
Proof. unfold lookupDevice. steps_auto. Qed.

Lemma registerDevice_options id hash size transactionId :
  steps (same options_of) (registerDevice id hash size transactionId).
Proof. unfold registerDevice. steps_auto. Qed.

Lemma unregisterDevice_options id hash :
  steps (same options_of) (unregisterDevice id hash).
Proof. unfold unregisterDevice. steps_auto. Qed.

Lemma saveTransactionMetaData_options : steps (same options_of) saveTransactionMetaData.
Proof. unfold saveTransactionMetaData. steps_auto. Qed.

#[local] Hint Resolve lookupDevice_options registerDevice_options
  unregisterDevice_options saveTransactionMetaData_options : steps.

Lemma openTransaction_options hash id : steps (same options_of) (openTransaction hash id).
Proof. unfold openTransaction, allocateTransactionId. steps_auto. Qed.

Lemma refreshTransaction_options id : steps (same options_of) (refreshTransaction id).
Proof. unfold refreshTransaction. steps_auto. Qed.

Lemma closeTransaction_options : steps (same options_of) closeTransaction.
Proof. unfold closeTransaction, updatePoolTransactionId. steps_auto. Qed.

#[local] Hint Resolve openTransaction_options refreshTransaction_options
  closeTransaction_options : steps.

Lemma processPendingTransaction_options :
  steps (same options_of) processPendingTransaction.
Proof.
  unfold processPendingTransaction, loadTransactionMetaData, rollbackTransaction,
    removeTransactionMetaData, ioutil_ReadFile, os_RemoveAll.
  steps_auto.
Qed.

Lemma createRegisterDevice_loop_options fuel : forall id,
  steps (same options_of) (createRegisterDevice_loop fuel id).
Proof.
  induction fuel as [|fuel IH]; intros id; cbn [createRegisterDevice_loop]; steps_auto.
Qed.

Lemma createRegisterSnapDevice_loop_options fuel : forall id baseInfo,
  steps (same options_of) (createRegisterSnapDevice_loop fuel id baseInfo).
Proof.
  induction fuel as [|fuel IH]; intros id baseInfo;
    cbn [createRegisterSnapDevice_loop]; steps_auto.
Qed.

#[local] Hint Resolve processPendingTransaction_options
  createRegisterDevice_loop_options createRegisterSnapDevice_loop_options : steps.

Lemma createRegisterDevice_options hash :
  steps (same options_of) (createRegisterDevice hash).
Proof. unfold createRegisterDevice. steps_auto. Qed.

Lemma createRegisterSnapDevice_options hash baseInfo :
  steps (same options_of) (createRegisterSnapDevice hash baseInfo).
Proof. unfold createRegisterSnapDevice. steps_auto. Qed.

Lemma activateDeviceIfNeeded_options info :
  steps (same options_of) (activateDeviceIfNeeded info).
Proof. eapply options_io, (activateDeviceIfNeeded_io ""). Qed.

Lemma removeDeviceAndWait_options devname :
  steps (same options_of) (removeDeviceAndWait devname).
Proof. eapply options_io, removeDeviceAndWait_io. Qed.

Lemma waitClose_options info : steps (same options_of) (waitClose info).
Proof. eapply options_io, waitClose_io. Qed.

Lemma createFilesystem_options info : steps (same options_of) (createFilesystem info).
Proof. unfold createFilesystem, exec_Run. steps_auto. Qed.

#[local] Hint Resolve createRegisterDevice_options createRegisterSnapDevice_options
  activateDeviceIfNeeded_options removeDeviceAndWait_options waitClose_options
  createFilesystem_options : steps.

Lemma deactivateDevice_options info : steps (same options_of) (deactivateDevice info).
Proof. unfold deactivateDevice. options_auto. Qed.

Lemma deleteDevice_options info : steps (same options_of) (deleteDevice info).
Proof. unfold deleteDevice. options_auto. Qed.

#[local] Hint Resolve deactivateDevice_options deleteDevice_options : steps.

Lemma DeleteDevice_options hash : steps (same options_of) (DeleteDevice hash).
Proof. unfold DeleteDevice. steps_auto. Qed.

Lemma poolStatus_options : steps (same options_of) poolStatus.
Proof. unfold poolStatus. options_auto. Qed.

#[local] Hint Resolve DeleteDevice_options poolStatus_options : steps.

Lemma setupBaseImage_options : steps (same options_of) setupBaseImage.
Proof. unfold setupBaseImage, store_info. steps_auto. Qed.

#[local] Hint Resolve setupBaseImage_options : steps.

Lemma MountDevice_options hash path mountLabel :
  steps (same options_of) (MountDevice hash path mountLabel).
Proof. unfold MountDevice, store_info, ProbeFsType. options_auto. Qed.

Lemma UnmountDevice_options hash : steps (same options_of) (UnmountDevice hash).
Proof. unfold UnmountDevice, store_info. options_auto. Qed.

Lemma hasImage_options name : steps (same options_of) (hasImage name).
Proof. unfold hasImage. options_auto. Qed.

Lemma ensureImage_options name size : steps (same options_of) (ensureImage name size).
Proof. unfold ensureImage, file_Close. options_auto. Qed.

Lemma setCloseOnExec_loop_options names name :
  steps (same options_of) (setCloseOnExec_loop names name).
Proof. induction names as [|i names IH]; cbn [setCloseOnExec_loop]; steps_auto. Qed.

#[local] Hint Resolve hasImage_options ensureImage_options
  setCloseOnExec_loop_options : steps.

Lemma setCloseOnExec_options name : steps (same options_of) (setCloseOnExec name).
Proof. unfold setCloseOnExec. steps_auto. Qed.

Lemma deviceFileWalkFunction_options path finfo :
  steps (same options_of) (deviceFileWalkFunction path finfo).
Proof. unfold deviceFileWalkFunction. steps_auto. Qed.

#[local] Hint Resolve setCloseOnExec_options deviceFileWalkFunction_options : steps.

Lemma filepath_Walk_loop_options entries walkFn :
  (forall path info err, steps (same options_of) (walkFn path info err)) ->
  steps (same options_of) (filepath_Walk_loop entries walkFn).
Proof.
  intros Hfn. induction entries as [|[[path info] err] entries IH];
    cbn [filepath_Walk_loop]; steps_auto.
Qed.

Lemma constructDeviceIdMap_options : steps (same options_of) constructDeviceIdMap.
Proof.
  unfold constructDeviceIdMap, filepath_Walk. steps_auto.
  apply filepath_Walk_loop_options. intros path info err.
  unfold constructDeviceIdMap_scan. steps_auto.
Qed.

Lemma migrateOldMetaData_loop_options entries :
  steps (same options_of) (migrateOldMetaData_loop entries).
Proof.
  induction entries as [|[hash [[[deviceId size] transactionId] initialized]] entries IH];
    cbn [migrateOldMetaData_loop]; steps_auto.
Qed.

#[local] Hint Resolve constructDeviceIdMap_options migrateOldMetaData_loop_options
  : steps.

Lemma migrateOldMetaData_options : steps (same options_of) migrateOldMetaData.
Proof. unfold migrateOldMetaData, ioutil_ReadFile, os_Rename. steps_auto. Qed.

#[local] Hint Resolve migrateOldMetaData_options : steps.

Lemma initMetaData_options : steps (same options_of) initMetaData.
Proof. unfold initMetaData. steps_auto. Qed.

Lemma loadDeviceSetMetaData_options : steps (same options_of) loadDeviceSetMetaData.
Proof. unfold loadDeviceSetMetaData, ioutil_ReadFile. steps_auto. Qed.

Lemma saveDeviceSetMetaData_options : steps (same options_of) saveDeviceSetMetaData.
Proof. unfold saveDeviceSetMetaData. steps_auto. Qed.

#[local] Hint Resolve initMetaData_options loadDeviceSetMetaData_options : steps.

Lemma initDevmapper_rest_options doInit createdLoopback :
  steps (same options_of) (initDevmapper_rest doInit createdLoopback).
Proof. unfold initDevmapper_rest. steps_auto. Qed.

Lemma initDevmapper_backing_options doInit name device size :
  steps (same options_of) (initDevmapper_backing doInit name device size).
Proof. unfold initDevmapper_backing. options_auto. Qed.

#[local] Hint Resolve initDevmapper_rest_options initDevmapper_backing_options : steps.

Lemma initDevmapper_options doInit : steps (same options_of) (initDevmapper doInit).
Proof. unfold initDevmapper, defer_Close, file_Close. options_auto. Qed.
(** ** Reading the options *)

Lemma NewDeviceSet_options_spec options : forall dev found dev' found',
  NewDeviceSet_options options dev found = Ok (dev', found') ->
  found' = found || negb (is_nil (last (option_values "dm.blkdiscard" options))) /\
  match last (option_values "dm.blkdiscard" options) with
  | Some val => strconv_ParseBool val = Ok (doBlkDiscard dev')
  | None => doBlkDiscard dev' = doBlkDiscard dev
  end /\
  dataDevice dev' =
    default (dataDevice dev) (last (option_values "dm.datadev" options)) /\
  thinPoolDevice dev' =
    default (thinPoolDevice dev)
      ((fun val => strings_TrimPrefix val "/dev/mapper/") <$>
         last (option_values "dm.thinpooldev" options)) /\
  root dev' = root dev.
Proof.
  induction options as [|o rest IH]; intros dev found dev' found'.
  { intros [= <- <-]. cbn. now rewrite orb_false_r. }
  cbn [NewDeviceSet_options option_values].
  destruct (ParseKeyValueOpt o) as [[k val]|e]; [|discriminate].
  repeat lazymatch goal with
  | |- (if String.eqb ?key ?lit then _ else _) = _ -> _ =>
      let E := fresh "E" in
      destruct (String.eqb key lit) eqn:E;
      [ apply String.eqb_eq in E; rewrite E; clear E;
        cbn [String.eqb Ascii.eqb Bool.eqb]; cbv iota beta | ]
  end.
  all: intros Hrun.
  all: repeat match type of Hrun with
       | context [match ?x with _ => _ end] =>
           let E := fresh "E" in destruct x eqn:E; try discriminate Hrun
       end.
  all: apply IH in Hrun as (-> & Hb & Hd & Hp & Hr).
  all: cbn [doBlkDiscard dataDevice thinPoolDevice root set_baseFsSize
            set_dataLoopbackSize set_metaDataLoopbackSize set_filesystem set_mkfsArgs
            set_mountOptions set_metadataDevice set_dataDevice set_thinPoolDevice
            set_doBlkDiscard set_thinpBlockSize] in Hb, Hd, Hp, Hr.
  all: rewrite ?last_cons.
  all: repeat match goal with
       | |- context [last ?l] => destruct (last l) eqn:?
       end.
  all: cbn [is_nil negb orb default fmap option_fmap option_map] in *.
  all: rewrite ?orb_true_r, ?orb_false_r.
  all: unfold id in *; repeat split; congruence.
Qed.

(** C8.  When [NewDeviceSet] returns a DeviceSet, its [doBlkDiscard] is
    the value of the last [dm.blkdiscard] option if there is one,
    whatever the backing devices; with no such option it is true
    exactly if the options name neither a data device ([dm.datadev],
    last value not empty) nor a thin pool ([dm.thinpooldev], last value
    not empty once [/dev/mapper/] is cut off): true for a pool on
    loopback files, false on a raw data device or an external pool. *)
Theorem NewDeviceSet_blkdiscard_default root doInit options w d w' :
  NewDeviceSet root doInit options w = Returns (Ok d) w' ->
  match last (option_values "dm.blkdiscard" options) with
  | Some val => strconv_ParseBool val = Ok (doBlkDiscard d)
  | None =>
      doBlkDiscard d =
        String.eqb (default "" (last (option_values "dm.datadev" options))) "" &&
        String.eqb
          (default ""
             ((fun val => strings_TrimPrefix val "/dev/mapper/") <$>
                last (option_values "dm.thinpooldev" options))) ""
  end.
Proof.
  unfold NewDeviceSet. intros Hrun. run_inv Hrun.
  match goal with Hi : initDevmapper _ _ = Returns None _ |- _ =>
    pose proof (initDevmapper_options _ _ _ _ Hi) as Hsame end.
  unfold same, options_of in Hsame. cbn [upd_devices devices] in Hsame.
  injection Hsame as _ _ _ _ _ _ _ Hblk _ _. rewrite Hblk.
  match goal with Ho : NewDeviceSet_options _ _ _ = Ok _ |- _ =>
    apply NewDeviceSet_options_spec in Ho as (-> & Hb & Hd & Hp & _) end.
  cbn [NewDeviceSet_literal doBlkDiscard dataDevice thinPoolDevice] in Hb, Hd, Hp.
  rewrite Hd, Hp.
  destruct (last (option_values "dm.blkdiscard" options)) as [val|];
    cbn [is_nil negb orb andb].
  - exact Hb.
  - match goal with |- _ = String.eqb ?x "" && String.eqb ?y "" =>
      destruct (String.eqb x ""), (String.eqb y "") end;
      cbn [negb orb andb set_doBlkDiscard doBlkDiscard]; congruence.
Qed.

(** ** The bitmap at its bounds *)

Lemma slice_get_out (m : list Z) k :
  length m = Z.to_nat DeviceIdMapSz -> k < 0 \/ DeviceIdMapSz <= k ->
  slice_get m k = None.
Proof.
  intros Hlen Hk. unfold slice_get. destruct (Z.leb_spec 0 k) as [H0|H0]; [|done].
  apply lookup_ge_None. rewrite Hlen. lia.
Qed.

(** X1.  On a bitmap of [DeviceIdMapSz] bytes and for an id within
    range, marking the id used makes [isDeviceIdFree] answer false,
    marking it free again makes it answer true, and neither changes the
    answer for any other id, the files or the calls recorded. *)
Theorem bitmap_mark_round_trip w id :
  bitmap_ok w -> valid_id id ->
  exists w1 w2,
    markDeviceIdUsed id w = Returns tt w1 /\
    isDeviceIdFree id w1 = Returns false w1 /\
    markDeviceIdFree id w1 = Returns tt w2 /\
    isDeviceIdFree id w2 = Returns true w2 /\
    (forall x, valid_id x -> x <> id ->
       returned (isDeviceIdFree x w1) = returned (isDeviceIdFree x w) /\
       returned (isDeviceIdFree x w2) = returned (isDeviceIdFree x w)) /\
    files w2 = files w /\ trace w2 = trace w.
Proof.
  intros Hok Hv.
  set (w1 := upd_devices (set_deviceIdMap (set_bit (deviceIdMap (devices w)) id)) w).
  set (w2 := upd_devices (set_deviceIdMap (clear_bit (deviceIdMap (devices w1)) id)) w1).
  assert (bitmap_ok w1) as Hok1.
  { unfold bitmap_ok, w1. cbn [upd_devices devices deviceIdMap set_deviceIdMap].
    rewrite length_set_bit. exact Hok. }
  assert (bitmap_ok w2) as Hok2.
  { unfold bitmap_ok, w2. cbn [upd_devices devices deviceIdMap set_deviceIdMap].
    rewrite length_clear_bit. exact Hok1. }
  assert (forall x, valid_id x ->
            bit_of (deviceIdMap (devices w1)) x =
            bit_of (deviceIdMap (devices w)) x || (x =? id)) as Hb1.
  { intros x Hx. unfold w1. cbn [upd_devices devices deviceIdMap set_deviceIdMap].
    now apply bit_of_set_bit. }
  assert (forall x, valid_id x ->
            bit_of (deviceIdMap (devices w2)) x =
            bit_of (deviceIdMap (devices w1)) x && negb (x =? id)) as Hb2.
  { intros x Hx. unfold w2. cbn [upd_devices devices deviceIdMap set_deviceIdMap].
    now apply bit_of_clear_bit. }
  exists w1, w2.
  split; [now apply markDeviceIdUsed_bit|].
  split. { rewrite isDeviceIdFree_bit, Hb1, Z.eqb_refl, orb_true_r by done. reflexivity. }
  split; [now apply markDeviceIdFree_bit|].
  split. { rewrite isDeviceIdFree_bit, Hb2, Z.eqb_refl, andb_false_r by done. reflexivity. }
  split; [|split; reflexivity].
  intros x Hx Hne. rewrite !isDeviceIdFree_bit, Hb2, Hb1 by done.
  apply Z.eqb_neq in Hne. rewrite Hne. cbn [negb]. now rewrite orb_false_r, andb_true_r.
Qed.

Lemma quot_rem_neg id :
  id < 0 -> Z.quot id 8 = - ((- id) / 8) /\ Z.rem id 8 = - ((- id) mod 8).
Proof.
  intros Hid. rewrite <- (Z.opp_involutive id) at 1 3.
  rewrite Z.quot_opp_l, Z.rem_opp_l by lia.
  rewrite Z.quot_div_nonneg, Z.rem_mod_nonneg by lia. done.
Qed.

Lemma set_deviceIdMap_same d : set_deviceIdMap (deviceIdMap d) d = d.
Proof. now destruct d. Qed.

Lemma bitmap_ops_panic w id :
  bitmap_ok w -> MaxDeviceId < id \/ id <= -8 ->
  markDeviceIdUsed id w = Stops Panic /\
  markDeviceIdFree id w = Stops Panic /\
  isDeviceIdFree id w = Stops Panic.
Proof.
  intros Hok Hid.
  assert (slice_get (deviceIdMap (devices w)) (Z.quot id 8) = None) as Hg.
  { apply slice_get_out; [exact Hok|]. rewrite DeviceIdMapSz_val.
    unfold MaxDeviceId in Hid. destruct Hid as [Hid|Hid].
    - right. rewrite Z.quot_div_nonneg by lia.
      apply Z.div_le_lower_bound; lia.
    - left. destruct (quot_rem_neg id) as [-> _]; [lia|].
      assert (1 <= - id / 8) by (apply Z.div_le_lower_bound; lia). lia. }
  unfold markDeviceIdUsed, markDeviceIdFree, isDeviceIdFree, bind, get_devices.
  rewrite Hg. done.
Qed.

(** X2.  The bitmap is indexed unchecked.  On a bitmap of
    [DeviceIdMapSz] bytes, an id above [MaxDeviceId] or at most -8
    makes each of the three bitmap operations panic (index out of
    range); an id from -7 to -1 falls on byte 0 with an empty mask:
    it is always reported free, and marking it used or free changes
    nothing. *)
Theorem bitmap_out_of_range w id :
  bitmap_ok w ->
  (MaxDeviceId < id \/ id <= -8 ->
   markDeviceIdUsed id w = Stops Panic /\
   markDeviceIdFree id w = Stops Panic /\
   isDeviceIdFree id w = Stops Panic) /\
  (-8 < id < 0 ->
   (forall b, deviceIdMap (devices w) !! 0%nat = Some b -> 0 <= b < 256) ->
   isDeviceIdFree id w = Returns true w /\
   forall mark, mark = markDeviceIdUsed \/ mark = markDeviceIdFree ->
     exists w', mark id w = Returns tt w' /\
       devices w' = devices w /\ files w' = files w /\ trace w' = trace w).
Proof.
  intros Hok. split; [now apply bitmap_ops_panic|].
  intros Hid Hbyte.
  destruct (quot_rem_neg id) as [Hq Hr]; [lia|].
  rewrite Z.div_small in Hq by lia. rewrite Z.mod_small in Hr by lia.
  rewrite Z.opp_involutive in Hr. change (- 0) with 0 in Hq.
  assert (exists b, deviceIdMap (devices w) !! 0%nat = Some b) as [b Hb].
  { apply lookup_lt_is_Some_2. rewrite Hok, DeviceIdMapSz_val. lia. }
  specialize (Hbyte b Hb).
  assert (byte_bit id = 0) as Hmask.
  { unfold byte_bit. destruct (Z.leb_spec 0 id); [lia|done]. }
  assert (Z.land b (byte_not 0) = b) as Hland.
  { unfold byte_not. change (Z.lxor 0 255) with (Z.ones 8).
    rewrite Z.land_ones by lia. apply Z.mod_small. lia. }
  split.
  - unfold isDeviceIdFree, bind, get_devices, slice_get.
    rewrite Hq, Hr, Hmask. change (Z.to_nat 0) with 0%nat. cbn [Z.leb Z.compare].
    rewrite Hb, Z.land_0_r. reflexivity.
  - intros mark [-> | ->];
      unfold markDeviceIdUsed, markDeviceIdFree, bind, get_devices, slice_get, slice_set;
      rewrite Hq, Hr, Hmask; change (Z.to_nat 0) with 0%nat; cbn [Z.leb Z.compare];
      rewrite Hb, ?Z.lor_0_r, ?Hland, list_insert_id by exact Hb;
      eexists; (split; [reflexivity|]);
      cbn [upd_devices devices files trace];
      rewrite set_deviceIdMap_same; done.
Qed.
(** ** Loading the bitmap from disk *)

#[local] Instance bits_grow_Frame : Frame bits_grow.
Proof.
  split.
  - intros w Hok. split; [exact Hok | auto].
  - intros w1 w2 w3 H12 H23 Hok. destruct (H12 Hok) as [Hok2 Hb2].
    destruct (H23 Hok2) as [Hok3 Hb3]. split; [exact Hok3 | auto].
Qed.

Lemma bits_grow_same w w' :
  deviceIdMap (devices w') = deviceIdMap (devices w) -> bits_grow w w'.
Proof. intros Hm Hok. unfold bitmap_ok. rewrite Hm. split; [exact Hok | auto]. Qed.

Lemma bits_grow_quiet {A} (m : M A) : steps quiet m -> steps bits_grow m.
Proof. intros Hq w a w' Hrun. apply bits_grow_same. apply (Hq w a w' Hrun). Qed.

Lemma markDeviceIdUsed_grows id : steps bits_grow (markDeviceIdUsed id).
Proof.
  intros w u w' Hrun Hok.
  destruct (Z_lt_le_dec MaxDeviceId id) as [Hhi|Hhi].
  { destruct (bitmap_ops_panic w id Hok) as (Hp & _); [auto|]. congruence. }
  destruct (Z_le_gt_dec id (-8)) as [Hlo|Hlo].
  { destruct (bitmap_ops_panic w id Hok) as (Hp & _); [auto|]. congruence. }
  destruct (Z_lt_le_dec id 0) as [Hneg|Hpos].
  - (* byte 0 gets its own value back *)
    destruct (quot_rem_neg id) as [Hq Hr]; [lia|].
    rewrite Z.div_small in Hq by lia. rewrite Z.mod_small in Hr by lia.
    rewrite Z.opp_involutive in Hr. change (- 0) with 0 in Hq.
    assert (byte_bit id = 0) as Hmask.
    { unfold byte_bit. destruct (Z.leb_spec 0 id); [lia|done]. }
    revert Hrun. unfold markDeviceIdUsed, bind, get_devices, slice_get, slice_set.
    rewrite Hq, Hr, Hmask. change (Z.to_nat 0) with 0%nat. cbn [Z.leb Z.compare].
    destruct (deviceIdMap (devices w) !! 0%nat) as [b|] eqn:Hb; [|discriminate].
    rewrite Z.lor_0_r, list_insert_id by exact Hb. intros [= <- <-].
    apply bits_grow_same; [|exact Hok]. reflexivity.
  - assert (valid_id id) as Hv by (split; lia).
    rewrite markDeviceIdUsed_bit in Hrun by done. injection Hrun as <- <-.
    split.
    + unfold bitmap_ok. cbn [upd_devices devices deviceIdMap set_deviceIdMap].
      rewrite length_set_bit. exact Hok.
    + intros x Hx Hbit. cbn [upd_devices devices deviceIdMap set_deviceIdMap].
      rewrite bit_of_set_bit, Hbit by done. reflexivity.
Qed.

Lemma log_grows msg : steps bits_grow (log msg).
Proof. apply bits_grow_quiet, log_quiet. Qed.

Lemma loadMetadata_quiet hash : steps quiet (loadMetadata hash).
Proof. unfold loadMetadata, ioutil_ReadFile. steps_auto. Qed.

Lemma loadMetadata_grows hash : steps bits_grow (loadMetadata hash).
Proof. apply bits_grow_quiet, loadMetadata_quiet. Qed.

#[local] Hint Resolve markDeviceIdUsed_grows log_grows loadMetadata_grows : steps.

Lemma deviceFileWalkFunction_grows path finfo :
  steps bits_grow (deviceFileWalkFunction path finfo).
Proof. unfold deviceFileWalkFunction. steps_auto. Qed.

#[local] Hint Resolve deviceFileWalkFunction_grows : steps.

Lemma filepath_Walk_loop_steps R `{!Frame R} entries walkFn :
  (forall path info err, steps R (walkFn path info err)) ->
  steps R (filepath_Walk_loop entries walkFn).
Proof.
  intros Hfn. induction entries as [|[[path info] err] entries IH];
    cbn [filepath_Walk_loop]; steps_auto.
Qed.

Lemma constructDeviceIdMap_grows : steps bits_grow constructDeviceIdMap.
Proof.
  unfold constructDeviceIdMap, filepath_Walk. steps_auto.
  all: try (intros; apply bits_grow_same; reflexivity).
  apply filepath_Walk_loop_steps; [exact _|]. intros path info err.
  unfold constructDeviceIdMap_scan. steps_auto.
Qed.
#[local] Instance only_bitmap_Frame : Frame only_bitmap.
Proof.
  split.
  - intros w. split; [|reflexivity]. exists (deviceIdMap (devices w)).
    now rewrite set_deviceIdMap_same.
  - intros w1 w2 w3 [[m2 H2] F2] [[m3 H3] F3]. split; [|congruence].
    exists m3. rewrite H3, H2. reflexivity.
Qed.

Lemma only_bitmap_same w w' :
  devices w' = devices w -> files w' = files w -> only_bitmap w w'.
Proof.
  intros Hd Hf. split; [|exact Hf]. exists (deviceIdMap (devices w)).
  now rewrite set_deviceIdMap_same.
Qed.

Lemma log_only_bitmap msg : steps only_bitmap (log msg).
Proof. intros w u w' Hrun. run_inv Hrun. now apply only_bitmap_same. Qed.

Lemma loadMetadata_only_bitmap hash : steps only_bitmap (loadMetadata hash).
Proof.
  unfold loadMetadata, ioutil_ReadFile. intros w r w' Hrun. run_inv Hrun;
    now apply only_bitmap_same.
Qed.

Lemma markDeviceIdUsed_only_bitmap id : steps only_bitmap (markDeviceIdUsed id).
Proof.
  unfold markDeviceIdUsed. intros w u w' Hrun. run_inv Hrun.
  split; [|reflexivity]. eexists. reflexivity.
Qed.

#[local] Hint Resolve log_only_bitmap loadMetadata_only_bitmap
  markDeviceIdUsed_only_bitmap : steps.

Lemma constructDeviceIdMap_only_bitmap : steps only_bitmap constructDeviceIdMap.
Proof.
  unfold constructDeviceIdMap, filepath_Walk. steps_auto.
  all: try (intros; apply only_bitmap_same; reflexivity).
  apply filepath_Walk_loop_steps; [exact _|]. intros path info err.
  unfold constructDeviceIdMap_scan, deviceFileWalkFunction. steps_auto.
Qed.

(** The error of the walk is the one of the file that did not load. *)
Lemma filepath_Walk_loop_error entries : forall w e w',
  filepath_Walk_loop entries constructDeviceIdMap_scan w = Returns (Some e) w' ->
  exists hash, e = Errorf "Error loading device metadata file %s" [ArgS hash].
Proof.
  induction entries as [|[[path info] err] entries IH]; intros w e w';
    cbn [filepath_Walk_loop]; intros Hrun; run_inv Hrun.
  - revert Hrun0. unfold constructDeviceIdMap_scan, deviceFileWalkFunction.
    intros Hrun. run_inv Hrun. eauto.
  - eauto.
Qed.

(** X3.  [constructDeviceIdMap], which rebuilds the bitmap from the
    metadata files at start-up, only ever marks ids: on a bitmap of
    [DeviceIdMapSz] bytes the size is kept and every id that was marked
    used still is; nothing but the bitmap changes in the DeviceSet, no
    file changes, and the only error it returns is the one of the
    first metadata file that does not load. *)
Theorem constructDeviceIdMap_only_marks w r w' :
  bitmap_ok w ->
  constructDeviceIdMap w = Returns r w' ->
  bitmap_ok w' /\
  (forall x, valid_id x ->
     bit_of (deviceIdMap (devices w)) x = true ->
     bit_of (deviceIdMap (devices w')) x = true) /\
  (exists m, devices w' = set_deviceIdMap m (devices w)) /\
  files w' = files w /\
  (forall e, r = Some e ->
     exists hash, e = Errorf "Error loading device metadata file %s" [ArgS hash]).
Proof.
  intros Hok Hrun.
  destruct (constructDeviceIdMap_grows _ _ _ Hrun Hok) as [Hok' Hbits].
  destruct (constructDeviceIdMap_only_bitmap _ _ _ Hrun) as [Hm Hf].
  do 4 (split; [assumption|]).
  intros e ->. revert Hrun. unfold constructDeviceIdMap, filepath_Walk.
  intros Hrun. run_inv Hrun.
  eapply filepath_Walk_loop_error; eauto.
Qed.

(** X4.  What [deviceFileWalkFunction] does with one file of the
    metadata directory: a file called [deviceset-metadata] or ending in
    [.migrated] is skipped without being read; otherwise the record of
    its name ([base] standing for the empty hash) is loaded, and a
    record that does not load is an error; a device id above
    [MaxDeviceId] is ignored with a warning, an id within range is
    marked used, and an id of -8 or less is not checked for: it indexes
    the bitmap out of range and the call panics. *)
Theorem deviceFileWalkFunction_cases w path finfo :
  (strings_HasSuffix (fi_Name finfo) ".migrated" = true \/
   fi_Name finfo = deviceSetMetaFile ->
   deviceFileWalkFunction path finfo w =
   Returns None (add_events [EvLog "Skipping file %s"] w)) /\
  (strings_HasSuffix (fi_Name finfo) ".migrated" = false ->
   fi_Name finfo <> deviceSetMetaFile ->
   let hash := if String.eqb (fi_Name finfo) "base" then "" else fi_Name finfo in
   forall r w1,
     loadMetadata hash (add_events [EvLog "Loading data for file %s"] w) = Returns r w1 ->
     match r with
     | None =>
         deviceFileWalkFunction path finfo w =
         Returns (Some (Errorf "Error loading device metadata file %s" [ArgS hash])) w1
     | Some dinfo =>
         (MaxDeviceId < DeviceId dinfo ->
          deviceFileWalkFunction path finfo w =
          Returns None (add_events [EvLog "Warning: Ignoring Invalid DeviceId=%d"] w1)) /\
         (valid_id (DeviceId dinfo) -> bitmap_ok w ->
          deviceFileWalkFunction path finfo w =
          Returns None
            (add_events [EvLog "Added deviceId=%d to DeviceIdMap"]
               (upd_devices
                  (set_deviceIdMap (set_bit (deviceIdMap (devices w)) (DeviceId dinfo)))
                  w1))) /\
         (DeviceId dinfo <= -8 -> bitmap_ok w ->
          deviceFileWalkFunction path finfo w = Stops Panic)
     end).
Proof.
  split.
  - intros Hskip. unfold deviceFileWalkFunction.
    destruct (strings_HasSuffix (fi_Name finfo) ".migrated"); [reflexivity|].
    destruct Hskip as [Hs|Hs]; [discriminate Hs | rewrite Hs; reflexivity].
  - intros Hsuf Hname hash r w1 Hload. unfold deviceFileWalkFunction. rewrite Hsuf.
    replace (String.eqb (fi_Name finfo) deviceSetMetaFile) with false
      by (symmetry; now apply String.eqb_neq).
    fold hash. rewrite bind_log. rewrite (bind_run _ _ _ _ _ Hload).
    pose proof (loadMetadata_quiet _ _ _ _ Hload) as [Hm _].
    unfold same in Hm. cbn [add_events devices] in Hm.
    destruct r as [dinfo|]; [|reflexivity].
    split; [|split].
    + intros Hhi. apply Z.ltb_lt in Hhi. rewrite Hhi. reflexivity.
    + intros Hv Hok.
      replace (MaxDeviceId <? DeviceId dinfo) with false
        by (symmetry; apply Z.ltb_ge; apply Hv).
      assert (bitmap_ok w1) as Hok1 by (unfold bitmap_ok; now rewrite Hm).
      unfold bind at 1. rewrite markDeviceIdUsed_bit, Hm by done. reflexivity.
    + intros Hlo Hok.
      replace (MaxDeviceId <? DeviceId dinfo) with false
        by (symmetry; apply Z.ltb_ge; unfold MaxDeviceId; lia).
      assert (bitmap_ok w1) as Hok1 by (unfold bitmap_ok; now rewrite Hm).
      destruct (bitmap_ops_panic w1 (DeviceId dinfo) Hok1) as (Hp & _); [auto|].
      unfold bind at 1. rewrite Hp. reflexivity.
Qed.

(** ** The registry *)

(** X5.  Looking up a hash the registry does not hold reads the
    metadata file of the hash, once.  If the record loads it enters the
    registry under the hash, unmounted, and the next lookup answers
    with the same record without reading anything; if it does not, the
    lookup fails with the unknown-device error and the registry is as
    it was.  The lookup never panics. *)
Theorem lookupDevice_loads_once w hash :
  Devices (devices w) !! hash = None ->
  let w0 := add_events [EvReadFile (metadataFile (devices w) hash)] w in
  match lookupDevice hash w with
  | Returns (Ok info) w1 =>
      w1 = with_info hash info w0 /\
      Hash info = hash /\ mountCount info = 0 /\ mountPath info = "" /\
      lookupDevice hash w1 = Returns (Ok info) w1
  | Returns (Err e) w1 =>
      e = Errorf "Unknown device %s" [ArgS hash] /\ w1 = w0
  | Stops _ => False
  end.
Proof.
  intros Hmiss w0. unfold lookupDevice at 1, loadMetadata, ioutil_ReadFile. exec.
  rewrite Hmiss.
  repeat match goal with
  | |- context [match ?x with _ => _ end] =>
      lazymatch x with
      | env_err _ => destruct x
      | _ !! _ => destruct x
      | json_Unmarshal_DevInfo _ => destruct x as [[[[? ?] ?] ?]|?]
      end
  end; try done.
  repeat split. apply lookupDevice_cached. cbn. apply lookup_insert_eq.
Qed.
(** X6.  [registerDevice] enters the record in the registry and writes
    its metadata file; when the file cannot be written the hash is
    taken out of the registry again - also when it had a record before
    the call, which is then lost.  It never panics. *)
Theorem registerDevice_all_or_nothing w id hash size transactionId :
  match registerDevice id hash size transactionId w with
  | Returns (Ok info) w' =>
      info = mkDevInfo hash id size transactionId false 0 "" /\
      Devices (devices w') = <[hash := info]> (Devices (devices w)) /\
      (forall data, json_Marshal_DevInfo info = Ok data ->
         files w' !! metadataFile (devices w) hash = Some data)
  | Returns (Err e) w' =>
      Devices (devices w') = delete hash (Devices (devices w))
  | Stops _ => False
  end.
Proof.
  destruct (registerDevice_returns id hash size transactionId w) as (r & w' & Hrun).
  rewrite Hrun. revert Hrun. unfold registerDevice, saveMetadata. intros Hrun.
  run_inv Hrun.
  all: repeat match goal with Hw : writeMetaFile _ _ _ = Returns _ _ |- _ =>
         destruct (writeMetaFile_run _ _ _ _ _ Hw) as (Hd & _ & Hf); clear Hw end.
  all: cbn [add_events upd_devices devices files trace Devices set_Devices] in *.
  - rewrite Hd. cbn. apply delete_insert_eq.
  - split; [reflexivity|]. rewrite Hd. cbn. split; [reflexivity|].
    intros data Hdata.
    match goal with E : json_Marshal_DevInfo _ = Ok _ |- _ =>
      rewrite E in Hdata; injection Hdata as <- end.
    exact (Hf eq_refl).
  - apply delete_insert_eq.
Qed.

Lemma unregisterDevice_run w id hash r w' :
  unregisterDevice id hash w = Returns r w' ->
  Devices (devices w') = delete hash (Devices (devices w)) /\
  files w' =
    (if is_nil r then delete (metadataFile (devices w) hash) (files w) else files w).
Proof.
  unfold unregisterDevice, removeMetadata, os_RemoveAll. intros Hrun.
  run_inv Hrun; done.
Qed.

(** X7.  Undoing a registration: when [registerDevice] has entered a
    hash the registry did not hold and [unregisterDevice] then returns
    nil, the registry is as it was before the two calls and the
    metadata file of the hash is gone; when [unregisterDevice] returns
    an error the record is out of the registry all the same and no
    file has changed. *)
Theorem register_unregister_round_trip w id hash size transactionId info w1 r w2 :
  Devices (devices w) !! hash = None ->
  registerDevice id hash size transactionId w = Returns (Ok info) w1 ->
  unregisterDevice id hash w1 = Returns r w2 ->
  Devices (devices w2) = Devices (devices w) /\
  match r with
  | None => files w2 !! metadataFile (devices w) hash = None
  | Some _ => files w2 = files w1
  end.
Proof.
  intros Hnew Hreg Hunreg.
  destruct (registerDevice_run _ _ _ _ _ _ _ Hreg) as (-> & Hd1 & _).
  destruct (unregisterDevice_run _ _ _ _ _ Hunreg) as (Hd2 & Hf2).
  rewrite Hd2, Hd1. cbn [Devices set_Devices]. split.
  - rewrite delete_insert_eq. now apply delete_id.
  - destruct r as [e|]; cbn [is_nil] in Hf2; [exact Hf2|].
    rewrite Hf2, Hd1. apply lookup_delete_eq.
Qed.
(** ** Adding a device *)

Lemma lookupDevice_run w hash r w' :
  lookupDevice hash w = Returns r w' ->
  TransactionId (devices w') = TransactionId (devices w) /\
  match r with
  | Ok info => Devices (devices w') = <[hash := info]> (Devices (devices w))
  | Err _ => Devices (devices w') = Devices (devices w) /\
             Devices (devices w) !! hash = None
  end.
Proof.
  unfold lookupDevice, loadMetadata, ioutil_ReadFile. intros Hrun. run_inv Hrun.
  all: cbn [add_events upd_devices devices Devices set_Devices TransactionId
            set_TransactionId]; try done.
  match goal with E : _ !! _ = Some _ |- _ => now rewrite (insert_id _ _ _ E) end.
Qed.

Lemma createRegisterSnapDevice_record w hash baseInfo w' :
  createRegisterSnapDevice hash baseInfo w = Returns None w' ->
  exists id,
    Devices (devices w') =
    <[hash := mkDevInfo hash id (Size baseInfo) (TransactionId (devices w')) false 0 ""]>
      (Devices (devices w)).
Proof.
  unfold createRegisterSnapDevice. intros Hrun. run_inv Hrun.
  { match goal with Hl : createRegisterSnapDevice_loop _ _ _ _ = _ |- _ =>
      apply createRegisterSnapDevice_loop_Return in Hl as [e [=]] end. }
  match goal with Hg : getNextFreeDeviceId _ = _ |- _ =>
    pose proof (getNextFreeDeviceId_kept "" _ _ _ Hg) as K0 end.
  match goal with Ho : openTransaction _ _ _ = _ |- _ =>
    destruct (openTransaction_run _ _ _ _ Ho) as (T1 & O1 & D1 & R1 & F1) end.
  match goal with Hl : createRegisterSnapDevice_loop _ _ _ _ = _ |- _ =>
    pose proof (createRegisterSnapDevice_loop_kept "" _ _ _ _ _ _ Hl) as K2 end.
  match goal with Hr : registerDevice _ _ _ _ _ = _ |- _ =>
    destruct (registerDevice_run _ _ _ _ _ _ _ Hr) as (-> & Hd3 & F3) end.
  match goal with Hc : closeTransaction _ = _ |- _ =>
    destruct (closeTransaction_run _ _ _ Hc) as (F4 & ->) end.
  cbn [add_events upd_devices devices files trace] in *.
  eexists. rewrite Hd3. cbn [Devices set_Devices set_TransactionId TransactionId].
  rewrite (kept_Devices _ _ _ K2), D1, (kept_Devices _ _ _ K0).
  unfold open_id. cbn [transaction OpenTransactionId]. reflexivity.
Qed.

(** X8.  [AddDevice] refuses a hash that has a record: with both
    records in the registry it returns the already-exists error and
    leaves the world alone but for its two log lines.  When it returns
    nil the hash was new and differs from the base, the registry has
    gained exactly the new record (and the base record, if that was
    loaded from disk), the new record has the size of the base and the
    transaction id the pool is left at, one more than before. *)
Theorem AddDevice_outcomes w hash baseHash :
  (forall base info,
     Devices (devices w) !! baseHash = Some base ->
     Devices (devices w) !! hash = Some info ->
     AddDevice hash baseHash w =
     Returns (Some (Errorf "device %s already exists" [ArgS hash]))
       (add_events [EvLog "[deviceset] AddDevice() hash=%s basehash=%s";
                    EvLog "[deviceset] AddDevice(hash=%s basehash=%s) END"] w)) /\
  (forall w',
     AddDevice hash baseHash w = Returns None w' ->
     exists base id,
       Devices (devices w) !! hash = None /\ hash <> baseHash /\
       (forall b, Devices (devices w) !! baseHash = Some b -> b = base) /\
       Devices (devices w') =
       <[hash := mkDevInfo hash id (Size base) (TransactionId (devices w')) false 0 ""]>
         (<[baseHash := base]> (Devices (devices w))) /\
       TransactionId (devices w') = wrap_uint64 (TransactionId (devices w) + 1)).
Proof.
  split.
  - intros base info Hbase Hinfo. unfold AddDevice.
    rewrite bind_log. unfold bind at 1. unfold bind at 1.
    rewrite lookupDevice_cached with (info := base) by exact Hbase.
    unfold bind at 1. rewrite lookupDevice_cached with (info := info) by exact Hinfo.
    change [EvLog "[deviceset] AddDevice() hash=%s basehash=%s";
            EvLog "[deviceset] AddDevice(hash=%s basehash=%s) END"]
      with ([EvLog "[deviceset] AddDevice() hash=%s basehash=%s"] ++
            [EvLog "[deviceset] AddDevice(hash=%s basehash=%s) END"]).
    rewrite <- add_events_app. reflexivity.
  - intros w'. unfold AddDevice. intros Hrun. run_inv Hrun.
    match goal with Hb : lookupDevice baseHash _ = Returns (Ok ?b) _ |- _ =>
      destruct (lookupDevice_run _ _ _ _ Hb) as (Tb & Db); exists b end.
    match goal with Hh : lookupDevice hash _ = Returns (Err _) _ |- _ =>
      destruct (lookupDevice_run _ _ _ _ Hh) as (Th & Dh & Nh) end.
    match goal with Hc : createRegisterSnapDevice _ _ _ = Returns None _ |- _ =>
      destruct (createRegisterSnapDevice_record _ _ _ _ Hc) as (id & Dc);
      destruct (createRegisterSnapDevice_commit _ _ _ _ Hc) as (Tc & _) end.
    exists id. cbn [add_events upd_devices devices] in *.
    rewrite Db in Nh.
    assert (hash <> baseHash) as Hne.
    { intros ->. now rewrite lookup_insert_eq in Nh. }
    rewrite lookup_insert_ne in Nh by done.
    split; [exact Nh|]. split; [exact Hne|]. split.
    + intros b Hb. revert Db.
      match goal with Hl : lookupDevice baseHash ?W = _ |- _ =>
        rewrite (lookupDevice_cached W baseHash b Hb) in Hl; injection Hl as <- <- end.
      done.
    + split; [now rewrite Dc, Dh, Db | now rewrite Tc, Th, Tb].
Qed.

(** ** Waiting for the kernel *)

Lemma count_app f t1 t2 : count f (t1 ++ t2) = (count f t1 + count f t2)%nat.
Proof. unfold count. now rewrite List.filter_app, length_app. Qed.

Lemma waitRemove_loop_bounded devname n : forall i w x w',
  waitRemove_loop n i devname w = Returns x w' ->
  exists t, w' = add_events t w /\
    Forall (fun ev => is_sleep ev = true -> ev = EvSleep 10) t /\
    match x with
    | Return r => r = None /\ (count is_poll t <= n)%nat /\
                  (count is_sleep t < count is_poll t)%nat
    | Next j =>
        j = i + Z.of_nat (count is_sleep t) /\
        (count is_sleep t <= n)%nat /\
        (count is_sleep t = n -> count is_poll t = n) /\
        (count is_sleep t < n -> count is_poll t = S (count is_sleep t))%nat
    end.
Proof.
  induction n as [|n IH]; intros i w x w'; cbn [waitRemove_loop]; intros Hrun.
  { run_inv Hrun. exists []. rewrite add_events_nil. cbn. repeat split; try lia.
    constructor. }
  unfold dm_GetInfo, time_Sleep in Hrun. run_inv Hrun.
  all: try match goal with Hl : waitRemove_loop _ _ _ _ = _ |- _ =>
         apply IH in Hl as (t & -> & Hs & Hx) end.
  all: rewrite ?add_events_app.
  all: eexists; (split; [reflexivity|]).
  all: cbn [app]; unfold count in *; cbn [List.filter is_poll is_sleep length].
  all: split; [repeat constructor; try discriminate; try done|].
  all: try (destruct x as [r|j];
            [destruct Hx as (? & ? & ?) | destruct Hx as (? & ? & ? & ?)];
            repeat split; first [assumption | lia]).
  all: cbn; repeat split; first [reflexivity | lia].
Qed.

Lemma waitRemove_run devname w r w' :
  waitRemove devname w = Returns r w' ->
  exists t, w' = add_events t w /\
    Forall (fun ev => is_sleep ev = true -> ev = EvSleep 10) t /\
    (count is_poll t <= 1000)%nat /\
    (count is_sleep t <= count is_poll t)%nat /\
    match r with
    | Some e =>
        e = Errorf "Timeout while waiting for device %s to be removed" [ArgS devname] /\
        (count is_poll t = 1000)%nat /\ (count is_sleep t = 1000)%nat
    | None => True
    end.
Proof.
  unfold waitRemove. intros Hrun. run_inv Hrun.
  all: match goal with Hl : waitRemove_loop _ _ _ _ = _ |- _ =>
         apply waitRemove_loop_bounded in Hl as (t & -> & Hs & Hx) end.
  all: rewrite ?add_events_app; eexists; (split; [reflexivity|]).
  all: rewrite ?Forall_app, ?Forall_cons, !count_app.
  all: change (count is_poll [EvLog _]) with 0%nat;
       change (count is_sleep [EvLog _]) with 0%nat.
  all: split; [repeat split; try done; try discriminate|].
  1: destruct Hx as (-> & ? & ?); repeat split; lia.
  all: destruct Hx as (Hj & Hn & Hfull & Hpart);
    match goal with
    | E : (_ =? 1000) = true |- _ =>
        apply Z.eqb_eq in E;
        assert (count is_sleep t = 1000%nat) as Hc by lia;
        specialize (Hfull Hc); rewrite ?Hc, ?Hfull; repeat split; lia
    | E : (_ =? 1000) = false |- _ =>
        apply Z.eqb_neq in E;
        assert (count is_sleep t < 1000)%nat as Hc by lia;
        specialize (Hpart Hc); repeat split; lia
    end.
Qed.

(** X9.  [waitRemove] is bounded: it asks for the state of the device
    at most 1000 times and sleeps, 10 ms at a time, no more often than
    it asks; it changes neither the DeviceSet nor any file; and the
    only error it returns is the timeout, after exactly 1000 polls and
    1000 sleeps. *)
Theorem waitRemove_bounded devname w r w' :
  waitRemove devname w = Returns r w' ->
  devices w' = devices w /\ files w' = files w /\
  exists t, trace w' = trace w ++ t /\
    Forall (fun ev => is_sleep ev = true -> ev = EvSleep 10) t /\
    (count is_poll t <= 1000)%nat /\
    (count is_sleep t <= count is_poll t)%nat /\
    match r with
    | Some e =>
        e = Errorf "Timeout while waiting for device %s to be removed" [ArgS devname] /\
        (count is_poll t = 1000)%nat /\ (count is_sleep t = 1000)%nat
    | None => True
    end.
Proof.
  intros Hrun. apply waitRemove_run in Hrun as (t & -> & Ht).
  split; [reflexivity|]. split; [reflexivity|]. exists t. split; [reflexivity|exact Ht].
Qed.
(** ** Status *)

(** X10.  [Status] divides the size of the pool by the number of data
    blocks the pool reports without looking at the divisor: when the
    status line parses and reports 0 data blocks the call panics
    (integer divide by zero).  With a positive number of blocks it
    returns the block size in bytes and the usage figures, computed at
    64 bits; when the status cannot be read the figures stay 0.  It
    changes neither the DeviceSet nor any file. *)
Theorem DeviceSet_Status_figures w st err w1 :
  poolStatus (add_events [EvUdevSyncSupported] w) = Returns (st, err) w1 ->
  match err with
  | None =>
      (dataTotal st = 0 -> DeviceSet_Status w = Stops Panic) /\
      (dataTotal st <> 0 ->
       exists s,
         DeviceSet_Status w = Returns s w1 /\
         let blockSizeInSectors := totalSizeInSectors st / dataTotal st in
         SectorSize s = wrap_uint64 (blockSizeInSectors * 512) /\
         Used (Data s) = wrap_uint64 (wrap_uint64 (dataUsed st * blockSizeInSectors) * 512) /\
         Total (Data s) = wrap_uint64 (wrap_uint64 (dataTotal st * blockSizeInSectors) * 512) /\
         Used (Metadata s) = wrap_uint64 (metadataUsed st * 4096) /\
         Total (Metadata s) = wrap_uint64 (metadataTotal st * 4096) /\
         PoolName s = getPoolName (devices w) /\
         DataFile s = dataDevice (devices w) /\
         MetadataFile s = metadataDevice (devices w))
  | Some _ =>
      exists s,
        DeviceSet_Status w = Returns s w1 /\
        Data s = mkDiskUsage 0 0 /\ Metadata s = mkDiskUsage 0 0 /\ SectorSize s = 0
  end /\
  devices w1 = devices w /\ files w1 = files w.
Proof.
  intros Hpool.
  assert (devices w1 = devices w /\ files w1 = files w) as Hframe.
  { revert Hpool. unfold poolStatus, dm_GetStatus. intros Hrun.
    run_inv Hrun; done. }
  split; [|exact Hframe].
  unfold DeviceSet_Status, DataDevicePath, MetadataDevicePath, uint64_div, uint64_mul.
  exec.
  change (mkWorld (devices w) (files w) (trace w ++ [EvUdevSyncSupported]))
    with (add_events [EvUdevSyncSupported] w).
  rewrite Hpool. destruct err as [e|].
  - eexists. split; [reflexivity|]. done.
  - split.
    + intros ->. reflexivity.
    + intros Hne. apply Z.eqb_neq in Hne. rewrite Hne.
      eexists. split; [reflexivity|]. cbn. done.
Qed.
(** ** What the options set *)

Lemma NewDeviceSet_options_fs options : forall dev found dev' found',
  NewDeviceSet_options options dev found = Ok (dev', found') ->
  mkfsArgs dev' = mkfsArgs dev ++ option_values "dm.mkfsarg" options /\
  filesystem dev' = default (filesystem dev) (last (option_values "dm.fs" options)) /\
  Forall (fun val => val = "ext4" \/ val = "xfs") (option_values "dm.fs" options).
Proof.
  induction options as [|o rest IH]; intros dev found dev' found'.
  { intros [= <- <-]. cbn. now rewrite app_nil_r. }
  cbn [NewDeviceSet_options option_values].
  destruct (ParseKeyValueOpt o) as [[k val]|e]; [|discriminate].
  repeat lazymatch goal with
  | |- (if String.eqb ?key ?lit then _ else _) = _ -> _ =>
      let E := fresh "E" in
      destruct (String.eqb key lit) eqn:E;
      [ apply String.eqb_eq in E; rewrite E; clear E;
        cbn [String.eqb Ascii.eqb Bool.eqb]; cbv iota beta | ]
  end.
  all: intros Hrun.
  all: repeat match type of Hrun with
       | context [match ?x with _ => _ end] =>
           let E := fresh "E" in destruct x eqn:E; try discriminate Hrun
       end.
  all: apply IH in Hrun as (Hm & Hf & Hall).
  all: cbn [mkfsArgs filesystem set_baseFsSize
            set_dataLoopbackSize set_metaDataLoopbackSize set_filesystem set_mkfsArgs
            set_mountOptions set_metadataDevice set_dataDevice set_thinPoolDevice
            set_doBlkDiscard set_thinpBlockSize] in Hm, Hf.
  all: rewrite ?last_cons, ?Forall_cons.
  all: try (rewrite <- app_assoc in Hm; cbn [app] in Hm).
  all: try (split; [exact Hm|]; split; [exact Hf | exact Hall]).
  (* dm.fs *)
  split; [exact Hm|]. split.
  - rewrite Hf. now destruct (last (option_values "dm.fs" rest)).
  - split; [|exact Hall].
    match goal with E : (negb (String.eqb val "ext4") && _) = false |- _ =>
      apply andb_false_iff in E as [E|E]; apply negb_false_iff, String.eqb_eq in E end;
      auto.
Qed.

(** X11.  A DeviceSet that [NewDeviceSet] returns is rooted where it
    was asked to be, hands to [mkfs] the values of the [dm.mkfsarg]
    options in the order they were given, and has the file system of
    the last [dm.fs] option, [ext4] without one; that is [ext4] or
    [xfs], so that [createFilesystem] on it always gets as far as
    running [mkfs.ext4] or [mkfs.xfs]. *)
Theorem NewDeviceSet_configuration dir doInit options w d w' :
  NewDeviceSet dir doInit options w = Returns (Ok d) w' ->
  root d = dir /\
  mkfsArgs d = option_values "dm.mkfsarg" options /\
  filesystem d = default "ext4" (last (option_values "dm.fs" options)) /\
  (filesystem d = "ext4" \/ filesystem d = "xfs") /\
  forall info w2 r w3,
    filesystem (devices w2) = filesystem d ->
    createFilesystem info w2 = Returns r w3 ->
    exists name args t,
      trace w3 = (trace w2 ++ EvExec name args :: t)%list /\
      (name = "mkfs.ext4" \/ name = "mkfs.xfs").
Proof.
  unfold NewDeviceSet. intros Hrun. run_inv Hrun.
  match goal with Hi : initDevmapper _ _ = Returns None _ |- _ =>
    pose proof (initDevmapper_options _ _ _ _ Hi) as Hsame end.
  unfold same, options_of in Hsame. cbn [upd_devices devices] in Hsame.
  injection Hsame as Hroot _ _ _ Hfs _ Hargs _ _ _.
  match goal with Ho : NewDeviceSet_options _ _ _ = Ok _ |- _ =>
    pose proof (NewDeviceSet_options_spec _ _ _ _ _ Ho) as (_ & _ & _ & _ & Hr);
    apply NewDeviceSet_options_fs in Ho as (Hm & Hf & Hall) end.
  cbn [NewDeviceSet_literal mkfsArgs filesystem root app] in Hm, Hf, Hr.
  assert (forall (b : bool) x, root (if b then set_doBlkDiscard false x else x)
                               = root x) as Er by (now intros []).
  assert (forall (b : bool) x, filesystem (if b then set_doBlkDiscard false x else x)
                               = filesystem x) as Ef by (now intros []).
  assert (forall (b : bool) x, mkfsArgs (if b then set_doBlkDiscard false x else x)
                               = mkfsArgs x) as Em by (now intros []).
  rewrite Er in Hroot. rewrite Ef in Hfs. rewrite Em in Hargs.
  assert (filesystem (devices w') = "ext4" \/ filesystem (devices w') = "xfs") as Hsup.
  { rewrite Hfs, Hf. destruct (last (option_values "dm.fs" options)) as [val|] eqn:El;
      [|now left]. cbn. apply last_Some_elem_of in El.
    rewrite Forall_forall in Hall. now apply Hall. }
  split; [congruence|]. split; [congruence|]. split; [congruence|]. split; [exact Hsup|].
  intros info w2 r w3 Hfs2 Hrun2. revert Hrun2.
  unfold createFilesystem, exec_Run. intros Hrun2.
  destruct Hsup as [Hs|Hs]; rewrite Hs in Hfs2; run_inv Hrun2;
    rewrite Hfs2 in *; try discriminate.
  all: cbn [add_events trace]; rewrite <- ?app_assoc; cbn [app].
  all: eexists _, _, _; split; [reflexivity|auto].
Qed.
(** ** Nothing writes the options *)

Lemma AddDevice_options hash baseHash : steps (same options_of) (AddDevice hash baseHash).
Proof.
  unfold AddDevice.
  repeat first [apply log_options | apply lookupDevice_options
               | apply createRegisterSnapDevice_options | steps_step].
Qed.

(** X12.  The options are read once: whatever [NewDeviceSet] has made
    of them - the root, the loopback sizes, the base size, the file
    system and its [mkfs] and mount options, the discard switch, the
    block size, the thin pool - no later call changes, whichever way
    it ends: not the set-up of the pool and of the base image, not
    adding, deleting, mounting or unmounting a device. *)
Theorem options_never_change w w' :
  (forall doInit r, initDevmapper doInit w = Returns r w' ->
     options_of (devices w') = options_of (devices w)) /\
  (forall r, setupBaseImage w = Returns r w' ->
     options_of (devices w') = options_of (devices w)) /\
  (forall hash baseHash r, AddDevice hash baseHash w = Returns r w' ->
     options_of (devices w') = options_of (devices w)) /\
  (forall hash r, DeleteDevice hash w = Returns r w' ->
     options_of (devices w') = options_of (devices w)) /\
  (forall hash path mountLabel r, MountDevice hash path mountLabel w = Returns r w' ->
     options_of (devices w') = options_of (devices w)) /\
  (forall hash r, UnmountDevice hash w = Returns r w' ->
     options_of (devices w') = options_of (devices w)).
Proof.
  repeat split; intros.
  - eapply initDevmapper_options; eauto.
  - eapply setupBaseImage_options; eauto.
  - eapply AddDevice_options; eauto.
  - eapply DeleteDevice_options; eauto.
  - eapply MountDevice_options; eauto.
  - eapply UnmountDevice_options; eauto.
Qed.

(** ** Deleting a device *)

Lemma io_only_same {A} P (m : M A) w a w' :
  io_only P m -> m w = Returns a w' ->
  devices w' = devices w /\ files w' = files w.
Proof.
  intros Hio Hrun. destruct (io_only_Returns _ _ _ _ _ Hio Hrun) as (t & -> & _).
  now split.
Qed.

Lemma deleteDevice_run w info r w' :
  bitmap_ok w -> valid_id (DeviceId info) ->
  deleteDevice info w = Returns r w' ->
  match r with
  | None =>
      Devices (devices w') = delete (Hash info) (Devices (devices w)) /\
      files w' !! metadataFile (devices w) (Hash info) = None /\
      deviceIdMap (devices w') = clear_bit (deviceIdMap (devices w)) (DeviceId info)
  | Some _ => deviceIdMap (devices w') = deviceIdMap (devices w)
  end.
Proof.
  intros Hok Hv. unfold deleteDevice, dm_GetInfo. intros Hrun. run_inv Hrun.
  all: repeat match goal with
       | Hx : activateDeviceIfNeeded _ _ = Returns _ _ |- _ =>
           apply (io_only_Returns _ _ _ _ _ (activateDeviceIfNeeded_io "" _)) in Hx;
           destruct Hx as (? & -> & _)
       | Hx : removeDeviceAndWait _ _ = Returns _ _ |- _ =>
           apply (io_only_Returns _ _ _ _ _ (removeDeviceAndWait_io _)) in Hx;
           destruct Hx as (? & -> & _)
       | Hx : openTransaction _ _ _ = Returns (Some _) _ |- _ =>
           apply openTransaction_quiet in Hx; destruct Hx as [Hx _]
       | Hx : openTransaction _ _ _ = Returns None _ |- _ =>
           pose proof (openTransaction_quiet _ _ _ _ _ Hx) as [? _];
           apply openTransaction_run in Hx; destruct Hx as (_ & _ & ? & ? & _)
       | Hx : unregisterDevice _ _ _ = Returns _ _ |- _ =>
           pose proof (unregisterDevice_quiet _ _ _ _ _ Hx) as [? _];
           apply unregisterDevice_run in Hx; destruct Hx as [? ?]
       | Hx : closeTransaction _ = Returns (Some _) _ |- _ =>
           apply closeTransaction_quiet in Hx; destruct Hx as [Hx _]
       | Hx : closeTransaction _ = Returns None _ |- _ =>
           apply closeTransaction_run in Hx; destruct Hx as (_ & ->)
       end.
  all: unfold same in *;
    cbn [add_events upd_devices devices files deviceIdMap Devices root] in *.
  all: try congruence.
  all: match goal with Hx : markDeviceIdFree _ _ = Returns _ _ |- _ =>
         pose proof (kept_Devices _ _ _ (markDeviceIdFree_kept "" _ _ _ _ Hx)) as Hd;
         cbn [add_events upd_devices devices Devices set_TransactionId] in Hd;
         apply markDeviceIdFree_free in Hx;
           [destruct Hx as (Hf & _ & _ & Hm)
           | unfold bitmap_ok in *;
             cbn [add_events upd_devices devices deviceIdMap set_TransactionId];
             congruence
           | exact Hv] end.
  all: split; [|split].
  all: cbn [add_events upd_devices devices files deviceIdMap Devices root
            set_TransactionId is_nil] in *.
  all: try congruence.
  all: try (rewrite Hm; f_equal; congruence).
  all: try (rewrite Hf; match goal with Hx : files _ = delete _ _ |- _ => rewrite Hx end;
            unfold metadataFile, metadataDir;
            match goal with Hx : root _ = root _ |- _ => rewrite Hx end;
            apply lookup_delete_eq).
Qed.

Lemma HasDevice_missing w hash :
  Devices (devices w) !! hash = None ->
  files w !! metadataFile (devices w) hash = None ->
  HasDevice hash w =
    Returns false (add_events [EvReadFile (metadataFile (devices w) hash)] w).
Proof.
  intros Hd Hf. unfold HasDevice, lookupDevice, loadMetadata, ioutil_ReadFile.
  exec. rewrite Hd. exec. cbn [add_events]. destruct (env_err _); exec; [done|].
  now rewrite Hf.
Qed.

(** X13.  Deleting a device the registry holds.  When [DeleteDevice]
    returns nil the record is out of the registry and no other record
    has changed, the metadata file of the hash is gone, the bit of the
    device id is cleared and no other bit has changed, and
    [HasDevice] no longer finds the hash.  When it returns an error
    the bitmap is as it was: the id of a device whose deletion failed
    is never handed out again, at whichever step it failed. *)
Theorem DeleteDevice_outcomes w hash info r w' :
  bitmap_ok w -> valid_id (DeviceId info) ->
  Devices (devices w) !! hash = Some info -> Hash info = hash ->
  DeleteDevice hash w = Returns r w' ->
  match r with
  | None =>
      Devices (devices w') = delete hash (Devices (devices w)) /\
      files w' !! metadataFile (devices w) hash = None /\
      deviceIdMap (devices w') = clear_bit (deviceIdMap (devices w)) (DeviceId info) /\
      bit_of (deviceIdMap (devices w')) (DeviceId info) = false /\
      exists w2, HasDevice hash w' = Returns false w2
  | Some _ => deviceIdMap (devices w') = deviceIdMap (devices w)
  end.
Proof.
  intros Hok Hv Hin Hh. unfold DeleteDevice.
  rewrite (bind_run _ _ _ _ _ (lookupDevice_cached _ _ _ Hin)). intros Hrun.
  pose proof (deleteDevice_options _ _ _ _ Hrun) as Ho.
  apply deleteDevice_run in Hrun; [|done..].
  destruct r as [e|]; [exact Hrun|]. rewrite Hh in Hrun.
  destruct Hrun as (Hd & Hf & Hm). repeat split; try done.
  - rewrite Hm, bit_of_clear_bit by done. rewrite Z.eqb_refl. apply andb_false_r.
  - assert (metadataFile (devices w') hash = metadataFile (devices w) hash) as Ep.
    { unfold same, options_of in Ho. injection Ho as Hr _.
      unfold metadataFile, metadataDir. now rewrite Hr. }
    eexists. apply HasDevice_missing.
    + rewrite Hd. apply lookup_delete_eq.
    + now rewrite Ep.
Qed.

(** ** Removing a device *)

Lemma removeDeviceAndWait_loop_run devname n : forall err w x w',
  removeDeviceAndWait_loop n err devname w = Returns x w' ->
  exists k : nat, (k <= n)%nat /\
    match x with
    | Return r =>
        (k < n)%nat /\
        w' = add_events (concat (replicate k [EvRemoveDevice devname; EvSleep 10])
                           ++ [EvRemoveDevice devname]) w /\
        exists e, r = Some e /\ is_ErrBusy e = false /\
          env_err (trace w ++ concat (replicate k [EvRemoveDevice devname; EvSleep 10])
                     ++ [EvRemoveDevice devname]) = Some e
    | Next None =>
        ((k < n)%nat /\
         w' = add_events (concat (replicate k [EvRemoveDevice devname; EvSleep 10])
                            ++ [EvRemoveDevice devname]) w /\
         env_err (trace w ++ concat (replicate k [EvRemoveDevice devname; EvSleep 10])
                    ++ [EvRemoveDevice devname]) = None) \/
        (n = 0%nat /\ err = None /\ w' = w)
    | Next (Some e) =>
        k = n /\
        w' = add_events (concat (replicate k [EvRemoveDevice devname; EvSleep 10])) w /\
        ((n = 0%nat /\ err = Some e) \/ is_ErrBusy e = true)
    end.
Proof.
  induction n as [|n IH]; intros err w x w'; cbn [removeDeviceAndWait_loop]; intros Hrun.
  { run_inv Hrun. exists 0%nat. split; [lia|]. destruct err; cbn.
    - rewrite add_events_nil. auto.
    - right. auto. }
  unfold time_Sleep in Hrun. run_inv Hrun.
  - (* another error: returned at once *)
    exists 0%nat. split; [lia|]. cbn. split; [lia|]. split; [done|].
    eexists. split; [done|]. split; [|done].
    match goal with Hb : negb _ = true |- _ => now apply negb_true_iff in Hb end.
  - (* a busy answer: one more round *)
    match goal with Hl : removeDeviceAndWait_loop _ _ _ _ = _ |- _ =>
      apply IH in Hl as (k & Hk & Hx) end.
    exists (S k). split; [lia|].
    cbn [replicate concat app add_events trace] in *.
    rewrite <- !app_assoc in Hx. cbn [app] in Hx.
    destruct x as [r|[e'|]].
    + destruct Hx as (? & -> & e' & -> & ? & ?). split; [lia|].
      split; [unfold add_events; cbn; now rewrite <- !app_assoc|]. eauto.
    + destruct Hx as (-> & -> & Hx). split; [done|].
      split; [unfold add_events; cbn; now rewrite <- !app_assoc|].
      right. destruct Hx as [[? ?]|?]; [|done].
      match goal with Hb : negb _ = false |- _ => apply negb_false_iff in Hb end.
      congruence.
    + destruct Hx as [(? & -> & ?)|(-> & ? & ->)]; [|discriminate].
      left. split; [lia|].
      split; [unfold add_events; cbn; now rewrite <- !app_assoc|]. done.
  - (* removed *)
    exists 0%nat. split; [lia|]. cbn. left. split; [lia|]. done.
Qed.

(** X14.  [removeDeviceAndWait] asks for the removal at most 1000
    times, sleeping 10 ms after each busy answer.  After 1000 busy
    answers it gives up with the busy error.  Any other error ends it
    at once and is returned as it is.  Only after a removal that was
    answered nil does it wait, once, with [waitRemove], whose result it
    then returns.  The DeviceSet and the files stay as they are. *)
Theorem removeDeviceAndWait_bounded devname w r w' :
  removeDeviceAndWait devname w = Returns r w' ->
  devices w' = devices w /\ files w' = files w /\
  exists k : nat, (k <= 1000)%nat /\
    if (k =? 1000)%nat then
      w' = add_events (concat (replicate k [EvRemoveDevice devname; EvSleep 10])) w /\
      exists e, r = Some e /\ is_ErrBusy e = true
    else
      match env_err (trace w ++ concat (replicate k [EvRemoveDevice devname; EvSleep 10])
                       ++ [EvRemoveDevice devname]) with
      | Some e =>
          is_ErrBusy e = false /\ r = Some e /\
          w' = add_events (concat (replicate k [EvRemoveDevice devname; EvSleep 10])
                             ++ [EvRemoveDevice devname]) w
      | None =>
          waitRemove devname
            (add_events (concat (replicate k [EvRemoveDevice devname; EvSleep 10])
                           ++ [EvRemoveDevice devname]) w) = Returns r w'
      end.
Proof.
  intros Hrun.
  destruct (io_only_same _ _ _ _ _ (removeDeviceAndWait_io devname) Hrun) as [Hd Hf].
  split; [exact Hd|]. split; [exact Hf|]. clear Hd Hf.
  unfold removeDeviceAndWait in Hrun. apply bind_Returns in Hrun as (x & w1 & Hl & Hk).
  apply removeDeviceAndWait_loop_run in Hl as (k & Hle & Hx). exists k. split; [exact Hle|].
  destruct x as [r1|[e|]].
  - destruct Hx as (Hlt & -> & e & -> & Hb & He). run_inv Hk.
    apply Nat.lt_neq, Nat.eqb_neq in Hlt. rewrite Hlt, He. done.
  - destruct Hx as (-> & -> & [[? ?]|Hb]); [discriminate|]. run_inv Hk.
    rewrite Nat.eqb_refl. eauto.
  - destruct Hx as [(Hlt & -> & He)|(? & _)]; [|discriminate].
    apply Nat.lt_neq, Nat.eqb_neq in Hlt. rewrite Hlt, He.
    apply bind_Returns in Hk as (r1 & w2 & Hw & Hk). rewrite Hw.
    destruct r1; run_inv Hk; done.
Qed.

(** ** The base image, once set up *)

Lemma setupBaseImage_initialized w info :
  Devices (devices w) !! "" = Some info -> Initialized info = true ->
  setupBaseImage w = Returns None w.
Proof.
  intros Hin Hi. unfold setupBaseImage.
  rewrite (bind_run _ _ _ _ _ (lookupDevice_cached _ _ _ Hin)).
  cbv beta iota. rewrite Hi. reflexivity.
Qed.

Lemma saveMetadata_devices info w r w' :
  saveMetadata info w = Returns r w' -> devices w' = devices w.
Proof.
  unfold saveMetadata. intros Hrun. run_inv Hrun; try done.
  all: match goal with Hw : writeMetaFile _ _ _ = Returns _ _ |- _ =>
         now destruct (writeMetaFile_run _ _ _ _ _ Hw) as (Hd & _) end.
Qed.

(** X15.  Setting up the base image is idempotent.  When
    [setupBaseImage] returns nil the registry holds the base record,
    under the empty hash, marked as initialized; a second call then
    returns nil at once: it creates nothing, asks the pool nothing and
    leaves the world, history included, as the first call left it. *)
Theorem setupBaseImage_idempotent w w1 :
  setupBaseImage w = Returns None w1 ->
  (exists info, Devices (devices w1) !! "" = Some info /\ Initialized info = true) /\
  setupBaseImage w1 = Returns None w1.
Proof.
  intros Hrun.
  assert (exists info, Devices (devices w1) !! "" = Some info /\ Initialized info = true)
    as Hbase.
  { unfold setupBaseImage in Hrun. run_inv Hrun.
    all: try match goal with Hs : saveMetadata _ _ = Returns _ _ |- _ =>
           apply saveMetadata_devices in Hs; rewrite Hs end.
    all: try (eexists; split; [apply with_info_lookup | reflexivity]).
    match goal with E : match ?a with Ok _ => _ | Err _ => _ end = Some _ |- _ =>
      destruct a; [injection E as ->|discriminate E] end.
    match goal with Hl : lookupDevice _ _ = Returns (Ok ?i) _ |- _ =>
      apply lookupDevice_run in Hl as (_ & Hl); exists i; rewrite Hl;
      split; [apply lookup_insert_eq | assumption] end. }
  split; [exact Hbase|]. destruct Hbase as (info & Hin & Hi).
  now apply (setupBaseImage_initialized _ info).
Qed.

(** ** Listing the registry *)

(** X16.  [List] returns the hashes the registry holds, each once, and
    changes nothing.  The registry is a cache: a device that is known
    only by its metadata file is not listed until a lookup has loaded
    it, and is listed from then on. *)
Theorem List_lists_registry w :
  exists l, List w = Returns l w /\ NoDup l /\
    (forall hash, (hash ∈ l) <-> is_Some (Devices (devices w) !! hash)) /\
    forall hash info w1,
      Devices (devices w) !! hash = None ->
      lookupDevice hash w = Returns (Ok info) w1 ->
      (hash ∉ l) /\ exists l1, List w1 = Returns l1 w1 /\ hash ∈ l1.
Proof.
  assert (forall w0 hash, (hash ∈ map fst (map_to_list (Devices (devices w0)))) <->
                          is_Some (Devices (devices w0) !! hash)) as Hin.
  { intros w0 hash. rewrite list_elem_of_fmap. split.
    - intros ([h i] & -> & Hi). apply elem_of_map_to_list in Hi. cbn. eauto.
    - intros [i Hi]. exists (hash, i). split; [done|]. now apply elem_of_map_to_list. }
  eexists. split; [reflexivity|]. split; [apply NoDup_fst_map_to_list|].
  split; [apply Hin|]. intros hash info w1 Hnone Hl. split.
  - rewrite Hin, Hnone. now intros [? ?].
  - eexists. split; [reflexivity|]. rewrite Hin.
    apply lookupDevice_run in Hl as (_ & ->). rewrite lookup_insert_eq. eauto.
Qed.

(** ** Device numbers *)

Lemma testbit_32 device n :
  0 <= device < 2 ^ 32 -> 32 <= n -> Z.testbit device n = false.
Proof.
  intros Hd Hn. destruct (Z.eq_dec device 0) as [->|Hne]; [apply Z.bits_0|].
  apply Z.bits_above_log2; [lia|].
  assert (Z.log2 device < 32) by (apply Z.log2_lt_pow2; lia). lia.
Qed.

Ltac bits_norm :=
  repeat first
    [ rewrite Z.lor_spec | rewrite Z.land_spec
    | rewrite Z.shiftl_spec by lia | rewrite Z.shiftr_spec by lia
    | rewrite Z.testbit_ones_nonneg by lia ].

Ltac bool_arith :=
  repeat match goal with
  | |- context [?a <=? ?b] =>
      first [replace (a <=? b) with true by (symmetry; apply Z.leb_le; lia)
            |replace (a <=? b) with false by (symmetry; apply Z.leb_gt; lia)]
  | |- context [?a <? ?b] =>
      first [replace (a <? b) with true by (symmetry; apply Z.ltb_lt; lia)
            |replace (a <? b) with false by (symmetry; apply Z.ltb_ge; lia)]
  end.

(** X17.  [major] and [minor] split a device number of 32 bits without
    loss: bits 8 to 19 are the major number, which is below 4096; bits
    0 to 7 and 20 to 31 are the minor number, which is below 2^20; and
    the device number is put together again from the two.  So two
    devices with the same major and minor numbers are the same. *)
Theorem major_minor_split device :
  0 <= device < 2 ^ 32 ->
  0 <= major device < 2 ^ 12 /\ 0 <= minor device < 2 ^ 20 /\
  Z.lor (Z.land (minor device) 0xff)
    (Z.lor (Z.shiftl (major device) 8)
       (Z.shiftl (Z.shiftr (minor device) 8) 20)) = device /\
  forall device', 0 <= device' < 2 ^ 32 ->
    major device' = major device -> minor device' = minor device -> device' = device.
Proof.
  assert (forall d, 0 <= d < 2 ^ 32 ->
    Z.lor (Z.land (minor d) 0xff)
      (Z.lor (Z.shiftl (major d) 8) (Z.shiftl (Z.shiftr (minor d) 8) 20)) = d) as Hback.
  { intros d Hd. unfold major, minor.
    change 0xff with (Z.ones 8). change 0xfff with (Z.ones 12).
    change 0xfff00 with (Z.shiftl (Z.ones 12) 8).
    apply Z.bits_inj'. intros n Hn.
    destruct (Z.lt_ge_cases n 8) as [H8|H8]; [|
    destruct (Z.lt_ge_cases n 20) as [H20|H20]; [|
    destruct (Z.lt_ge_cases n 32) as [H32|H32]]].
    all: bits_norm; bool_arith.
    all: rewrite ?(Z.testbit_neg_r _ (n - 8)), ?(Z.testbit_neg_r _ (n - 20)) by lia.
    all: rewrite ?andb_true_r, ?andb_false_r, ?orb_false_r, ?orb_false_l.
    all: try reflexivity.
    - f_equal. lia.
    - f_equal. lia.
    - symmetry. now apply testbit_32. }
  intros Hd. split; [|split; [|split]].
  - unfold major. change 0xfff with (Z.ones 12). rewrite Z.land_ones by lia.
    apply Z.mod_pos_bound. lia.
  - unfold minor. split.
    + apply Z.lor_nonneg. split; apply Z.land_nonneg; right; lia.
    + assert (forall a, 0 <= a -> a < 2 ^ 20 <-> forall n, 20 <= n -> Z.testbit a n = false)
        as Hlt.
      { intros a Ha. split.
        - intros Hlt n Hn. destruct (Z.eq_dec a 0) as [->|Hne]; [apply Z.bits_0|].
          apply Z.bits_above_log2; [lia|].
          assert (Z.log2 a < 20) by (apply Z.log2_lt_pow2; lia). lia.
        - intros Hb. destruct (Z.eq_dec a 0) as [->|Hne]; [lia|].
          apply Z.log2_lt_pow2; [lia|].
          destruct (Z.lt_ge_cases (Z.log2 a) 20) as [|Hge]; [done|].
          specialize (Hb (Z.log2 a) Hge). rewrite Z.bit_log2 in Hb by lia. discriminate. }
      apply Hlt; [apply Z.lor_nonneg; split; apply Z.land_nonneg; right; lia|].
      intros n Hn. rewrite Z.lor_spec, !Z.land_spec.
      change 0xff with (Z.ones 8). change 0xfff00 with (Z.shiftl (Z.ones 12) 8).
      bits_norm; bool_arith. now rewrite !andb_false_r.
  - now apply Hback.
  - intros d' Hd' Hmaj Hmin.
    rewrite <- (Hback d' Hd'), <- (Hback device Hd). now rewrite Hmaj, Hmin.
Qed.

(** ** Migrating the old metadata file *)

Lemma append_neq (s t : string) : t <> "" -> (s ++ t)%string <> s.
Proof.
  intros Ht. induction s as [|c s IH]; cbn; [exact Ht|].
  intros [= E]. now apply IH.
Qed.

Lemma migrateOldMetaData_loop_run entries : forall w u w',
  migrateOldMetaData_loop entries w = Returns u w' ->
  devices w' = devices w /\
  forall p, is_Some (files w !! p) -> is_Some (files w' !! p).
Proof.
  induction entries as [|[hash [[[deviceId size] transactionId] initialized]] rest IH];
    intros w u w'; cbn [migrateOldMetaData_loop]; intros Hrun.
  { run_inv Hrun. done. }
  apply bind_Returns in Hrun as (r & w1 & Hs & Hrun).
  apply IH in Hrun as (Hd & Hf). unfold saveMetadata in Hs. run_inv Hs.
  all: try match goal with Hw : writeMetaFile _ _ _ = Returns _ _ |- _ =>
         destruct (writeMetaFile_run _ _ _ _ _ Hw) as (Hd1 & Hf1 & _) end.
  all: split; [congruence|]; auto.
Qed.

(** X18.  The old metadata file is migrated once.  When the file is
    there and is read, and [migrateOldMetaData] returns nil, the file
    is no longer under its name (it has been renamed, whether or not
    every record could be saved, for the result of [saveMetadata] is
    not looked at); the DeviceSet is as it was.  A later call that
    finds the files so reads the old name, finds nothing, and returns
    nil without doing anything else. *)
Theorem migrateOldMetaData_once w w1 :
  is_Some (files w !! oldMetadataFile (devices w)) ->
  env_err (trace w ++ [EvReadFile (oldMetadataFile (devices w))]) = None ->
  migrateOldMetaData w = Returns None w1 ->
  devices w1 = devices w /\
  files w1 !! oldMetadataFile (devices w) = None /\
  forall w2,
    files w2 = files w1 -> root (devices w2) = root (devices w) ->
    env_err (trace w2 ++ [EvReadFile (oldMetadataFile (devices w))]) = None ->
    migrateOldMetaData w2 =
      Returns None (add_events [EvReadFile (oldMetadataFile (devices w))] w2).
Proof.
  intros [data Hold] Hread Hrun.
  assert (devices w1 = devices w /\ files w1 !! oldMetadataFile (devices w) = None)
    as [Hd Hgone].
  { unfold migrateOldMetaData, ioutil_ReadFile, os_Rename in Hrun.
    run_inv Hrun; cbn [add_events trace files devices] in *; try congruence.
    match goal with Hl : migrateOldMetaData_loop _ _ = Returns _ _ |- _ =>
      apply migrateOldMetaData_loop_run in Hl as (Hd & Hf) end.
    split; [exact Hd|].
    rewrite lookup_insert_ne by (now apply append_neq). apply lookup_delete_eq. }
  split; [exact Hd|]. split; [exact Hgone|].
  intros w2 Hf2 Hr2 Hread2.
  assert (oldMetadataFile (devices w2) = oldMetadataFile (devices w)) as Ep.
  { unfold oldMetadataFile, loopbackDir. now rewrite Hr2. }
  unfold migrateOldMetaData, ioutil_ReadFile, bind, get_devices, emit, get_files, ret.
  cbn [add_events trace files devices]. rewrite !Ep, Hread2.
  cbn [add_events trace files devices]. rewrite <- Hf2 in Hgone. rewrite Hgone.
  reflexivity.
Qed.

(** ** Loopback images *)

(** X19.  [ensureImage] never truncates an image that is there: it
    sets the size of the file only after [os.Stat] has answered that
    there is no such file, and then to the size it was given.  A file
    it has opened it closes before it returns, whether or not the
    truncation succeeded; when the open itself failed it returns that
    error.  When it returns a path, it is [<root>/devicemapper/<name>].
    It changes neither the DeviceSet nor the metadata files. *)
Theorem ensureImage_creates_only_missing name size w r w' :
  ensureImage name size w = Returns r w' ->
  devices w' = devices w /\ files w' = files w /\
  (forall p, r = Ok p -> p = path_Join (loopbackDir (devices w)) name) /\
  exists t, trace w' = trace w ++ t /\
    (forall f s, In (EvTruncate f s) t ->
       f = path_Join (loopbackDir (devices w)) name /\ s = size /\
       exists e,
         env_err (trace w ++ [EvMkdirAll (loopbackDir (devices w)) 448;
                              EvStat (path_Join (loopbackDir (devices w)) name)])
           = Some e /\
         os_IsNotExist e = true) /\
    (forall f flag perm, In (EvOpenFile f flag perm) t ->
       f = path_Join (loopbackDir (devices w)) name /\
       (In (EvClose f) t \/
        (exists e, r = Err e) /\ forall f' s, ~ In (EvTruncate f' s) t)).
Proof.
  unfold ensureImage, os_Stat, file_Close. intros Hrun. run_inv Hrun.
  all: cbn [add_events devices files trace snd] in *.
  all: split; [reflexivity|]; split; [reflexivity|].
  all: split; [intros p [= <-]; reflexivity || intros p; discriminate|].
  all: rewrite <- ?app_assoc in *; cbn [app] in *.
  all: eexists; split; [reflexivity|].
  all: split; [intros f s Hin|intros f flag perm Hin].
  all: repeat (destruct Hin as [Hin|Hin]; [try discriminate Hin|]); try (now destruct Hin).
  all: try (injection Hin as <- <-).
  all: try (injection Hin as <- <- <-).
  all: try match goal with E : negb (os_IsNotExist _) = false |- _ =>
         apply negb_false_iff in E end.
  all: try (split; [reflexivity|]; split; [reflexivity|]; eexists; split; eassumption).
  all: split; [reflexivity|].
  all: try (left; cbn; tauto).
  all: right; split; [eauto|]; intros f' s Hin;
       repeat (destruct Hin as [Hin|Hin]; [discriminate Hin|]); now destruct Hin.
Qed.

(** ** The metadata of the DeviceSet itself *)

(** X20.  What [saveDeviceSetMetaData] has written, a later
    [loadDeviceSetMetaData] reads: after a save that returned nil, a
    load under the same root that finds the files as the save left
    them, and whose read is not failed by the system, decodes exactly
    the bytes that [NextDeviceId] was encoded to, stores the number
    decoded and returns the decoder's error. *)
Theorem deviceSetMetaData_round_trip w data w1 w2 :
  json_Marshal_DeviceSet (NextDeviceId (devices w)) = Ok data ->
  saveDeviceSetMetaData w = Returns None w1 ->
  files w2 = files w1 -> root (devices w2) = root (devices w) ->
  env_err (trace w2 ++ [EvReadFile (DeviceSet_deviceSetMetaFile (devices w))]) = None ->
  files w1 !! DeviceSet_deviceSetMetaFile (devices w) = Some data /\
  loadDeviceSetMetaData w2 =
    Returns (json_Unmarshal_DeviceSet data (NextDeviceId (devices w2))).2
      (upd_devices
         (set_NextDeviceId (json_Unmarshal_DeviceSet data (NextDeviceId (devices w2))).1)
         (add_events [EvReadFile (DeviceSet_deviceSetMetaFile (devices w))] w2)).
Proof.
  intros Hm Hsave Hf Hr Hread.
  assert (files w1 !! DeviceSet_deviceSetMetaFile (devices w) = Some data) as Hfile.
  { unfold saveDeviceSetMetaData, bind, get_devices in Hsave. rewrite Hm in Hsave.
    now destruct (writeMetaFile_run _ _ _ _ _ Hsave) as (_ & _ & ->). }
  split; [exact Hfile|].
  assert (DeviceSet_deviceSetMetaFile (devices w2) = DeviceSet_deviceSetMetaFile (devices w))
    as Ep.
  { unfold DeviceSet_deviceSetMetaFile, metadataDir. now rewrite Hr. }
  rewrite <- Hf in Hfile.
  unfold loadDeviceSetMetaData, ioutil_ReadFile, bind, get_devices, emit, get_files, ret,
    modify_devices.
  cbn [add_events trace files devices]. rewrite !Ep, Hread.
  cbn [add_events trace files devices]. rewrite Hfile.
  destruct (json_Unmarshal_DeviceSet data (NextDeviceId (devices w2))) as [n err].
  reflexivity.
Qed.

(** ** Options that are refused *)

Lemma NewDeviceSet_options_bad option key val options :
  In option options ->
  ParseKeyValueOpt option = Ok (key, val) ->
  ~ In (strings_ToLower key)
      ["dm.basesize"; "dm.loopdatasize"; "dm.loopmetadatasize"; "dm.fs";
       "dm.mkfsarg"; "dm.mountopt"; "dm.metadatadev"; "dm.datadev";
       "dm.thinpooldev"; "dm.blkdiscard"; "dm.blocksize"] \/
  (strings_ToLower key = "dm.fs" /\ val <> "ext4" /\ val <> "xfs") ->
  forall devices found, exists e, NewDeviceSet_options options devices found = Err e.
Proof.
  intros Hin Hparse Hbad. induction options as [|o rest IH]; [destruct Hin|].
  intros devices found. cbn [NewDeviceSet_options].
  destruct Hin as [->|Hin].
  - rewrite Hparse. destruct Hbad as [Hun|(Hfs & H4 & Hx)].
    + repeat match goal with
        | |- context [String.eqb ?a ?b] =>
            destruct (String.eqb_spec a b) as [Heq|_];
              [exfalso; apply Hun; rewrite Heq; cbn; tauto|]
        end.
      eauto.
    + rewrite Hfs. cbn [String.eqb Ascii.eqb Bool.eqb andb negb].
      cbv iota.
      destruct (String.eqb_spec val "ext4") as [|_]; [done|].
      destruct (String.eqb_spec val "xfs") as [|_]; [done|]. cbn. eauto.
  - specialize (IH Hin).
    repeat match goal with
      | |- exists e, Err _ = Err e => eauto
      | |- exists e, NewDeviceSet_options rest _ _ = Err e => apply IH
      | |- exists e, match ?x with _ => _ end = Err e => destruct x
      | |- exists e, (if ?x then _ else _) = Err e => destruct x
      | |- exists e, (let (_, _) := ?x in _) = Err e => destruct x
      end.
Qed.

(** X21.  An option [NewDeviceSet] does not know, or a [dm.fs] other
    than [ext4] and [xfs], anywhere among the options, makes it return
    an error before it has touched the system: the device directory is
    set, and nothing else has happened; the DeviceSet of the world is
    the one that was there, and [initDevmapper] has not run. *)
Theorem NewDeviceSet_refuses_option dir doInit option key val options w :
  In option options ->
  ParseKeyValueOpt option = Ok (key, val) ->
  ~ In (strings_ToLower key)
      ["dm.basesize"; "dm.loopdatasize"; "dm.loopmetadatasize"; "dm.fs";
       "dm.mkfsarg"; "dm.mountopt"; "dm.metadatadev"; "dm.datadev";
       "dm.thinpooldev"; "dm.blkdiscard"; "dm.blocksize"] \/
  (strings_ToLower key = "dm.fs" /\ val <> "ext4" /\ val <> "xfs") ->
  exists e,
    NewDeviceSet dir doInit options w = Returns (Err e) (add_events [EvSetDevDir "/dev"] w).
Proof.
  intros Hin Hparse Hbad.
  destruct (NewDeviceSet_options_bad _ _ _ _ Hin Hparse Hbad (NewDeviceSet_literal dir) false)
    as [e He].
  exists e. unfold NewDeviceSet, bind, emit. rewrite He. reflexivity.
Qed.

(** ** Waiting for a device to close *)

Lemma waitClose_loop_bounded name n : forall i w x w',
  waitClose_loop n i name w = Returns x w' ->
  exists t, w' = add_events t w /\
    Forall (fun ev => is_sleep ev = true -> ev = EvSleep 10) t /\
    match x with
    | Return r =>
        r = env_err (trace w') /\ r <> None /\ last t = Some (EvGetInfo name) /\
        (count is_poll t <= n)%nat /\
        (count is_sleep t < count is_poll t)%nat
    | Next j =>
        j = i + Z.of_nat (count is_sleep t) /\
        (count is_sleep t <= n)%nat /\
        (count is_sleep t = n -> count is_poll t = n) /\
        (count is_sleep t < n -> count is_poll t = S (count is_sleep t))%nat
    end.
Proof.
  induction n as [|n IH]; intros i w x w'; cbn [waitClose_loop]; intros Hrun.
  { run_inv Hrun. exists []. rewrite add_events_nil. cbn. repeat split; try lia.
    constructor. }
  unfold dm_GetInfo, time_Sleep in Hrun. run_inv Hrun.
  all: try match goal with Hl : waitClose_loop _ _ _ _ = _ |- _ =>
         apply IH in Hl as (t & -> & Hs & Hx) end.
  all: rewrite ?add_events_app.
  all: eexists; (split; [reflexivity|]).
  all: cbn [app]; unfold count in *; cbn [List.filter is_poll is_sleep length].
  all: split; [repeat constructor; try discriminate; try done|].
  all: try (destruct x as [r|j];
            [destruct Hx as (Hr & ? & Hl & ? & ?) | destruct Hx as (? & ? & ? & ?)];
            repeat split; try first [assumption | lia];
            try (rewrite Hr; unfold add_events; cbn [trace];
                 now rewrite <- ?app_assoc);
            try (destruct t; [discriminate Hl | exact Hl])).
  all: cbn [snd add_events trace] in *; repeat split; try first [reflexivity | lia].
  all: try (symmetry; assumption).
  all: congruence.
Qed.

(** X22.  [waitClose] is bounded: it asks for the state of the device
    at most 1000 times and sleeps, 10 ms at a time, no more often than
    it asks; it changes neither the DeviceSet nor any file.  It
    returns nil as soon as the open count is 0; an error of the query
    is returned as it is, and ends the wait at once; after 1000 polls
    that each found the device open it returns the timeout. *)
Theorem waitClose_bounded info w r w' :
  waitClose info w = Returns r w' ->
  devices w' = devices w /\ files w' = files w /\
  exists t, trace w' = trace w ++ t /\
    Forall (fun ev => is_sleep ev = true -> ev = EvSleep 10) t /\
    (count is_poll t <= 1000)%nat /\
    (count is_sleep t <= count is_poll t)%nat /\
    match r with
    | Some e =>
        (e = Errorf "Timeout while waiting for device %s to close" [ArgS (Hash info)] /\
         (count is_poll t = 1000)%nat /\ (count is_sleep t = 1000)%nat) \/
        (env_err (trace w') = Some e /\
         last t = Some (EvGetInfo (Name (devices w) info)) /\
         (count is_sleep t < count is_poll t)%nat)
    | None => (count is_sleep t < 1000)%nat
    end.
Proof.
  unfold waitClose. intros Hrun. run_inv Hrun.
  all: match goal with Hl : waitClose_loop _ _ _ _ = _ |- _ =>
         apply waitClose_loop_bounded in Hl as (t & -> & Hs & Hx) end.
  all: split; [reflexivity|]; split; [reflexivity|].
  all: exists t; split; [reflexivity|]; split; [exact Hs|].
  - destruct Hx as (-> & Hne & Hl & ? & ?). split; [lia|]. split; [lia|].
    destruct (env_err _) as [e|] eqn:Ee; [|done]. right. repeat split; try done.
  - destruct Hx as (Hj & Hn & Hfull & Hpart).
    match goal with E : (_ =? 1000) = true |- _ => apply Z.eqb_eq in E end.
    assert (count is_sleep t = 1000%nat) as Hc by lia.
    specialize (Hfull Hc). rewrite ?Hc, ?Hfull. split; [lia|]. split; [lia|].
    left. repeat split; lia.
  - destruct Hx as (Hj & Hn & Hfull & Hpart).
    match goal with E : (_ =? 1000) = false |- _ => apply Z.eqb_neq in E end.
    assert (count is_sleep t < 1000)%nat as Hc by lia.
    specialize (Hpart Hc). repeat split; lia.
Qed.

End Properties.

(** * Concrete runs *)

Lemma returned_run {A} (o : outcome A) (a : A) (w : World) :
  returned o = Some a -> o = Returns a (world_after o w).
Proof. destruct o as [b w'|s]; intros [=]. now subst. Qed.

Lemma fresh_world_bitmap_ok : bitmap_ok fresh_world.
Proof. apply length_replicate. Qed.

(** Mounted once at [/mnt/a]: a mount at [/mnt/b] is refused and leaves
    the world alone; a mount at [/mnt/a] only counts. *)
Lemma MountDevice_while_mounted_witness :
  MountDevice (H := quiet_env) "h" "/mnt/b" "" (mounted_world 1) =
    Returns (Some (Errorf "Trying to mount devmapper device in multple places (%s, %s)"
                     [ArgS "/mnt/a"; ArgS "/mnt/b"])) (mounted_world 1) /\
  MountDevice (H := quiet_env) "h" "/mnt/a" "" (mounted_world 1) =
    Returns None (with_info "h" (set_mountCount (wrap_int (1 + 1)) (mounted_info 1))
                    (mounted_world 1)).
Proof.
  destruct (MountDevice_while_mounted (H := quiet_env) (mounted_world 1) "h" "/mnt/b" ""
              (mounted_info 1)) as [Hb _]; [vm_compute; reflexivity | reflexivity |].
  destruct (MountDevice_while_mounted (H := quiet_env) (mounted_world 1) "h" "/mnt/a" ""
              (mounted_info 1)) as [_ Ha]; [vm_compute; reflexivity | reflexivity |].
  split.
  - apply Hb. discriminate.
  - apply Ha. reflexivity.
Defined.

(** Mounted once, and the kernel refuses to unmount: the error comes
    back, with the count already at 0 and the path still there. *)
Lemma UnmountDevice_error_keeps_decrement_witness :
  exists w',
    UnmountDevice (H := busy_env) "h" (mounted_world 1) = Returns (Some ErrBusy) w' /\
    Devices (devices w') !! "h" = Some (mkDevInfo "h" 7 1024 1 true 0 "/mnt/a").
Proof.
  destruct (UnmountDevice_error_keeps_decrement (H := busy_env) (mounted_world 1) "h"
              (mounted_info 1)) as (_ & Hfail & _);
    [vm_compute; reflexivity | reflexivity |].
  apply Hfail. vm_compute. reflexivity.
Defined.


(** Writing the record of the base device on a disk that works. *)
Lemma writeMetaFile_atomic_witness :
  files (world_after
           (writeMetaFile (H := quiet_env) [] "/var/lib/docker/metadata/base" small_world)
           small_world) !! "/var/lib/docker/metadata/base" = Some [].
Proof.
  pose proof (writeMetaFile_atomic (H := quiet_env) small_world []
                "/var/lib/docker/metadata/base") as Hw.
  assert (returned (writeMetaFile (H := quiet_env) [] "/var/lib/docker/metadata/base"
                      small_world) = Some None) as Hr by (vm_compute; reflexivity).
  destruct (writeMetaFile (H := quiet_env) [] "/var/lib/docker/metadata/base" small_world)
    as [[e|] w'|s]; [discriminate Hr| |discriminate Hr].
  apply Hw. intros suffix. cbn. discriminate.
Defined.

(** On a DeviceSet just made the first id handed out is 1. *)
Lemma getNextFreeDeviceId_first_free_witness :
  exists w',
    getNextFreeDeviceId fresh_world = Returns (Ok 1) w' /\
    NextDeviceId (devices w') = 1 /\
    isDeviceIdFree 1 w' = Returns false w'.
Proof.
  destruct (getNextFreeDeviceId_first_free fresh_world fresh_world_bitmap_ok)
    as [(k & Hk & Hused & _ & w' & Hrun & Hnext & _ & Hbit & _) | (Hall & _)].
  - assert (k = 0) as ->.
    { destruct (Z.eq_dec k 0) as [E|E]; [exact E|].
      specialize (Hused 0 ltac:(lia)).
      assert (returned (isDeviceIdFree ((((NextDeviceId (devices fresh_world) + 1)
                  mod 2 ^ 24) + 0) mod 2 ^ 24) fresh_world) = Some true) as Hfree
        by (vm_compute; reflexivity).
      rewrite Hused in Hfree. discriminate Hfree. }
    exists w'. split; [exact Hrun|]. split; [exact Hnext | exact Hbit].
  - specialize (Hall 1 ltac:(unfold valid_id; vm_compute; split; discriminate)).
    assert (returned (isDeviceIdFree 1 fresh_world) = Some true) as Hfree
      by (vm_compute; reflexivity).
    rewrite Hall in Hfree. discriminate Hfree.
Defined.

(** An external pool with used data blocks and no base device. *)
Lemma setupBaseImage_refuses_used_pool_witness :
  returned (setupBaseImage (H := used_pool_env) pool_world) =
  Some (Some (Errorf
    "Unable to take ownership of thin-pool (%s) that already has used data blocks"
    [ArgS "pool"])).
Proof.
  destruct (setupBaseImage_refuses_used_pool (H := used_pool_env) pool_world
              (Errorf "Unknown device %s" [ArgS ""])
              (world_after (lookupDevice (H := used_pool_env) "" pool_world) pool_world)
              (mkPoolStatus (2 ^ 62) 0 12 100 0 0) None
              (world_after (poolStatus (H := used_pool_env)
                 (world_after (lookupDevice (H := used_pool_env) "" pool_world)
                    pool_world)) pool_world))
    as (_ & _ & Hused & _).
  - discriminate.
  - apply returned_run. vm_compute. reflexivity.
  - apply returned_run. vm_compute. reflexivity.
  - rewrite Hused; [reflexivity | reflexivity | discriminate].
Defined.
(** Creating the first device on a DeviceSet just made takes the pool
    from transaction 0 to transaction 1. *)
Lemma transaction_monotonicity_witness :
  TransactionId
    (devices (world_after (createRegisterDevice (H := quiet_env) "h" fresh_world)
                fresh_world)) = 0 + 1.
Proof.
  destruct (transaction_monotonicity (H := quiet_env) fresh_world) as (Hcreate & _).
  - vm_compute. split; [discriminate | reflexivity].
  - destruct (Hcreate "h" (mkDevInfo "h" 1 DefaultBaseFsSize 1 false 0 "")
                (world_after (createRegisterDevice (H := quiet_env) "h" fresh_world)
                   fresh_world)) as (Hid & _).
    + apply returned_run. vm_compute. reflexivity.
    + exact Hid.
Defined.


(** The pool already has the device 1: each create moves on to the id
    2, and the bit of 1 stays set. *)
Lemma retry_keeps_superseded_ids_witness :
  (exists r w',
     createRegisterDevice (H := retry_env) "h" fresh_world = Returns r w' /\
     create_bits fresh_world w' (is_Ok r)) /\
  (exists r w',
     createRegisterSnapDevice (H := retry_env) "h" (mounted_info 0) fresh_world =
       Returns r w' /\
     create_bits fresh_world w' (is_nil r)).
Proof.
  apply (retry_keeps_superseded_ids (H := retry_env)), fresh_world_bitmap_ok.
Defined.

Lemma retry_run_tries_two_ids :
  created (trace (world_after (createRegisterDevice (H := retry_env) "h" fresh_world)
                    fresh_world)) = [1; 2] /\
  bit_of (deviceIdMap
            (devices (world_after (createRegisterDevice (H := retry_env) "h" fresh_world)
                        fresh_world))) 1 = true.
Proof. vm_compute. split; reflexivity. Qed.

(** A raw data device and no [dm.blkdiscard]: discards are off. *)
Lemma NewDeviceSet_blkdiscard_default_witness :
  match returned (NewDeviceSet (H := quiet_env) "/var/lib/docker" false
                    ["dm.datadev=/dev/sdb"] small_world) with
  | Some (Ok d) => doBlkDiscard d = false
  | _ => False
  end.
Proof.
  assert (match returned (NewDeviceSet (H := quiet_env) "/var/lib/docker" false
                            ["dm.datadev=/dev/sdb"] small_world) with
          | Some (Ok _) => true
          | _ => false
          end = true) as Hr by (vm_compute; reflexivity).
  destruct (NewDeviceSet (H := quiet_env) "/var/lib/docker" false
              ["dm.datadev=/dev/sdb"] small_world) as [[d|e] w'|s] eqn:E;
    [|discriminate Hr..].
  exact (NewDeviceSet_blkdiscard_default (H := quiet_env) "/var/lib/docker" false
           ["dm.datadev=/dev/sdb"] small_world d w' E).
Defined.
